(** * Geofenced attendance enforcer: embedding and verification

    A shallow embedding of the control core of the oneHR Telegram bot
    server (live-location tracker, geofence validator, auto-clock-out
    monitor), followed by the theorems that settle the specification's
    claims against it.

    Conventions of the embedding.
    - A timestamp is the number of milliseconds since the Unix epoch
      ([Z]); the stored form is the ISO-8601 string of that instant, and
      [dayjs.utc] reads it back.  [None] stands for JavaScript's [null].
    - JavaScript numbers that carry measurements (coordinates, hours) are
      IEEE-754 binary64 values ([float]); counters of whole minutes or
      milliseconds are [Z].
    - Every function that reads the clock takes the reading as its
      [now] argument; the readings made inside one call are taken at one
      instant, except in [performAutoClockOut], whose three readings
      (the entry's timestamp, the elapsed hours, [lastChanged]) are
      kept apart ([Clock.t]).
    - A string is held in UTF-8; [Js.codeUnits] gives the UTF-16 code
      units JavaScript sees, for the functions that look at characters
      ([trim], [parseInt], the regular expressions).
    - A call that throws (a promise that rejects) returns [None] where
      the result type is an [option] of what the call returns.
    - A JavaScript array is a [list (option A)]: [None] is a hole (an
      element that reads as [undefined]). *)

From Stdlib Require Import ZArith Floats Uint63 Lia Bool Ascii String.
From stdpp Require Import base option list strings gmap pretty.

Set Warnings "-register-all,-inexact-float".
Open Scope Z_scope.

(* ===================================================================== *)
(** ** JavaScript helpers *)
(* ===================================================================== *)

Module Js.

(** The binary64 value of an integer (exact below 2^53). *)
Definition float_of_Z (z : Z) : float :=
  if z <? 0 then PrimFloat.opp (PrimFloat.of_uint63 (Uint63.of_Z (- z)))
  else PrimFloat.of_uint63 (Uint63.of_Z z).

(** Truthiness of a number: [0], [-0] and [NaN] are falsy. *)
Definition truthyNum (x : float) : bool :=
  negb (PrimFloat.eqb x 0%float || PrimFloat.is_nan x).

(** [x || 0] for [x : number | null | undefined]. *)
Definition orZero (x : option float) : float :=
  match x with
  | Some v => if truthyNum v then v else 0%float
  | None => 0%float
  end.

(** Truthiness of a string: only the empty string is falsy. *)
Definition truthyStr (s : string) : bool :=
  match s with EmptyString => false | _ => true end.

(** [s || undefined] and [s || d] for [s : string | null | undefined]. *)
Definition strOrUndefined (s : option string) : option string :=
  match s with
  | Some v => if truthyStr v then Some v else None
  | None => None
  end.

(** [hay.includes(needle)]. *)
Fixpoint includes (needle hay : string) : bool :=
  String.prefix needle hay ||
  match hay with
  | EmptyString => false
  | String _ rest => includes needle rest
  end.

Definition byte (c : ascii) : Z := Z.of_nat (nat_of_ascii c).

(** A byte that continues a UTF-8 sequence. *)
Definition isContinuation (b : Z) : bool := (128 <=? b) && (b <? 192).

(** The UTF-16 code units of a string held in UTF-8: one unit for a
    sequence of one, two or three bytes, a surrogate pair for a
    sequence of four.  A byte that cannot start a sequence, and a
    sequence cut short by the end of the string or by a byte that does
    not continue it, read as U+FFFD; the reading resumes at the byte
    that cut the sequence short. *)
Fixpoint codeUnits (s : string) : list Z :=
  match s with
  | EmptyString => []
  | String c1 s1 =>
      let b1 := byte c1 in
      if b1 <? 128 then b1 :: codeUnits s1
      else if b1 <? 192 then 65533 :: codeUnits s1
      else
        match s1 with
        | EmptyString => [65533]
        | String c2 s2 =>
            let b2 := byte c2 in
            if negb (isContinuation b2) then 65533 :: codeUnits s1
            else if b1 <? 224 then ((b1 - 192) * 64 + (b2 - 128)) :: codeUnits s2
            else
              match s2 with
              | EmptyString => [65533]
              | String c3 s3 =>
                  let b3 := byte c3 in
                  if negb (isContinuation b3) then 65533 :: codeUnits s2
                  else if b1 <? 240 then
                    ((b1 - 224) * 4096 + (b2 - 128) * 64 + (b3 - 128))
                      :: codeUnits s3
                  else
                    match s3 with
                    | EmptyString => [65533]
                    | String c4 s4 =>
                        let b4 := byte c4 in
                        if negb (isContinuation b4) then 65533 :: codeUnits s3
                        else
                          let v := (b1 - 240) * 262144 + (b2 - 128) * 4096
                                   + (b3 - 128) * 64 + (b4 - 128) - 65536 in
                          (55296 + v / 1024) :: (56320 + v mod 1024)
                            :: codeUnits s4
                    end
              end
        end
  end.

(** The white space of ECMAScript ([WhiteSpace] and [LineTerminator]):
    what [trim] removes, [parseInt] skips and [\s] matches.  TAB, LF,
    VT, FF, CR, SPACE, U+00A0, U+1680, U+2000 to U+200A, U+2028,
    U+2029, U+202F, U+205F, U+3000 and U+FEFF. *)
Definition isWhiteSpace (u : Z) : bool :=
  ((9 <=? u) && (u <=? 13)) || (u =? 32) || (u =? 160) || (u =? 5760)
  || ((8192 <=? u) && (u <=? 8202)) || (u =? 8232) || (u =? 8233)
  || (u =? 8239) || (u =? 8287) || (u =? 12288) || (u =? 65279).

(** [s.trim() === ''] *)
Definition trimIsEmpty (s : string) : bool :=
  forallb isWhiteSpace (codeUnits s).

Fixpoint skipWhiteSpace (units : list Z) : list Z :=
  match units with
  | u :: rest => if isWhiteSpace u then skipWhiteSpace rest else units
  | [] => []
  end.

Definition digitValue (u : Z) : option Z :=
  if (48 <=? u) && (u <=? 57) then Some (u - 48) else None.

(** The longest run of decimal digits at the head of [units], folded
    into [acc]; [seen] records whether a digit was read. *)
Fixpoint readDigits (units : list Z) (acc : Z) (seen : bool) : option Z :=
  match units with
  | u :: rest =>
      match digitValue u with
      | Some d => readDigits rest (10 * acc + d) true
      | None => if seen then Some acc else None
      end
  | [] => if seen then Some acc else None
  end.

(** [parseInt(s, 10)]; [None] is [NaN].  45 is ["-"], 43 is ["+"]. *)
Definition parseInt (s : string) : option Z :=
  match skipWhiteSpace (codeUnits s) with
  | 45 :: rest => Z.opp <$> readDigits rest 0 false
  | 43 :: rest => readDigits rest 0 false
  | t => readDigits t 0 false
  end.

Section Arrays.
Context {A : Type}.

(** [a[i]]: a hole and an index past the end both read as
    [undefined]. *)
Definition arrayGet (a : list (option A)) (i : nat) : option A :=
  mjoin (a !! i).

(** [a[i] = v]: in range the element is replaced; past the end the
    array grows, the gap being holes. *)
Definition arraySet (a : list (option A)) (i : nat) (v : option A)
  : list (option A) :=
  if (i <? length a)%nat then <[i := v]> a
  else a ++ replicate (i - length a) None ++ [v].
End Arrays.

End Js.

(* ===================================================================== *)
(** ** The parts of dayjs the core uses *)
(* ===================================================================== *)

Module Dayjs.

(** [d.date()] of a UTC instant: the day of the month, 1..31
    (proleptic Gregorian calendar, days counted from 0000-03-01). *)
Definition date (ms : Z) : Z :=
  let days := ms / 86400000 in
  let z := days + 719468 in
  let era := z / 146097 in
  let doe := z - era * 146097 in
  let yoe := (doe - doe / 1460 + doe / 36524 - doe / 146096) / 365 in
  let doy := doe - (365 * yoe + yoe / 4 - yoe / 100) in
  let mp := (5 * doy + 2) / 153 in
  doy - (153 * mp + 2) / 5 + 1.

(** The civil month (1..12) and year of a UTC instant, by the same
    count of days. *)
Definition civilMonth (ms : Z) : Z :=
  let days := ms / 86400000 in
  let z := days + 719468 in
  let era := z / 146097 in
  let doe := z - era * 146097 in
  let yoe := (doe - doe / 1460 + doe / 36524 - doe / 146096) / 365 in
  let doy := doe - (365 * yoe + yoe / 4 - yoe / 100) in
  let mp := (5 * doy + 2) / 153 in
  if mp <? 10 then mp + 3 else mp - 9.

(** [d.year()] *)
Definition year (ms : Z) : Z :=
  let days := ms / 86400000 in
  let z := days + 719468 in
  let era := z / 146097 in
  let doe := z - era * 146097 in
  let yoe := (doe - doe / 1460 + doe / 36524 - doe / 146096) / 365 in
  let y := yoe + era * 400 in
  if civilMonth ms <=? 2 then y + 1 else y.

Definition monthNames : list string :=
  [ "January"; "February"; "March"; "April"; "May"; "June"; "July";
    "August"; "September"; "October"; "November"; "December" ].

(** [d.format('MMMM')] *)
Definition monthName (ms : Z) : string :=
  nth (Z.to_nat (civilMonth ms - 1)) monthNames "".

(** [a.diff(b)]: milliseconds. *)
Definition diff (a b : Z) : Z := a - b.

(** [a.diff(b, 'minute')]: whole minutes, truncated toward zero. *)
Definition diffMinutes (a b : Z) : Z := Z.quot (a - b) 60000.

(** [a.diff(b, 'hours', true)]: fractional hours.  [b = None] is an
    invalid date ([dayjs.utc(null)]), whose difference is [NaN]. *)
Definition diffHours (a : Z) (b : option Z) : float :=
  match b with
  | Some t => PrimFloat.div (Js.float_of_Z (a - t)) 3600000%float
  | None => PrimFloat.nan
  end.

Definition isBefore (a b : Z) : bool := a <? b.
Definition isAfter (a b : Z) : bool := b <? a.

End Dayjs.

(* ===================================================================== *)
(** ** util/locationValidation.ts *)
(* ===================================================================== *)

Inductive LocationSource := telegram | telegram_live.

Module EmployeeCurrentLocation.
Record t := Build {
  latitude : float;
  longitude : float;
  accuracy : option float;
  heading : option float;
  speed : option float;
  source : LocationSource;
  isLive : bool;
  updatedAt : Z;
  liveMessageId : option string;
  liveChatId : option string;
  liveUntil : option Z;
  endedAt : option Z
}.
End EmployeeCurrentLocation.

Module LocationValidationResult.
Record t := Build {
  isValid : bool;
  error : option string;
  accuracy : option float;
  coordinates : option (float * float);   (* [longitude, latitude] *)
  locationAge : option Z;
  isLive : option bool
}.
End LocationValidationResult.

(** What [JSON.parse] produces. *)
Inductive json :=
| JNull
| JBool (b : bool)
| JNum (x : float)
| JStr (s : string)
| JArr (items : list json)
| JObj (fields : list (string * json)).

Abbreviation Ring := (list (float * float)).
Abbreviation Polygon := (list (list (float * float))).
Abbreviation MultiPolygon := (list (list (list (float * float)))).

Module LocationValidation.
Import EmployeeCurrentLocation.
Module R := LocationValidationResult.

Definition defaultMaxAge (maxAgeMinutes : option Z) : Z :=
  default 30 maxAgeMinutes.

Definition tooOldMessage (ageMinutes : Z) : string :=
  "Location data is too old (" +:+ pretty ageMinutes
    +:+ " minutes). Please update your location.".

(** [employeeLocation.isLive ? employeeLocation.isLive : null] *)
Definition liveOrNull (b : bool) : option bool :=
  if b then Some true else None.

Definition validateEmployeeLocation (now : Z)
    (employeeLocation : option EmployeeCurrentLocation.t)
    (maxAgeMinutes : option Z) : R.t :=
  let maxAgeMinutes := defaultMaxAge maxAgeMinutes in
  match employeeLocation with
  | None =>
      R.Build false
        (Some "No location data available. Please share your location first.")
        None None None None
  | Some loc =>
      if bool_decide (is_Some (endedAt loc)) then
        R.Build false
          (Some "Location sharing has ended. Please share your location again.")
          None None None None
      else
        let ageMinutes := Dayjs.diffMinutes now (updatedAt loc) in
        if ageMinutes >? maxAgeMinutes then
          R.Build false (Some (tooOldMessage ageMinutes))
            None None (Some ageMinutes) (liveOrNull (isLive loc))
        else
          let expired :=
            isLive loc &&
            match liveUntil loc with
            | Some until => Dayjs.isAfter now until
            | None => false
            end in
          if expired then
            R.Build false
              (Some "Live location sharing has expired. Please share your location again.")
              None None (Some ageMinutes) (Some false)
          else
            R.Build true None
              (Some (Js.orZero (accuracy loc)))
              (Some (longitude loc, latitude loc))
              (Some ageMinutes) (liveOrNull (isLive loc))
  end.

Definition hasValidLocation (now : Z)
    (employeeLocation : option EmployeeCurrentLocation.t)
    (maxAgeMinutes : option Z) : bool :=
  let maxAgeMinutes := defaultMaxAge maxAgeMinutes in
  match employeeLocation with
  | None => false
  | Some loc =>
      if bool_decide (is_Some (endedAt loc)) then false
      else
        let ageMinutes := Dayjs.diffMinutes now (updatedAt loc) in
        if ageMinutes >? maxAgeMinutes then false
        else
          match isLive loc, liveUntil loc with
          | true, Some until => if Dayjs.isAfter now until then false else true
          | _, _ => true
          end
  end.

(** *** parseWorkingArea *)

Definition validateCoord (coord : json) : option (float * float) :=
  match coord with
  | JArr [JNum x; JNum y] => Some (x, y)
  | _ => None
  end.

Definition validateRing (ring : json) : option Ring :=
  match ring with
  | JArr coords =>
      if (length coords <? 3)%nat then None else mapM validateCoord coords
  | _ => None
  end.

Definition validatePolygon (polygon : json) : option Polygon :=
  match polygon with
  | JArr rings =>
      if (length rings =? 0)%nat then None else mapM validateRing rings
  | _ => None
  end.

(** [parsed.length === 1 && Array.isArray(parsed[0]) &&
     parsed[0].length > 0 && Array.isArray(parsed[0][0])] *)
Definition singlePolygonCase (items : list json) : bool :=
  match items with
  | [JArr (JArr _ :: _)] => true
  | _ => false
  end.

(** The body of [parseWorkingArea] after [JSON.parse] has returned
    [parsed]. *)
Definition parseWorkingAreaValue (parsed : json) : option MultiPolygon :=
  match parsed with
  | JArr items =>
      if (length items =? 0)%nat then None
      else
        let polygons := if singlePolygonCase items then [parsed] else items in
        mapM validatePolygon polygons
  | _ => None
  end.

(** [JSON_parse] is the platform's [JSON.parse]; [None] is a thrown
    [SyntaxError], which the [catch] turns into [null]. *)
Definition parseWorkingArea (JSON_parse : string -> option json)
    (workingArea : string) : option MultiPolygon :=
  match JSON_parse workingArea with
  | Some parsed => parseWorkingAreaValue parsed
  | None => None
  end.

(** *** Ray casting *)

(** The test on the edge from [(xj, yj)] to [(xi, yi)]. *)
Definition crosses (x y : float) (ci cj : float * float) : bool :=
  let '(xi, yi) := ci in
  let '(xj, yj) := cj in
  negb (Bool.eqb (PrimFloat.ltb y yi) (PrimFloat.ltb y yj)) &&
  PrimFloat.ltb x
    (PrimFloat.add
       (PrimFloat.div (PrimFloat.mul (PrimFloat.sub xj xi) (PrimFloat.sub y yi))
                      (PrimFloat.sub yj yi))
       xi).

(** The loop [for (i = 0, j = n - 1; i < n; j = i++)], [cj] being
    [polygon[j]] and [rest] the points from index [i] on. *)
Fixpoint rayCast (x y : float) (cj : float * float) (rest : Ring)
    (inside : bool) : bool :=
  match rest with
  | [] => inside
  | ci :: rest' =>
      rayCast x y ci rest' (if crosses x y ci cj then negb inside else inside)
  end.

Definition isPointInPolygon (point : float * float) (polygon : Ring) : bool :=
  let '(x, y) := point in
  match last polygon with
  | Some cj => rayCast x y cj polygon false
  | None => false
  end.

(** Only the first ring of each polygon is tested.  The source
    re-validates every coordinate of that ring; on values of this type
    that validation always passes. *)
Fixpoint isPointInMultiPolygon (point : float * float)
    (multiPolygon : MultiPolygon) : bool :=
  match multiPolygon with
  | [] => false
  | polygon :: others =>
      match polygon with
      | outerRing :: _ =>
          if (0 <? length outerRing)%nat && isPointInPolygon point outerRing
          then true
          else isPointInMultiPolygon point others
      | [] => isPointInMultiPolygon point others
      end
  end.

(** *** validateEmployeeLocationAndArea *)

(** The zone of the validator's log line,
    [employeeTimezone || 'Africa/Nairobi']. *)
Definition logZone (employeeTimezone : option string) : string :=
  default "Africa/Nairobi" (Js.strOrUndefined employeeTimezone).

(** [zoneAccepted] says whether [Intl] knows a zone.  Once the location
    is known and has not ended, the function logs both instants through
    [formatTimestamp(.., tz)], and [dayjs(..).tz(zone)] throws a
    [RangeError] on a zone [Intl] rejects: the call then returns no
    verdict ([None]). *)
Definition validateEmployeeLocationAndArea
    (JSON_parse : string -> option json) (zoneAccepted : string -> bool)
    (now : Z) (employeeLocation : option EmployeeCurrentLocation.t)
    (workingArea : string) (maxAgeMinutes : option Z)
    (employeeTimezone : option string) : option R.t :=
  let maxAgeMinutes := defaultMaxAge maxAgeMinutes in
  match employeeLocation with
  | None =>
      Some (R.Build false
              (Some "No location data available. Please share your location first.")
              None None None None)
  | Some loc =>
      if bool_decide (is_Some (endedAt loc)) then
        Some (R.Build false
                (Some "Location sharing has ended. Please share your location again.")
                None None None None)
      else
        let ageMinutes := Dayjs.diffMinutes now (updatedAt loc) in
        let tz := logZone employeeTimezone in
        if negb (zoneAccepted tz) then None else
        let isLive :=
          isLive loc &&
          match liveUntil loc with
          | None => true
          | Some until => Dayjs.isBefore now until
          end in
        if isLive then
          let coordinates := (longitude loc, latitude loc) in
          match parseWorkingArea JSON_parse workingArea with
          | None =>
              Some (R.Build false
                      (Some "Invalid working area configuration. Please contact your administrator.")
                      (Some (Js.orZero (accuracy loc))) (Some coordinates)
                      (Some ageMinutes) (Some true))
          | Some parsedArea =>
              if negb (isPointInMultiPolygon coordinates parsedArea) then
                Some (R.Build false
                        (Some "You are outside your designated working area. Clock in/out is only allowed within your assigned work location.")
                        (Some (Js.orZero (accuracy loc))) (Some coordinates)
                        (Some ageMinutes) (Some true))
              else
                Some (R.Build true None
                        (Some (Js.orZero (accuracy loc))) (Some coordinates)
                        (Some ageMinutes) (Some true))
          end
        else if ageMinutes >? maxAgeMinutes then
          Some (R.Build false (Some (tooOldMessage ageMinutes))
                  None None (Some ageMinutes) (Some false))
        else
          Some (R.Build false
                  (Some "Location sharing is not active. Please share your live location.")
                  (Some (Js.orZero (accuracy loc)))
                  (Some (longitude loc, latitude loc))
                  (Some ageMinutes) (Some false))
  end.

End LocationValidation.

(* ===================================================================== *)
(** ** models/attendance, models/employee (the fields the core reads) *)
(* ===================================================================== *)

(** ["Clock In" | "Clock Out"] *)
Inductive PunchType := ClockIn | ClockOut.

Module WorkedHoursModel.
Record t := Build {
  id : string;
  timestamp : Z;
  type : PunchType;
  hour : string
}.
End WorkedHoursModel.

Module DailyAttendance.
Record t := Build {
  id : string;
  day : Z;
  value : option string;
  timestamp : Z;
  from : option string;
  to : option string;
  status : string;
  dailyWorkedHours : float;
  workedHours : list WorkedHoursModel.t
}.
End DailyAttendance.

(** The stored [values] field: an array, or the object with numeric
    string keys the store may hand back ([entries] in [Object.entries]
    order). *)
Inductive AttendanceValues :=
| ValuesArray (a : list (option DailyAttendance.t))
| ValuesObject (entries : list (string * DailyAttendance.t)).

Module AttendanceModel.
Record t := Build {
  id : string;
  uid : string;
  year : Z;
  month : string;
  monthlyWorkedHours : float;
  lastClockInTimestamp : option Z;
  values : AttendanceValues
}.
End AttendanceModel.

Module EmployeeModel.
Record t := Build {
  id : string;
  uid : string;
  telegramChatID : option string;
  currentLocation : option EmployeeCurrentLocation.t;
  workingArea : option string;
  timezone : option string;
  reportingLineManager : option string
}.
End EmployeeModel.

(** A database handle as one monitor tick sees it: the attendance and
    employee collections, and what becomes of the operations issued
    through the retry wrapper.  [readsSucceed] is the fate of the
    queries (the attendance query of a scan, the lookup of a manager or
    of a chat) and [writesSucceed] that of the updates.  [failedLookup]
    is for a scan whose attendance query went through: the position,
    among the clocked-in documents it found, of the first lookup of an
    employee that throws, if one does. *)
Module Firestore.
Record t := Build {
  attendance : list AttendanceModel.t;
  employee : list EmployeeModel.t;
  readsSucceed : bool;
  writesSucceed : bool;
  failedLookup : option nat
}.
End Firestore.

(** [Record<string, Firestore>], in [Object.entries] order. *)
Abbreviation HealthyDbs := (list (string * Firestore.t)).

Definition lookupDb (healthyDbs : HealthyDbs) (projectName : string)
  : option Firestore.t :=
  snd <$> List.find (fun p => bool_decide (fst p = projectName)) healthyDbs.

(** External collaborators of the core. *)
Record World := {
  JSON_parse : string -> option json;
  DEFAULT_TZ : string;
  (** Whether [Intl] knows the zone: [dayjs.utc(d).tz(zone)] throws a
      [RangeError] when it does not. *)
  zoneAccepted : string -> bool;
  (** [dayjs.utc(d).tz(zone).format('h:mm A')], for a zone [Intl] knows *)
  formatInZone : string -> Z -> string;
  getEmployeeFullName : EmployeeModel.t -> string
}.

(** util/dayjs_format.ts; [None] is the [RangeError]. *)
Definition formatHour (w : World) (d : Z) (tz : option string) : option string :=
  let zone := default (DEFAULT_TZ w) (Js.strOrUndefined tz) in
  if zoneAccepted w zone then Some (formatInZone w zone d) else None.

Module JsSort.
Section Sort.
Context {A : Type} (cmp : A -> A -> Z).

Fixpoint insert (x : A) (l : list A) : list A :=
  match l with
  | [] => [x]
  | y :: l' => if cmp x y <=? 0 then x :: l else y :: insert x l'
  end.

(** [l.sort(cmp)]: a stable sort. *)
Definition sort (l : list A) : list A := foldr insert [] l.
End Sort.
End JsSort.

(* ===================================================================== *)
(** ** services/location-monitoring.service.ts *)
(* ===================================================================== *)

Module AutoClockOutResult.
Record t := Build {
  success : bool;
  employeeId : string;
  employeeName : string;
  employeeChatID : option string;
  managerChatID : option string;
  error : option string;
  reason : option string
}.
End AutoClockOutResult.

(** The argument of [db.collection('attendance').doc(id).update]. *)
Module UpdateData.
Record t := Build {
  values : list (option DailyAttendance.t);
  monthlyWorkedHours : float;
  lastClockInTimestamp : option Z;
  lastChanged : Z
}.
End UpdateData.

(** The three readings of the clock [performAutoClockOut] makes, in
    the order it makes them: [clockOutTimestamp], the instant the
    elapsed hours are measured at, and [lastChanged]. *)
Module Clock.
Record t := Build {
  stamp : Z;
  elapsed : Z;
  changed : Z
}.

(** All three readings fall on the instant [now]. *)
Definition still (now : Z) : t := Build now now now.
End Clock.

(** [raw: unknown] *)
Inductive Raw :=
| RawArray (a : list (option DailyAttendance.t))
| RawObject (entries : list (string * DailyAttendance.t))
| RawOther.

Module LocationMonitoringService.
Module Loc := EmployeeCurrentLocation.
Module R := LocationValidationResult.
Module D := DailyAttendance.
Module W := WorkedHoursModel.
Module A := AttendanceModel.
Module E := EmployeeModel.

Definition CHECK_INTERVAL_MINUTES : Z := 5.
Definition MAX_LOCATION_AGE_MINUTES : Z := 10.
Definition FEATURE_ENABLED : bool := true.
Definition NOTIFICATION_ENABLED : bool := true.

Definition normalizeEntry (arr : list (option D.t)) (kv : string * D.t)
  : list (option D.t) :=
  match Js.parseInt (fst kv) with
  | Some idx =>
      if (0 <=? idx) && (idx <? 31)
      then Js.arraySet arr (Z.to_nat idx) (Some (snd kv))
      else arr
  | None => arr
  end.

Definition normalizeAttendanceValues (raw : Raw) : list (option D.t) :=
  match raw with
  | RawArray a => a
  | RawObject entries => fold_left normalizeEntry entries []
  | RawOther => []
  end.

(** [dayjs.utc(ts).date() - 1] as an array index; an invalid date
    gives [NaN], which is no index ([None]). *)
Definition dayIndex (ts : option Z) : option nat :=
  (fun t => Z.to_nat (Dayjs.date t - 1)) <$> ts.

(** [attendance.values[i]] on either shape of the stored field. *)
Definition valuesGet (values : AttendanceValues) (i : nat) : option D.t :=
  match values with
  | ValuesArray a => Js.arrayGet a i
  | ValuesObject entries =>
      snd <$> List.find (fun kv => bool_decide (fst kv = pretty (Z.of_nat i))) entries
  end.

(** Everything after the handle check runs inside the [try]: a
    [RangeError] of [formatHour] and a failed update both end in the
    [catch], which reports "Failed to update attendance record". *)
Definition performAutoClockOut (w : World) (clock : Clock.t)
    (entryId dayId : string)
    (attendance : A.t) (projectName : string) (healthyDbs : HealthyDbs)
    (employeeTimezone : option string)
  : (bool * option string) * option UpdateData.t :=
  match lookupDb healthyDbs projectName with
  | None => ((false, Some "Database not available"), None)
  | Some db =>
      let clockOutTimestamp := Clock.stamp clock in
      let clockInDayIndex := dayIndex (A.lastClockInTimestamp attendance) in
      let hoursWorked :=
        Dayjs.diffHours (Clock.elapsed clock) (A.lastClockInTimestamp attendance) in
      let baseValues :=
        match A.values attendance with
        | ValuesArray a => a
        | ValuesObject entries => normalizeAttendanceValues (RawObject entries)
        end in
      let existing :=
        match clockInDayIndex with
        | Some i => Js.arrayGet baseValues i
        | None => None
        end in
      match formatHour w clockOutTimestamp (Js.strOrUndefined employeeTimezone) with
      | None => ((false, Some "Failed to update attendance record"), None)
      | Some hour =>
      let clockOutEntry := W.Build entryId clockOutTimestamp ClockOut hour in
      let workedHours :=
        match existing with Some d => D.workedHours d | None => [] end
        ++ [clockOutEntry] in
      let dailyWorkedHours :=
        PrimFloat.add (Js.orZero (D.dailyWorkedHours <$> existing)) hoursWorked in
      let monthlyWorkedHours :=
        PrimFloat.add (A.monthlyWorkedHours attendance) hoursWorked in
      let baseValues :=
        match clockInDayIndex with
        | Some i =>
            let base :=
              match existing with
              | Some d => d
              | None =>
                  D.Build dayId (Z.of_nat i + 1) None clockOutTimestamp
                    None None "N/A" 0%float []
              end in
            let updatedDay :=
              D.Build (D.id base) (D.day base) (Some "A") clockOutTimestamp
                (D.from base) (D.to base) "Submitted" dailyWorkedHours workedHours in
            Js.arraySet baseValues i (Some updatedDay)
        | None => baseValues   (* a property named "NaN": no element changes *)
        end in
      let updateData :=
        UpdateData.Build baseValues monthlyWorkedHours None (Clock.changed clock) in
      if Firestore.writesSucceed db
      then ((true, None), Some updateData)
      else ((false, Some "Failed to update attendance record"), None)
      end
  end.

Definition findManagerChatID (managerUid projectName : string)
    (healthyDbs : HealthyDbs) : option string :=
  match lookupDb healthyDbs projectName with
  | None => None
  | Some db =>
      if Firestore.readsSucceed db then
        match List.find (fun e => bool_decide (E.uid e = managerUid))
                        (Firestore.employee db) with
        | Some manager => Js.strOrUndefined (E.telegramChatID manager)
        | None => None
        end
      else None
  end.

Definition triggerErrors : list string :=
  [ "outside your designated working area";
    "Location sharing is not active";
    "Location sharing has ended";
    "Location data is too old" ].

(** [wh.type === 'Clock Out'] *)
Definition isClockOut (wh : W.t) : bool :=
  match W.type wh with ClockOut => true | ClockIn => false end.

(** The most recent "Clock Out" entry on the clock-in's day. *)
Definition lastClockOutOf (attendance : A.t) : option W.t :=
  match dayIndex (A.lastClockInTimestamp attendance) with
  | Some i =>
      match valuesGet (A.values attendance) i with
      | Some d =>
          head (JsSort.sort
                  (fun a b => Dayjs.diff (W.timestamp b) (W.timestamp a))
                  (List.filter isClockOut (D.workedHours d)))
      | None => None
      end
  | None => None
  end.

(** "Check if employee was recently auto clocked out (prevent spam)" *)
Definition recentlyClockedOut (now : Z) (attendance : A.t) : bool :=
  match lastClockOutOf attendance with
  | Some lastClockOut =>
      Dayjs.diffMinutes now (W.timestamp lastClockOut) <? CHECK_INTERVAL_MINUTES
  | None => false
  end.

(** The result is the returned [AutoClockOutResult | null] paired with
    the update written to the attendance document, if any; [None] when
    the call throws, which it does when the validator does, before
    anything is attempted.  [now] is the reading of the validator and of
    the dedup check, [clock] the readings of [performAutoClockOut]. *)
Definition checkAndAutoClockOut (w : World) (now : Z) (clock : Clock.t)
    (entryId dayId : string)
    (employee : E.t) (attendance : A.t) (projectName : string)
    (healthyDbs : HealthyDbs)
  : option (option AutoClockOutResult.t * option UpdateData.t) :=
  match Js.strOrUndefined (E.workingArea employee) with
  | None => Some (None, None)
  | Some workingArea =>
    if Js.trimIsEmpty workingArea then Some (None, None) else
    match
      LocationValidation.validateEmployeeLocationAndArea (JSON_parse w)
        (zoneAccepted w) now (E.currentLocation employee) workingArea
        (Some MAX_LOCATION_AGE_MINUTES) (E.timezone employee)
    with
    | None => None
    | Some validation =>
    if R.isValid validation then Some (None, None) else
    let triggers :=
      match R.error validation with
      | Some e => existsb (fun err => Js.includes err e) triggerErrors
      | None => false
      end in
    if negb triggers then Some (None, None) else
    if recentlyClockedOut now attendance then Some (None, None) else
    let '((success, error), written) :=
      performAutoClockOut w clock entryId dayId attendance projectName healthyDbs
        (E.timezone employee) in
    if negb success then
      Some (Some (AutoClockOutResult.Build false (E.uid employee)
                    (getEmployeeFullName w employee) (E.telegramChatID employee)
                    None error None),
            written)
    else
      let managerChatID :=
        match Js.strOrUndefined (E.reportingLineManager employee) with
        | Some manager => findManagerChatID manager projectName healthyDbs
        | None => None
        end in
      Some (Some (AutoClockOutResult.Build true (E.uid employee)
                    (getEmployeeFullName w employee) (E.telegramChatID employee)
                    managerChatID None
                    (Some (default "Outside working area" (R.error validation)))),
            written)
    end
  end.

(** The query [where('year', '==', year).where('month', '==', month)]
    at the instant [now]. *)
Definition ofThisMonth (now : Z) (doc : A.t) : bool :=
  bool_decide (A.year doc = Dayjs.year now)
  && bool_decide (A.month doc = Dayjs.monthName now).

(** [data.lastClockInTimestamp !== null && ... !== undefined] *)
Definition isClockedIn (doc : A.t) : bool :=
  bool_decide (is_Some (A.lastClockInTimestamp doc)).

(** The clocked-in documents whose employee lookup is reached and
    returns: all of them, or those before the first lookup that
    throws. *)
Definition reached (db : Firestore.t) (clockedInDocs : list A.t) : list A.t :=
  match Firestore.failedLookup db with
  | Some k => take k clockedInDocs
  | None => clockedInDocs
  end.

(** One project's share of [findClockedInEmployees]: the month query,
    the client-side filter on [lastClockInTimestamp] and the join with
    the employee.  A query that throws ends the project's share (the
    [catch] logs it and the loop goes on to the next project); the
    triples pushed before it stay. *)
Definition clockedInOf (now : Z) (projectName : string) (db : Firestore.t)
  : list (E.t * A.t * string) :=
  if negb (Firestore.readsSucceed db) then [] else
  omap (fun attendance =>
          match List.find (fun e => bool_decide (E.uid e = A.uid attendance))
                          (Firestore.employee db) with
          | Some employee => Some (employee, attendance, projectName)
          | None => None
          end)
       (reached db
          (List.filter isClockedIn
             (List.filter (ofThisMonth now) (Firestore.attendance db)))).

Definition findClockedInEmployees (now : Z) (healthyDbs : HealthyDbs)
  : list (E.t * A.t * string) :=
  flat_map (fun p => clockedInOf now (fst p) (snd p)) healthyDbs.

(** One monitor tick: the collected results, and the updates written,
    each with the id of the attendance document it went to.
    [clocks k] and [uuids k] are the clock readings and the two fresh
    identifiers of the [k]-th employee's auto-clock-out.  A check that
    throws is caught and logged: it leaves no result and no write. *)
Fixpoint checkAll (w : World) (now : Z) (clocks : nat -> Clock.t)
    (uuids : nat -> string * string)
    (healthyDbs : HealthyDbs) (k : nat) (todo : list (E.t * A.t * string))
  : list AutoClockOutResult.t * list (string * UpdateData.t) :=
  match todo with
  | [] => ([], [])
  | (employee, attendance, projectName) :: rest =>
      let '(result, written) :=
        default (None, None)
          (checkAndAutoClockOut w now (clocks k) (fst (uuids k)) (snd (uuids k))
             employee attendance projectName healthyDbs) in
      let '(results, writes) := checkAll w now clocks uuids healthyDbs (S k) rest in
      (option_list result ++ results,
       option_list (pair (A.id attendance) <$> written) ++ writes)
  end.

Definition runLocationCheck (w : World) (now : Z) (clocks : nat -> Clock.t)
    (uuids : nat -> string * string) (healthyDbs : HealthyDbs)
  : list AutoClockOutResult.t * list (string * UpdateData.t) :=
  checkAll w now clocks uuids healthyDbs 0 (findClockedInEmployees now healthyDbs).

End LocationMonitoringService.

(* ===================================================================== *)
(** ** util/functions/clockInOrOut.ts (the human clock-in/out path) *)
(* ===================================================================== *)

Module AttendanceLogicModel.
Record t := Build {
  presentThreshold : float;
  halfPresentThreshold : float
}.
End AttendanceLogicModel.

Module ClockInOrOut.
Module D := DailyAttendance.
Module W := WorkedHoursModel.
Module A := AttendanceModel.
Import LocationMonitoringService.

(** [values[i] = d] on either shape of the stored field.  On an object
    the property [String(i)] is replaced in place, or added; an added
    property is listed last here (JavaScript lists array-index keys in
    ascending order); the order is seen by [normalizeAttendanceValues]
    alone, and matters there only when two keys read as one index. *)
Fixpoint setEntry (key : string) (d : D.t) (entries : list (string * D.t))
  : list (string * D.t) :=
  match entries with
  | [] => [(key, d)]
  | kv :: rest =>
      if bool_decide (fst kv = key) then (key, d) :: rest
      else kv :: setEntry key d rest
  end.

Definition valuesSet (values : AttendanceValues) (i : nat) (d : D.t)
  : AttendanceValues :=
  match values with
  | ValuesArray a => ValuesArray (Js.arraySet a i (Some d))
  | ValuesObject entries =>
      ValuesObject (setEntry (pretty (Z.of_nat i)) d entries)
  end.

(** [t ? t / 100 : 0] *)
Definition fraction (threshold : float) : float :=
  if Js.truthyNum threshold then PrimFloat.div threshold 100%float else 0%float.

(** [dailyWorkingHour] is what [calculateDailyWorkingHours] returned
    for the shift; [updateError] is [None] when [updateAttendance]
    succeeds and the text of the thrown error otherwise.  The result
    is the returned [{status, error}] and the document written.
    [formatHour] is called outside the [try]: on a zone [Intl] rejects
    the call throws ([None]) before it updates anything. *)
Definition clockInOrOut (w : World) (now : Z) (entryId dayId : string)
    (type : PunchType) (attendance : A.t) (dailyWorkingHour : float)
    (attendanceLogic : AttendanceLogicModel.t)
    (employeeTimezone : option string) (updateError : option string)
  : option ((bool * option string) * option A.t) :=
  if PrimFloat.eqb dailyWorkingHour 0%float then
    Some ((false, Some "Set up shift type and associate to employee"), None)
  else
    let save (newData : A.t) :=
      match updateError with
      | None => Some ((true, None), Some newData)
      | Some e =>
          Some ((false, Some ("Failed to update attendance record" +:+ " " +:+ e)),
                None)
      end in
    let currentDayIndex :=
      match type with
      | ClockIn => dayIndex (Some now)
      | ClockOut => dayIndex (A.lastClockInTimestamp attendance)
      end in
    let existing :=
      match currentDayIndex with
      | Some i => valuesGet (A.values attendance) i
      | None => None
      end in
    let workedHours :=
      match existing with Some d => D.workedHours d | None => [] end in
    match type with
    | ClockIn =>
        let clockInTimestamp := now in
        let i := Z.to_nat (Dayjs.date now - 1) in
        let base :=
          match existing with
          | Some d => d
          | None =>
              D.Build dayId (Z.of_nat i + 1) None clockInTimestamp
                None None "N/A" 0%float []
          end in
        match formatHour w clockInTimestamp (Js.strOrUndefined employeeTimezone) with
        | None => None
        | Some hour =>
        let workedHours :=
          workedHours ++ [W.Build entryId clockInTimestamp ClockIn hour] in
        let day :=
          D.Build (D.id base) (D.day base) (D.value base) (D.timestamp base)
            (D.from base) (D.to base) (D.status base)
            (D.dailyWorkedHours base) workedHours in
        save (A.Build (A.id attendance) (A.uid attendance) (A.year attendance)
                (A.month attendance) (A.monthlyWorkedHours attendance)
                (Some clockInTimestamp)
                (valuesSet (A.values attendance) i day))
        end
    | ClockOut =>
        match A.lastClockInTimestamp attendance with
        | None =>
            Some ((false, Some "Cannot clock out without a previous clock-in."),
                  None)
        | Some clockIn =>
            let clockOutTimestamp := now in
            let clockInDayIndex := Z.to_nat (Dayjs.date clockIn - 1) in
            let base :=
              match existing with
              | Some d => d
              | None =>
                  D.Build dayId (Z.of_nat clockInDayIndex + 1) None
                    clockOutTimestamp None None "N/A" 0%float []
              end in
            let hoursWorked := Dayjs.diffHours now (Some clockIn) in
            match formatHour w clockOutTimestamp
                    (Js.strOrUndefined employeeTimezone) with
            | None => None
            | Some hour =>
            let workedHours :=
              workedHours ++ [W.Build entryId clockOutTimestamp ClockOut hour] in
            let dailyWorkedHours :=
              PrimFloat.add (D.dailyWorkedHours base) hoursWorked in
            let monthlyWorkedHours :=
              PrimFloat.add (A.monthlyWorkedHours attendance) hoursWorked in
            let reaches (threshold : float) :=
              PrimFloat.leb
                (PrimFloat.mul dailyWorkingHour (fraction threshold))
                dailyWorkedHours in
            let attendanceValue :=
              if Js.truthyNum dailyWorkingHour then
                if reaches (AttendanceLogicModel.presentThreshold attendanceLogic)
                then Some "P"
                else if reaches (AttendanceLogicModel.halfPresentThreshold attendanceLogic)
                then Some "H"
                else Some "A"
              else Js.strOrUndefined (D.value base) in
            let day :=
              D.Build (D.id base) (D.day base) attendanceValue clockOutTimestamp
                (D.from base) (D.to base) "Submitted" dailyWorkedHours workedHours in
            save (A.Build (A.id attendance) (A.uid attendance)
                    (A.year attendance) (A.month attendance)
                    monthlyWorkedHours None
                    (valuesSet (A.values attendance) clockInDayIndex day))
            end
        end
    end.

End ClockInOrOut.

(** The attendance document after [doc.update(updateData)]. *)
Definition applyUpdate (doc : AttendanceModel.t) (u : UpdateData.t)
  : AttendanceModel.t :=
  AttendanceModel.Build (AttendanceModel.id doc) (AttendanceModel.uid doc)
    (AttendanceModel.year doc) (AttendanceModel.month doc)
    (UpdateData.monthlyWorkedHours u) (UpdateData.lastClockInTimestamp u)
    (ValuesArray (UpdateData.values u)).

(* ===================================================================== *)
(** ** bot.ts: live-session registry, sweeper and location ingestion *)
(* ===================================================================== *)

Module LiveEntry.
Record t := Build {
  chatId : Z;
  messageId : Z;
  employeeId : string;
  projectName : string;
  liveUntilMs : option Z;
  lastUpdateMs : Z
}.
End LiveEntry.

(** [TgLocation], with the optional fields the handler probes. *)
Module TgLocation.
Record t := Build {
  latitude : float;
  longitude : float;
  horizontal_accuracy : option float;
  heading : option float;
  speed : option float
}.
End TgLocation.

Module LocationLog.
Record t := Build {
  latitude : float;
  longitude : float;
  accuracy : option float;
  heading : option float;
  speed : option float;
  source : LocationSource;
  timestamp : Z;
  chatId : string;
  messageId : string;
  livePeriodSeconds : option Z
}.
End LocationLog.

(** The [currentLocation] field of a stored employee document.  The
    sweeper's update addresses the nested fields
    [currentLocation.isLive] and [currentLocation.endedAt]; on a
    document whose [currentLocation] is [null] that leaves a map holding
    just these two fields ([LocEndedOnly]). *)
Inductive StoredLocation :=
| LocNull
| LocFull (l : EmployeeCurrentLocation.t)
| LocEndedOnly (endedAt : Z).

Module EmployeeDoc.
Record t := Build {
  currentLocation : StoredLocation;
  lastChanged : Z
}.
End EmployeeDoc.

Module Bot.
Module L := LiveEntry.
Module Loc := EmployeeCurrentLocation.

(** Process-wide state of the bot and the stores it writes: the
    registry, the employee documents by (project, document id), and
    the location logs. *)
Record State := {
  liveSessions : gmap string LiveEntry.t;
  employees : gmap (string * string) EmployeeDoc.t;
  locationLogs : list (string * string * LocationLog.t)
}.

Definition LIVE_GRACE_MS : Z := 2 * 60 * 1000.

Definition makeLiveKey (chatId messageId : Z) : string :=
  pretty chatId +:+ ":" +:+ pretty messageId.

(** What [getHealthyDbInstances()] and the retry wrapper give for a
    project at the time of a call. *)
Inductive DbHealth :=
| NoHandle         (* [dbs[projectName]] is undefined *)
| OperationsFail   (* the operation throws after its retries *)
| Healthy.

(** [n || Number.POSITIVE_INFINITY] and the [Math.min] with it;
    [None] is [+Infinity]. *)
Definition durationEnd (entry : L.t) : option Z :=
  match L.liveUntilMs entry with
  | Some n => if n =? 0 then None else Some n
  | None => None
  end.

Definition threshold (entry : L.t) : Z :=
  let staleEnd := L.lastUpdateMs entry + LIVE_GRACE_MS in
  match durationEnd entry with
  | Some d => Z.min d staleEnd
  | None => staleEnd
  end.

(** [update({'currentLocation.isLive': false,
             'currentLocation.endedAt': ts, lastChanged: ts})] *)
Definition endLocation (ts : Z) (s : StoredLocation) : StoredLocation :=
  match s with
  | LocFull l =>
      LocFull (Loc.Build (Loc.latitude l) (Loc.longitude l) (Loc.accuracy l)
                 (Loc.heading l) (Loc.speed l) (Loc.source l) false
                 (Loc.updatedAt l) (Loc.liveMessageId l) (Loc.liveChatId l)
                 (Loc.liveUntil l) (Some ts))
  | LocNull | LocEndedOnly _ => LocEndedOnly ts
  end.

Definition withSessions (st : State) (m : gmap string LiveEntry.t) : State :=
  {| liveSessions := m; employees := employees st;
     locationLogs := locationLogs st |}.

Definition withEmployees (st : State) (m : gmap (string * string) EmployeeDoc.t)
  : State :=
  {| liveSessions := liveSessions st; employees := m;
     locationLogs := locationLogs st |}.

(** [doc(id).update(f)]: [None] when the operation throws (unhealthy
    store, or no such document). *)
Definition updateEmployee (health : DbHealth) (st : State)
    (projectName employeeId : string) (f : EmployeeDoc.t -> EmployeeDoc.t)
  : option State :=
  match health with
  | Healthy =>
      match employees st !! (projectName, employeeId) with
      | Some doc =>
          Some (withEmployees st
                  (<[(projectName, employeeId) := f doc]> (employees st)))
      | None => None
      end
  | _ => None
  end.

(** The body of the sweeper's loop for one registry entry. *)
Definition sweepEntry (now : Z) (dbs : string -> DbHealth) (st : State)
    (kv : string * LiveEntry.t) : State :=
  let '(key, entry) := kv in
  if now >=? threshold entry then
    let afterTry :=
      match dbs (L.projectName entry) with
      | NoHandle => st
      | health =>
          let ts := now in
          match updateEmployee health st (L.projectName entry) (L.employeeId entry)
                  (fun doc =>
                     EmployeeDoc.Build
                       (endLocation ts (EmployeeDoc.currentLocation doc)) ts) with
          | Some st' => st'
          | None => st          (* caught and logged *)
          end
      end in
    (* finally *)
    withSessions afterTry (delete key (liveSessions afterTry))
  else st.

(** One run of the [setInterval] callback. *)
Definition sweep (now : Z) (dbs : string -> DbHealth) (st : State) : State :=
  foldl (sweepEntry now dbs) st (map_to_list (liveSessions st)).

(** The registry part of [saveEmployeeLocation]: the new registry,
    [isLive] and [liveUntilMs]. *)
Definition upsertLive (now : Z) (sessions : gmap string LiveEntry.t)
    (projectName employeeId : string) (chatId messageId : Z)
    (livePeriodSeconds : option Z) (isEdit : bool)
  : gmap string LiveEntry.t * bool * option Z :=
  let key := makeLiveKey chatId messageId in
  let fresh (liveUntilMs : option Z) :=
    L.Build chatId messageId employeeId projectName liveUntilMs now in
  let tracked :=
    match sessions !! key with
    | Some existing =>
        (<[key := L.Build (L.chatId existing) (L.messageId existing)
                    (L.employeeId existing) (L.projectName existing)
                    (L.liveUntilMs existing) now]> sessions,
         true, L.liveUntilMs existing)
    | None =>
        if isEdit then (<[key := fresh None]> sessions, true, None)
        else (sessions, false, None)
    end in
  match livePeriodSeconds with
  | Some seconds =>
      if 0 <? seconds then
        let liveUntilMs := Some (now + seconds * 1000) in
        (<[key := fresh liveUntilMs]> sessions, true, liveUntilMs)
      else tracked
  | None => tracked
  end.

(** The result is the state reached and whether the call returned
    ([true]) or threw ([false]).  The call makes two store operations,
    each with its own fate: the update of the document, by [dbs], and
    then the add of the log entry, which goes through when [logAdded]
    says so; if the add throws the document stays updated. *)
Definition saveEmployeeLocation (now : Z) (dbs : string -> DbHealth)
    (logAdded : bool)
    (st : State) (projectName employeeId : string) (chatId messageId : Z)
    (location : TgLocation.t) (livePeriodSeconds : option Z) (isEdit : bool)
  : State * bool :=
  match dbs projectName with
  | NoHandle => (st, false)
  | health =>
      let nowTs := now in
      let '(sessions, isLive, liveUntilMs) :=
        upsertLive now (liveSessions st) projectName employeeId chatId messageId
          livePeriodSeconds isEdit in
      let st1 := withSessions st sessions in
      let liveUntil :=
        match liveUntilMs with
        | Some n => if n =? 0 then None else Some n
        | None => None
        end in
      let source := if isLive then telegram_live else telegram in
      let currentLocationData :=
        Loc.Build (TgLocation.latitude location) (TgLocation.longitude location)
          (TgLocation.horizontal_accuracy location) (TgLocation.heading location)
          (TgLocation.speed location) source isLive nowTs
          (Some (pretty messageId)) (Some (pretty chatId)) liveUntil None in
      match updateEmployee health st1 projectName employeeId
              (fun _ => EmployeeDoc.Build (LocFull currentLocationData) nowTs) with
      | None => (st1, false)
      | Some st2 =>
          let history :=
            LocationLog.Build (TgLocation.latitude location)
              (TgLocation.longitude location)
              (TgLocation.horizontal_accuracy location)
              (TgLocation.heading location) (TgLocation.speed location)
              source nowTs (pretty chatId) (pretty messageId) livePeriodSeconds in
          if logAdded then
            ({| liveSessions := liveSessions st2; employees := employees st2;
                locationLogs :=
                  locationLogs st2 ++ [(projectName, employeeId, history)] |},
             true)
          else (st2, false)
      end
  end.

End Bot.

(* ===================================================================== *)
(** ** services/location-monitoring.service.ts: lifecycle and notifier *)
(* ===================================================================== *)

Module JsText.

Definition hexDigitValue (u : Z) : option Z :=
  if (48 <=? u) && (u <=? 57) then Some (u - 48)
  else if (97 <=? u) && (u <=? 102) then Some (u - 87)
  else if (65 <=? u) && (u <=? 70) then Some (u - 55)
  else None.

Fixpoint readHexDigits (units : list Z) (acc : Z) (seen : bool) : option Z :=
  match units with
  | u :: rest =>
      match hexDigitValue u with
      | Some d => readHexDigits rest (16 * acc + d) true
      | None => if seen then Some acc else None
      end
  | [] => if seen then Some acc else None
  end.

(** The digits after the sign: hexadecimal after a ["0x"] or ["0X"]
    prefix (48 is ["0"], 120 and 88 are ["x"] and ["X"]), decimal
    otherwise. *)
Definition readUnsigned (units : list Z) : option Z :=
  match units with
  | 48 :: 120 :: rest | 48 :: 88 :: rest => readHexDigits rest 0 false
  | _ => Js.readDigits units 0 false
  end.

(** [parseInt(s)] with no radix; [None] is [NaN]. *)
Definition parseInt (s : string) : option Z :=
  match Js.skipWhiteSpace (Js.codeUnits s) with
  | 45 :: rest => Z.opp <$> readUnsigned rest
  | 43 :: rest => readUnsigned rest
  | t => readUnsigned t
  end.

End JsText.

(** What [bot.sendMessage] is given. *)
Inductive Keyboard :=
| ContactKeyboard
| InlineWebApp (text url : string)
| RemoveKeyboard.

Module OutMessage.
Record t := Build {
  chat_id : option Z;            (* [None] is [NaN] *)
  text : string;
  parse_mode : string;
  reply_markup : option Keyboard
}.
End OutMessage.

(** bot.ts: [sendMessage]; an empty or blank text is replaced by ["."]. *)
Definition sendMessage (chatId : option Z) (text : string)
    (keyboard : option Keyboard) : OutMessage.t :=
  let messageText :=
    if Js.truthyStr text && negb (Js.trimIsEmpty text) then text else "." in
  OutMessage.Build chatId messageText "HTML" keyboard.

Module Notifier.
Module Res := AutoClockOutResult.

(** The messages of a [try] block sent one after the other: the first
    one the transport rejects ends the block (the [catch] logs it). *)
Fixpoint sendUntilFailure (transport : OutMessage.t -> bool)
    (messages : list OutMessage.t) : list OutMessage.t :=
  match messages with
  | [] => []
  | m :: rest =>
      if transport m then m :: sendUntilFailure transport rest else [m]
  end.

Definition employeeNotice (result : Res.t) : list OutMessage.t :=
  if Res.success result then
    let reasonText :=
      default "you are outside your designated working area" (Res.reason result) in
    match Js.strOrUndefined (Res.employeeChatID result) with
    | Some chat =>
        [sendMessage (JsText.parseInt chat)
           ("⚠️ You have been automatically clocked out because "
              +:+ reasonText +:+ ".") None]
    | None => []
    end
  else [].

Definition managerNotice (result : Res.t) : list OutMessage.t :=
  match Js.strOrUndefined (Res.managerChatID result) with
  | Some chat =>
      let managerReasonText :=
        default "being outside the working area" (Res.reason result) in
      [sendMessage (JsText.parseInt chat)
         ("👤 Employee " +:+ Res.employeeName result
            +:+ " has been automatically clocked out due to "
            +:+ managerReasonText +:+ ".") None]
  | None => []
  end.

(** The messages handed to the transport for one result. *)
Definition sendNotifications (transport : OutMessage.t -> bool)
    (result : Res.t) : list OutMessage.t :=
  if negb LocationMonitoringService.NOTIFICATION_ENABLED then []
  else sendUntilFailure transport (employeeNotice result ++ managerNotice result).

(** The notification loop that ends [runLocationCheck]. *)
Definition notifyAll (transport : OutMessage.t -> bool)
    (results : list Res.t) : list OutMessage.t :=
  flat_map (sendNotifications transport) results.

End Notifier.

Module Lifecycle.

(** The service's own fields, and the timers of the runtime: the
    delays of the pending [setTimeout]s and the [setInterval]s by
    handle. *)
Record Service := {
  intervalId : option nat;
  isRunning : bool
}.

Record Timers := {
  timeouts : list Z;
  intervals : list (nat * Z);
  nextHandle : nat
}.

Definition startMonitoring (st : Service * Timers) : Service * Timers :=
  let '(service, timers) := st in
  if isRunning service then st
  else if negb LocationMonitoringService.FEATURE_ENABLED then st
  else
    let handle := nextHandle timers in
    ({| intervalId := Some handle; isRunning := true |},
     {| timeouts := timeouts timers ++ [30000];
        intervals :=
          intervals timers
          ++ [(handle, LocationMonitoringService.CHECK_INTERVAL_MINUTES * 60 * 1000)];
        nextHandle := S handle |}).

Definition stopMonitoring (st : Service * Timers) : Service * Timers :=
  let '(service, timers) := st in
  let timers :=
    match intervalId service with
    | Some handle =>
        {| timeouts := timeouts timers;
           intervals :=
             List.filter (fun t => negb (fst t =? handle)%nat) (intervals timers);
           nextHandle := nextHandle timers |}
    | None => timers
    end in
  ({| intervalId := None; isRunning := false |}, timers).

Definition isMonitoring (st : Service * Timers) : bool := isRunning (fst st).

End Lifecycle.

(* ===================================================================== *)
(** ** bot.ts: phone numbers and the location handlers *)
(* ===================================================================== *)

Module Phone.

(** The class [[\s\-()]] of the two [replace] calls, on code units:
    white space, ["-"] (45), ["("] (40) and [")"] (41). *)
Definition isSeparator (u : Z) : bool :=
  Js.isWhiteSpace u || (u =? 45) || (u =? 40) || (u =? 41).

Definition isDigit (u : Z) : bool := (48 <=? u) && (u <=? 57).

(** The text after its ["+"] (43), if it starts with one. *)
Definition body (units : list Z) : list Z :=
  match units with
  | 43 :: rest => rest
  | _ => units
  end.

(** [/^[+]?[0-9\s\-()]{10,15}$/.test(text)], on the code units of the
    text. *)
Definition looksLikePhone (units : list Z) : bool :=
  forallb (fun u => isDigit u || isSeparator u) (body units)
  && (10 <=? length (body units))%nat && (length (body units) <=? 15)%nat.

(** [phone.replace(/[\s\-()]/g, '')], then a ["+"] in front unless
    there is one. *)
Definition normalizePhone (phoneNumber : list Z) : list Z :=
  let cleanPhone := List.filter (fun u => negb (isSeparator u)) phoneNumber in
  match cleanPhone with
  | 43 :: _ => cleanPhone
  | _ => 43 :: cleanPhone
  end.

(** The [message] handler for a text with no contact attached: the
    phone number it hands to [handleContactShare], if any, as code
    units. *)
Definition phoneFromText (text : string) : option (list Z) :=
  if Js.truthyStr text && looksLikePhone (Js.codeUnits text)
  then Some (normalizePhone (Js.codeUnits text)) else None.

(** The number [handleContactShare] looks up. *)
Definition lookedUpPhone (contactPhoneNumber : list Z) : list Z :=
  normalizePhone contactPhoneNumber.

End Phone.

Module ChatSession.
Record t := Build {
  phoneNumber : string;
  projectName : string;
  employeeUid : string;
  employeeId : string;
  employeeName : string
}.
End ChatSession.

Module EmployeeRef.
Record t := Build {
  employeeId : string;
  projectName : string;
  employeeUid : string
}.
End EmployeeRef.

(** A chat update carrying a location; [live_period] may sit on the
    message or inside the location. *)
Module TelegramMessage.
Record t := Build {
  chat_id : Z;
  message_id : Z;
  location : option TgLocation.t;
  live_period : option Z;
  location_live_period : option Z
}.
End TelegramMessage.

Module Ingestion.
Module E := EmployeeModel.
Module M := TelegramMessage.

(** The first employee, over the healthy databases in order, whose
    [telegramChatID] is this chat; a database whose query fails is
    passed over. *)
Fixpoint findEmployeeByChatId (healthyDbs : HealthyDbs) (chatId : Z)
  : option (E.t * string) :=
  match healthyDbs with
  | [] => None
  | (projectName, db) :: rest =>
      if Firestore.readsSucceed db then
        match List.find
                (fun e => bool_decide (E.telegramChatID e = Some (pretty chatId)))
                (Firestore.employee db) with
        | Some employee => Some (employee, projectName)
        | None => findEmployeeByChatId rest chatId
        end
      else findEmployeeByChatId rest chatId
  end.

Definition ensureEmployeeByChat (chatSessions : gmap Z ChatSession.t)
    (healthyDbs : HealthyDbs) (chatId : Z) : option EmployeeRef.t :=
  match chatSessions !! chatId with
  | Some session =>
      Some (EmployeeRef.Build (ChatSession.employeeId session)
              (ChatSession.projectName session) (ChatSession.employeeUid session))
  | None =>
      match findEmployeeByChatId healthyDbs chatId with
      | Some (employee, projectName) =>
          Some (EmployeeRef.Build (E.id employee) projectName (E.uid employee))
      | None => None
      end
  end.

(** [handleLocationMessage]: every failure is caught and logged, so the
    result is just the state reached. *)
Definition handleLocationMessage (now : Z) (chatSessions : gmap Z ChatSession.t)
    (healthyDbs : HealthyDbs) (dbs : string -> Bot.DbHealth) (logAdded : bool)
    (st : Bot.State) (msg : M.t) (isEdit : bool) : Bot.State :=
  match M.location msg with
  | None => st
  | Some loc =>
      let livePeriodSeconds :=
        match M.live_period msg with
        | Some p => Some p
        | None => M.location_live_period msg
        end in
      match ensureEmployeeByChat chatSessions healthyDbs (M.chat_id msg) with
      | None => st
      | Some context =>
          fst (Bot.saveEmployeeLocation now dbs logAdded st
                 (EmployeeRef.projectName context) (EmployeeRef.employeeId context)
                 (M.chat_id msg) (M.message_id msg) loc livePeriodSeconds isEdit)
      end
  end.

End Ingestion.

(* ===================================================================== *)
(** * Verification *)
(* ===================================================================== *)

(** ** General facts about the helpers *)

Section ArrayFacts.
Context {A : Type}.
Implicit Types (a : list (option A)) (v : option A) (i j : nat).

Lemma length_arraySet a i v :
  length (Js.arraySet a i v) = Nat.max (length a) (S i).
Proof.
  unfold Js.arraySet. destruct (Nat.ltb_spec i (length a)).
  - rewrite length_insert. lia.
  - rewrite !length_app, length_replicate. simpl. lia.
Qed.

Lemma arrayGet_arraySet_eq a i v : Js.arrayGet (Js.arraySet a i v) i = v.
Proof.
  unfold Js.arrayGet, Js.arraySet. destruct (Nat.ltb_spec i (length a)).
  - by rewrite list_lookup_insert_eq.
  - rewrite lookup_app_r by lia.
    rewrite lookup_app_r by (rewrite length_replicate; lia).
    rewrite length_replicate, Nat.sub_diag. done.
Qed.

Lemma arrayGet_arraySet_ne a i j v :
  i ≠ j → Js.arrayGet (Js.arraySet a i v) j = Js.arrayGet a j.
Proof.
  intros Hij. unfold Js.arrayGet, Js.arraySet.
  destruct (Nat.ltb_spec i (length a)).
  - by rewrite list_lookup_insert_ne.
  - destruct (Nat.lt_ge_cases j (length a)).
    + by rewrite lookup_app_l.
    + rewrite (lookup_ge_None_2 a j) by lia.
      rewrite lookup_app_r by lia.
      destruct (Nat.lt_ge_cases (j - length a) (i - length a)).
      * rewrite lookup_app_l by (rewrite length_replicate; lia).
        rewrite lookup_replicate_2 by lia. done.
      * rewrite lookup_app_r by (rewrite length_replicate; lia).
        rewrite length_replicate.
        rewrite lookup_ge_None_2; [done | simpl; lia].
Qed.

Lemma arrayGet_nil j : Js.arrayGet ([] : list (option A)) j = None.
Proof. unfold Js.arrayGet. by rewrite lookup_nil. Qed.
End ArrayFacts.

(** The day of the month is always a day of the month. *)
Lemma date_range t : 1 <= Dayjs.date t <= 31.
Proof.
  unfold Dayjs.date. cbv zeta.
  Z.to_euclidean_division_equations; lia.
Qed.

Lemma prefix_append p s : String.prefix p (p +:+ s) = true.
Proof.
  induction p as [|c p IH]; simpl.
  - by destruct s.
  - destruct (Ascii.ascii_dec c c); [exact IH | congruence].
Qed.

Lemma includes_prefix p s : Js.includes p (p +:+ s) = true.
Proof.
  destruct p as [|c p'] eqn:E; [by destruct s |].
  rewrite <- E. assert (H := prefix_append p s).
  rewrite E in *. simpl in *. by rewrite H.
Qed.

(* ===================================================================== *)
(** ** The location validator *)
(* ===================================================================== *)

Module ValidatorFacts.
Import LocationValidation.
Module Loc := EmployeeCurrentLocation.

(** The specification's effective [isLive]:
    [location.isLive ∧ (liveUntil = null ∨ now < liveUntil)]. *)
Definition effectiveIsLive (now : Z) (loc : Loc.t) : bool :=
  Loc.isLive loc &&
  match Loc.liveUntil loc with
  | None => true
  | Some liveUntil => now <? liveUntil
  end.

(** The specification's failure kinds, and its decision order
    (section 4.2), written from the specification's words; [None] is a
    valid verdict. *)
Inductive ErrorKind :=
| NO_LOCATION | SHARING_ENDED | BAD_WORKING_AREA
| OUTSIDE_AREA | STALE_LOCATION | NOT_LIVE.

Definition specVerdict (JSON_parse : string -> option json) (now : Z)
    (location : option Loc.t) (workingArea : string) (maxAgeMinutes : Z)
  : option ErrorKind :=
  match location with
  | None => Some NO_LOCATION
  | Some loc =>
      match Loc.endedAt loc with
      | Some _ => Some SHARING_ENDED
      | None =>
          if effectiveIsLive now loc then
            match parseWorkingArea JSON_parse workingArea with
            | None => Some BAD_WORKING_AREA
            | Some area =>
                if isPointInMultiPolygon (Loc.longitude loc, Loc.latitude loc) area
                then None
                else Some OUTSIDE_AREA
            end
          else if Dayjs.diffMinutes now (Loc.updatedAt loc) >? maxAgeMinutes
          then Some STALE_LOCATION
          else Some NOT_LIVE
      end
  end.

Definition actionable (k : ErrorKind) : bool :=
  match k with
  | OUTSIDE_AREA | NOT_LIVE | SHARING_ENDED | STALE_LOCATION => true
  | NO_LOCATION | BAD_WORKING_AREA => false
  end.

(** The message the validator attaches to each kind. *)
Definition messageOf (k : ErrorKind) (ageMinutes : Z) : string :=
  match k with
  | NO_LOCATION => "No location data available. Please share your location first."
  | SHARING_ENDED => "Location sharing has ended. Please share your location again."
  | BAD_WORKING_AREA =>
      "Invalid working area configuration. Please contact your administrator."
  | OUTSIDE_AREA =>
      "You are outside your designated working area. Clock in/out is only allowed within your assigned work location."
  | STALE_LOCATION => tooOldMessage ageMinutes
  | NOT_LIVE => "Location sharing is not active. Please share your live location."
  end.

Definition ageOf (now : Z) (location : option Loc.t) : Z :=
  match location with
  | Some loc => Dayjs.diffMinutes now (Loc.updatedAt loc)
  | None => 0
  end.
End ValidatorFacts.

Import ValidatorFacts.


(** The validator throws exactly on a location that is known and has
    not ended when the zone of its log line is one [Intl] rejects. *)
Lemma validator_throws_iff parse zoneAccepted now location area maxAge tz :
  LocationValidation.validateEmployeeLocationAndArea
    parse zoneAccepted now location area maxAge tz = None
  ↔ ∃ loc, location = Some loc
           ∧ EmployeeCurrentLocation.endedAt loc = None
           ∧ zoneAccepted (LocationValidation.logZone tz) = false.
Proof.
  unfold LocationValidation.validateEmployeeLocationAndArea. cbv zeta.
  destruct location as [loc|]; [|split; [done | by intros (? & ? & _)]].
  destruct (EmployeeCurrentLocation.endedAt loc) as [e|] eqn:Hended; simpl.
  { split; [done | intros (? & [= <-] & ? & _); congruence]. }
  destruct (zoneAccepted (LocationValidation.logZone tz)) eqn:Hzone; simpl.
  - split; [|intros (? & _ & _ & ?); done].
    repeat match goal with
    | |- context [if ?b then _ else _] => destruct b; simpl
    | |- context [match ?o with Some _ => _ | None => _ end] => destruct o; simpl
    end; done.
  - split; [intros _; by exists loc | done].
Qed.

(** The validator returns a verdict: the location is unknown, or has
    ended, or the zone of the log line is one [Intl] knows. *)
Definition verdictReturned (zoneAccepted : string -> bool)
    (location : option EmployeeCurrentLocation.t) (tz : option string) : Prop :=
  ∀ loc, location = Some loc → EmployeeCurrentLocation.endedAt loc = None →
         zoneAccepted (LocationValidation.logZone tz) = true.

Lemma validator_returns_iff parse zoneAccepted now location area maxAge tz :
  is_Some (LocationValidation.validateEmployeeLocationAndArea
             parse zoneAccepted now location area maxAge tz)
  ↔ verdictReturned zoneAccepted location tz.
Proof.
  pose proof (validator_throws_iff parse zoneAccepted now location area maxAge tz)
    as Hthrows.
  unfold verdictReturned. split.
  - intros [v Hv] loc Hloc Hended.
    destruct (zoneAccepted _) eqn:Hzone; [done|].
    assert (LocationValidation.validateEmployeeLocationAndArea
              parse zoneAccepted now location area maxAge tz = None)
      by (apply Hthrows; by exists loc).
    congruence.
  - intros Hzone.
    destruct (LocationValidation.validateEmployeeLocationAndArea _ _ _ _ _ _ _)
      as [v|]; [done|].
    destruct (proj1 Hthrows eq_refl) as (loc & Hloc & Hended & Hno).
    specialize (Hzone loc Hloc Hended). congruence.
Qed.

(** The validator implements the specification's decision list: a
    verdict it returns is valid exactly when no kind applies, and
    otherwise carries the message of the first kind that applies. *)
Lemma validator_refines_spec parse zoneAccepted now location area maxAge tz v :
  LocationValidation.validateEmployeeLocationAndArea
    parse zoneAccepted now location area maxAge tz = Some v →
  let k := specVerdict parse now location area
             (LocationValidation.defaultMaxAge maxAge) in
  LocationValidationResult.isValid v = bool_decide (k = None) ∧
  LocationValidationResult.error v = (fun k => messageOf k (ageOf now location)) <$> k.
Proof.
  unfold LocationValidation.validateEmployeeLocationAndArea, specVerdict,
    effectiveIsLive, Dayjs.isBefore.
  destruct location as [loc|]; simpl; [|by intros [= <-]].
  destruct (EmployeeCurrentLocation.endedAt loc) as [e|]; simpl; [by intros [= <-]|].
  destruct (zoneAccepted (LocationValidation.logZone tz)); simpl; [|done].
  destruct (EmployeeCurrentLocation.isLive loc),
    (EmployeeCurrentLocation.liveUntil loc) as [u|]; simpl;
    repeat match goal with
    | |- context [if ?b then _ else _] => destruct b eqn:?; simpl
    | |- context [match ?o with Some _ => _ | None => _ end] =>
        destruct o eqn:?; simpl
    end; by intros [= <-].
Qed.

(** C10.  [hasValidLocation] returns [true] exactly when
    [validateEmployeeLocation] returns a verdict with [isValid = true],
    for every location, every [maxAgeMinutes] (given or defaulted) and
    every instant. *)
Theorem hasValidLocation_agrees_with_validator
    (now : Z) (location : option EmployeeCurrentLocation.t)
    (maxAgeMinutes : option Z) :
  LocationValidation.hasValidLocation now location maxAgeMinutes
  = LocationValidationResult.isValid
      (LocationValidation.validateEmployeeLocation now location maxAgeMinutes).
Proof.
  unfold LocationValidation.hasValidLocation,
    LocationValidation.validateEmployeeLocation.
  destruct location as [loc|]; [|reflexivity].
  cbv zeta.
  case (bool_decide _); [reflexivity|].
  case (_ >? _); [reflexivity|].
  destruct (EmployeeCurrentLocation.isLive loc),
    (EmployeeCurrentLocation.liveUntil loc) as [u|]; simpl; try reflexivity.
  by destruct (Dayjs.isAfter now u).
Qed.


(* ===================================================================== *)
(** ** The working-area parser *)
(* ===================================================================== *)

Module ParserFacts.
(** The unit square as one ring, as one polygon, and the
    multi-polygon that holds just that polygon. *)
Definition squareRing : json :=
  JArr [JArr [JNum 0; JNum 0]; JArr [JNum 1; JNum 0];
        JArr [JNum 1; JNum 1]; JArr [JNum 0; JNum 1]].
Definition squarePolygon : json := JArr [squareRing].
Definition squareMultiPolygon : json := JArr [squarePolygon].
End ParserFacts.

(** C8.  A list that holds exactly one well-formed polygon is taken for
    the single-polygon shape, wrapped once more, and rejected: the
    parser returns [null] on it, for every polygon that passes the
    parser's own validation. *)
Theorem parseWorkingArea_rejects_list_of_one_polygon
    (polygon : json) (p : Polygon) :
  LocationValidation.validatePolygon polygon = Some p →
  LocationValidation.parseWorkingAreaValue (JArr [polygon]) = None.
Proof.
  destruct polygon as [| | | |rings|]; try discriminate. simpl.
  destruct rings as [|ring rings]; [discriminate|]. simpl.
  destruct ring as [| | | |coords|]; try discriminate. simpl.
  destruct (Nat.ltb_spec (length coords) 3); [discriminate|]. intros _.
  destruct coords as [|c1 [|c2 [|c3 coords]]]; simpl in *; try lia.
  destruct rings as [|r2 [|r3 rings]]; simpl; try reflexivity.
  by destruct c1 as [| |?| |?|], c2 as [| |?| |?|].
Qed.

Lemma parseWorkingArea_rejects_list_of_one_polygon_witness :
  LocationValidation.validatePolygon ParserFacts.squarePolygon
    = Some [[(0, 0); (1, 0); (1, 1); (0, 1)]]%float
  ∧ LocationValidation.parseWorkingAreaValue ParserFacts.squareMultiPolygon = None.
Proof.
  split; [reflexivity|].
  apply (parseWorkingArea_rejects_list_of_one_polygon ParserFacts.squarePolygon
           [[(0, 0); (1, 0); (1, 1); (0, 1)]]%float).
  reflexivity.
Defined.

(** The bare polygon is accepted, and what the parser returns for it is
    the very multi-polygon it rejects as input. *)
Example parseWorkingArea_single_polygon :
  LocationValidation.parseWorkingAreaValue ParserFacts.squarePolygon
  = Some [[[(0, 0); (1, 0); (1, 1); (0, 1)]]]%float.
Proof. reflexivity. Qed.

Example parseWorkingArea_two_polygons :
  LocationValidation.parseWorkingAreaValue
    (JArr [ParserFacts.squarePolygon; ParserFacts.squarePolygon])
  = Some [[[(0, 0); (1, 0); (1, 1); (0, 1)]];
          [[(0, 0); (1, 0); (1, 1); (0, 1)]]]%float.
Proof. reflexivity. Qed.

(** The same shape test sends a bare polygon of two rings (an outer
    ring and a hole) down the multi-polygon path, where it is rejected
    as well. *)
Example parseWorkingArea_polygon_with_hole :
  LocationValidation.parseWorkingAreaValue
    (JArr [ParserFacts.squareRing; ParserFacts.squareRing]) = None.
Proof. reflexivity. Qed.

(** The ray-cast cases of the unit square. *)
Example isPointInPolygon_unit_square :
  let square := [(0, 0); (1, 0); (1, 1); (0, 1)]%float in
  LocationValidation.isPointInPolygon (0.5, 0.5)%float square = true ∧
  LocationValidation.isPointInPolygon (1.5, 0.5)%float square = false ∧
  LocationValidation.isPointInPolygon (-0.5, 0.5)%float square = false.
Proof. vm_compute. done. Qed.

(* ===================================================================== *)
(** ** The monitor's decision to clock out *)
(* ===================================================================== *)

Module Demo.
Import ParserFacts.

(** A stand-in for the platform functions: [JSON.parse] on the two
    texts used below, two known zones, a fixed hour format and a fixed
    name. *)
Definition world : World := {|
  JSON_parse := fun s =>
    if String.eqb s "[[[0,0],[1,0],[1,1],[0,1]]]" then Some squarePolygon
    else if String.eqb s "[[[[0,0],[1,0],[1,1],[0,1]]]]" then Some squareMultiPolygon
    else None;
  DEFAULT_TZ := "Africa/Nairobi";
  zoneAccepted := fun zone =>
    String.eqb zone "Africa/Nairobi" || String.eqb zone "UTC";
  formatInZone := fun _ _ => "3:01 PM";
  getEmployeeFullName := fun _ => "Abebe Bikila"
|}.

Definition squareText : string := "[[[0,0],[1,0],[1,1],[0,1]]]".

(** 2025-11-02, UTC: 08:00, 11:59, 12:00, 12:00:30 and 12:01. *)
Definition t0800 : Z := 1762070400000.
Definition t1159 : Z := 1762084740000.
Definition t1200 : Z := 1762084800000.
Definition t120030 : Z := 1762084830000.
Definition t1201 : Z := 1762084860000.

Definition locationAt (isLive : bool) (updatedAt : Z) (lon lat : float)
  : EmployeeCurrentLocation.t :=
  EmployeeCurrentLocation.Build lat lon None None None
    (if isLive then telegram_live else telegram) isLive updatedAt
    (Some "77") (Some "1001") None None.

Definition employeeWith (location : option EmployeeCurrentLocation.t)
    (workingArea : string) : EmployeeModel.t :=
  EmployeeModel.Build "emp-1" "uid-1" (Some "1001") location
    (Some workingArea) None None.

Definition punch (id : string) (ts : Z) (type : PunchType)
  : WorkedHoursModel.t :=
  WorkedHoursModel.Build id ts type "".

Definition dayOf (n : Z) (worked : list WorkedHoursModel.t)
  : DailyAttendance.t :=
  DailyAttendance.Build "day" n None t0800 None None "N/A" 0%float worked.

Definition attendanceWith (lastClockIn : option Z) (values : AttendanceValues)
  : AttendanceModel.t :=
  AttendanceModel.Build "att-1" "uid-1" 2025 "November" 10%float
    lastClockIn values.

Definition dbs : HealthyDbs :=
  [("acme", Firestore.Build [] [] true true None)].

(** An employee who clocked out at 12:00, clocked in again at
    12:00:30, and whose last location (11:59) is a static share. *)
Definition backAtWork : AttendanceModel.t :=
  attendanceWith (Some t120030)
    (ValuesArray
       [None;
        Some (dayOf 2 [punch "a" t0800 ClockIn; punch "b" t1200 ClockOut;
                       punch "c" t120030 ClockIn])]).

Definition staticShare : EmployeeModel.t :=
  employeeWith (Some (locationAt false t1159 0.5 0.5)) squareText.
End Demo.


Module MonitorFacts.
Import LocationMonitoringService.

(** An auto-clock-out is attempted when [performAutoClockOut] is
    called; [checkAndAutoClockOut] returns a result object exactly on
    the paths that call it, and returns [null] or throws on the
    others. *)
Definition attempted
    (r : option (option AutoClockOutResult.t * option UpdateData.t)) : Prop :=
  ∃ res written, r = Some (Some res, written).

(** Nothing was attempted and nothing written: the call returned
    [null], or it threw. *)
Definition idle
    (r : option (option AutoClockOutResult.t * option UpdateData.t)) : Prop :=
  r = Some (None, None) ∨ r = None.

Lemma triggers_iff_actionable (k : ErrorKind) (age : Z) :
  existsb (fun err => Js.includes err (messageOf k age)) triggerErrors
  = actionable k.
Proof.
  destruct k; try (vm_compute; reflexivity).
  simpl actionable. apply existsb_exists.
  exists "Location data is too old". split.
  - unfold triggerErrors. simpl. tauto.
  - apply (includes_prefix "Location data is too old").
Qed.

(** The condition under which the monitor clocks an employee out: a
    non-blank working area, a verdict returned by the validator that is
    invalid with an actionable kind, and no recent "Clock Out" on the
    clock-in's day. *)
Definition clockOutDue (w : World) (now : Z) (employee : EmployeeModel.t)
    (attendance : AttendanceModel.t) : Prop :=
  ∃ area k,
    Js.strOrUndefined (EmployeeModel.workingArea employee) = Some area ∧
    Js.trimIsEmpty area = false ∧
    verdictReturned (zoneAccepted w) (EmployeeModel.currentLocation employee)
      (EmployeeModel.timezone employee) ∧
    specVerdict (JSON_parse w) now (EmployeeModel.currentLocation employee)
      area MAX_LOCATION_AGE_MINUTES = Some k ∧
    actionable k = true ∧
    recentlyClockedOut now attendance = false.

(** The validator throws inside [checkAndAutoClockOut]: the working
    area is not blank and no verdict is returned. *)
Definition validatorThrows (w : World) (employee : EmployeeModel.t) : Prop :=
  ∃ area,
    Js.strOrUndefined (EmployeeModel.workingArea employee) = Some area ∧
    Js.trimIsEmpty area = false ∧
    ¬ verdictReturned (zoneAccepted w) (EmployeeModel.currentLocation employee)
        (EmployeeModel.timezone employee).

(** [checkAndAutoClockOut] finds the clock-out due and attempts it, or
    finds it not due and returns [null] without writing, or throws with
    the validator. *)
Lemma checkAndAutoClockOut_cases w now clock entryId dayId employee attendance
    projectName healthyDbs :
  let r := checkAndAutoClockOut w now clock entryId dayId employee attendance
             projectName healthyDbs in
  (clockOutDue w now employee attendance ∧ attempted r)
  ∨ (¬ clockOutDue w now employee attendance ∧ ¬ validatorThrows w employee
     ∧ r = Some (None, None))
  ∨ (¬ clockOutDue w now employee attendance ∧ validatorThrows w employee
     ∧ r = None).
Proof.
  intros r. subst r.
  unfold clockOutDue, validatorThrows,
    LocationMonitoringService.checkAndAutoClockOut.
  destruct (Js.strOrUndefined (EmployeeModel.workingArea employee))
    as [area|] eqn:Harea;
    [|right; left; split; [intros (?&?&?&_); done | split; [intros (?&?&_); done | done]]].
  destruct (Js.trimIsEmpty area) eqn:Hblank;
    [right; left; split; [intros (?&?&[= <-]&?&_); congruence
                         | split; [intros (?&[= <-]&?&_); congruence | done]]|].
  pose proof (validator_returns_iff (JSON_parse w) (zoneAccepted w) now
                (EmployeeModel.currentLocation employee) area
                (Some LocationMonitoringService.MAX_LOCATION_AGE_MINUTES)
                (EmployeeModel.timezone employee)) as Hreturns.
  destruct (LocationValidation.validateEmployeeLocationAndArea _ _ _ _ _ _ _)
    as [validation|] eqn:Hv.
  2: { right; right.
       assert (Hno : ¬ verdictReturned (zoneAccepted w)
                         (EmployeeModel.currentLocation employee)
                         (EmployeeModel.timezone employee)).
       { intros H. apply Hreturns in H as [? [=]]. }
       split; [intros (?&?&_&_&?&_); done|]. split; [by exists area | done]. }
  assert (Hyes : verdictReturned (zoneAccepted w)
                   (EmployeeModel.currentLocation employee)
                   (EmployeeModel.timezone employee)) by (apply Hreturns; eauto).
  assert (Hnothrow : ¬ ∃ area0,
            Some area = Some area0 ∧ Js.trimIsEmpty area0 = false
            ∧ ¬ verdictReturned (zoneAccepted w)
                  (EmployeeModel.currentLocation employee)
                  (EmployeeModel.timezone employee))
    by (intros (?&_&_&?); done).
  destruct (validator_refines_spec _ _ _ _ _ _ _ _ Hv) as [Hvalid Herr].
  change (LocationValidation.defaultMaxAge _)
    with LocationMonitoringService.MAX_LOCATION_AGE_MINUTES in Hvalid, Herr.
  rewrite Hvalid, Herr. clear Hvalid Herr.
  destruct (specVerdict _ _ _ _ _) as [k|] eqn:Hk.
  2: { rewrite bool_decide_eq_true_2 by done.
       right; left. split; [|done].
       intros (?&?&[= <-]&_&_&?&_); cbv beta in *; congruence. }
  rewrite bool_decide_eq_false_2 by done.
  cbn [fmap option_fmap option_map].
  rewrite triggers_iff_actionable.
  destruct (actionable k) eqn:Hact; cbn [negb].
  2: { right; left. split; [|done].
       intros (?&?&[= <-]&_&_&?&?&_); cbv beta in *; congruence. }
  destruct (LocationMonitoringService.recentlyClockedOut now attendance) eqn:Hrec.
  { right; left. split; [|done]. intros (?&?&_&_&_&_&_&?); congruence. }
  left. split; [by exists area, k|]. cbv beta.
  destruct (LocationMonitoringService.performAutoClockOut _ _ _ _ _ _ _ _)
    as [[success error] written].
  unfold attempted. destruct success; simpl; eauto.
Qed.

Lemma attempted_not_idle r : attempted r → ¬ idle r.
Proof. intros (res & written & ->) [?|?]; done. Qed.
End MonitorFacts.

Import MonitorFacts.

(** C3, as the code has it.  An auto-clock-out is attempted exactly when
    the employee has a non-blank working area, the validator returns a
    verdict, that verdict is invalid with a kind in {OUTSIDE_AREA,
    NOT_LIVE, SHARING_ENDED, STALE_LOCATION}, and no "Clock Out" of the
    last CHECK_INTERVAL_MINUTES stands on the clock-in's day.  When it
    is not attempted nothing is written: the call returns [null], or it
    throws, which it does exactly when the validator does (a location
    that is known and has not ended, with a zone the platform rejects).
    So a verdict of kind NO_LOCATION or BAD_WORKING_AREA never changes
    the attendance document. *)
Theorem auto_clock_out_attempted_iff
    (w : World) (now : Z) (clock : Clock.t) (entryId dayId : string)
    (employee : EmployeeModel.t) (attendance : AttendanceModel.t)
    (projectName : string) (healthyDbs : HealthyDbs) :
  let r := LocationMonitoringService.checkAndAutoClockOut w now clock entryId dayId
             employee attendance projectName healthyDbs in
  let verdict area :=
    specVerdict (JSON_parse w) now (EmployeeModel.currentLocation employee)
      area LocationMonitoringService.MAX_LOCATION_AGE_MINUTES in
  let returned :=
    verdictReturned (zoneAccepted w) (EmployeeModel.currentLocation employee)
      (EmployeeModel.timezone employee) in
  (attempted r ↔
     ∃ area k,
       Js.strOrUndefined (EmployeeModel.workingArea employee) = Some area ∧
       Js.trimIsEmpty area = false ∧
       returned ∧
       verdict area = Some k ∧ actionable k = true ∧
       LocationMonitoringService.recentlyClockedOut now attendance = false)
  ∧ (¬ attempted r → idle r)
  ∧ (r = None ↔
       ∃ area,
         Js.strOrUndefined (EmployeeModel.workingArea employee) = Some area ∧
         Js.trimIsEmpty area = false ∧ ¬ returned)
  ∧ (∀ area k,
       EmployeeModel.workingArea employee = Some area →
       verdict area = Some k → actionable k = false → idle r).
Proof.
  intros r verdict returned. subst r verdict returned.
  pose proof (checkAndAutoClockOut_cases w now clock entryId dayId employee
                attendance projectName healthyDbs) as Hchar.
  cbv zeta in Hchar. unfold clockOutDue, validatorThrows, idle in *.
  split; [|split; [|split]].
  - destruct Hchar as [[H1 H2]|[(H1 & _ & H2)|(H1 & _ & H2)]]; [tauto| |];
      rewrite H2; (split; [intros (? & ? & [=]) | tauto]).
  - destruct Hchar as [[H1 H2]|[(H1 & _ & H2)|(H1 & _ & H2)]]; tauto.
  - destruct Hchar as [[H1 (res & written & H2)]|[(H1 & H3 & H2)|(H1 & H3 & H2)]];
      rewrite H2.
    + split; [done|]. intros (area & Ha & Hb & Hno).
      destruct H1 as (area' & k & _ & _ & Hret & _). done.
    + split; [done | tauto].
    + tauto.
  - intros area k Harea Hk Hact.
    destruct Hchar as [[(area'&k'&Ha&_&_&Hk'&Hact'&_) _]|[(_ & _ & H2)|(_ & _ & H2)]];
      [|tauto..].
    rewrite Harea in Ha.
    assert (area' = area) as ->.
    { simpl in Ha. destruct (Js.truthyStr area); congruence. }
    cbv beta in *. congruence.
Qed.

(** C3 as stated fails: at 12:01 the employee of [Demo.backAtWork] has
    an invalid verdict of the actionable kind NOT_LIVE, yet no
    auto-clock-out is attempted, because of the "Clock Out" of 12:00. *)
Lemma actionable_verdict_without_attempt :
  let r := LocationMonitoringService.checkAndAutoClockOut Demo.world Demo.t1201
             (Clock.still Demo.t1201)
             "id-1" "id-2" Demo.staticShare Demo.backAtWork "acme" Demo.dbs in
  (LocationValidationResult.isValid <$>
     LocationValidation.validateEmployeeLocationAndArea (JSON_parse Demo.world)
       (zoneAccepted Demo.world)
       Demo.t1201 (EmployeeModel.currentLocation Demo.staticShare)
       Demo.squareText (Some LocationMonitoringService.MAX_LOCATION_AGE_MINUTES)
       None) = Some false
  ∧ specVerdict (JSON_parse Demo.world) Demo.t1201
      (EmployeeModel.currentLocation Demo.staticShare) Demo.squareText
      LocationMonitoringService.MAX_LOCATION_AGE_MINUTES = Some NOT_LIVE
  ∧ actionable NOT_LIVE = true
  ∧ ¬ attempted r
  ∧ r = Some (None, None).
Proof.
  vm_compute. repeat split; try reflexivity. intros (? & ? & [=]).
Qed.

Lemma auto_clock_out_attempted_iff_witness :
  idle (LocationMonitoringService.checkAndAutoClockOut Demo.world Demo.t1201
          (Clock.still Demo.t1201)
          "id-1" "id-2" Demo.staticShare Demo.backAtWork "acme" Demo.dbs).
Proof.
  apply (auto_clock_out_attempted_iff Demo.world Demo.t1201 (Clock.still Demo.t1201)
           "id-1" "id-2" Demo.staticShare Demo.backAtWork "acme" Demo.dbs).
  vm_compute. intros (? & ? & [=]).
Defined.

(* ===================================================================== *)
(** ** The attendance mutator *)
(* ===================================================================== *)

Module MutatorFacts.
Import LocationMonitoringService.

(** The array the mutator starts from. *)
Definition baseValuesOf (values : AttendanceValues) : list (option D.t) :=
  match values with
  | ValuesArray a => a
  | ValuesObject entries => normalizeAttendanceValues (RawObject entries)
  end.

(** The index of the clock-in's day, [dayOfMonth(t) - 1]. *)
Definition dayIndexOf (t : Z) : nat := Z.to_nat (Dayjs.date t - 1).

Lemma dayIndexOf_lt_31 t : (dayIndexOf t < 31)%nat.
Proof. unfold dayIndexOf. pose proof (date_range t). lia. Qed.

(** On a clocked-in document the update, when one is written, is the
    base array with the clock-in's day replaced; the entry's timestamp
    is the first reading of the clock, the hours are measured at the
    second and [lastChanged] is the third. *)
Lemma performAutoClockOut_written w clock entryId dayId attendance projectName
    healthyDbs tz t r u :
  A.lastClockInTimestamp attendance = Some t →
  performAutoClockOut w clock entryId dayId attendance projectName healthyDbs tz
    = (r, Some u) →
  ∃ day hour,
    formatHour w (Clock.stamp clock) (Js.strOrUndefined tz) = Some hour
    ∧ UpdateData.values u
      = Js.arraySet (baseValuesOf (A.values attendance)) (dayIndexOf t) (Some day)
    ∧ (∃ before, D.workedHours day
         = before ++ [W.Build entryId (Clock.stamp clock) ClockOut hour])
    ∧ D.value day = Some "A" ∧ D.status day = "Submitted"
    ∧ D.timestamp day = Clock.stamp clock
    ∧ (∀ d, Js.arrayGet (baseValuesOf (A.values attendance)) (dayIndexOf t)
             = Some d →
            D.id day = D.id d ∧ D.day day = D.day d ∧
            D.from day = D.from d ∧ D.to day = D.to d ∧
            D.workedHours day
              = D.workedHours d ++ [W.Build entryId (Clock.stamp clock) ClockOut hour])
    ∧ UpdateData.monthlyWorkedHours u
        = PrimFloat.add (A.monthlyWorkedHours attendance)
            (Dayjs.diffHours (Clock.elapsed clock) (Some t))
    ∧ UpdateData.lastClockInTimestamp u = None
    ∧ UpdateData.lastChanged u = Clock.changed clock.
Proof.
  intros Ht. unfold performAutoClockOut. rewrite Ht.
  destruct (lookupDb healthyDbs projectName) as [db|]; [|discriminate].
  cbv zeta.
  destruct (formatHour w (Clock.stamp clock) (Js.strOrUndefined tz)) as [hour|];
    [|discriminate].
  destruct (Firestore.writesSucceed db); [|discriminate].
  intros [= _ <-]. cbn [dayIndex fmap option_fmap option_map].
  fold (dayIndexOf t). fold (baseValuesOf (A.values attendance)).
  eexists _, hour. split; [reflexivity|]. split; [reflexivity|].
  cbn [D.workedHours D.value D.status D.timestamp D.id D.day D.from D.to
       UpdateData.monthlyWorkedHours UpdateData.lastClockInTimestamp
       UpdateData.lastChanged].
  repeat split; eauto.
  all: match goal with
       | H : Js.arrayGet _ _ = Some _ |- _ =>
           unfold baseValuesOf, normalizeAttendanceValues in H; rewrite H
       end; reflexivity.
Qed.

(** The call succeeds exactly when the project's handle is present, the
    zone of the hour format is one the platform knows and the write goes
    through; an update is written exactly then. *)
Lemma performAutoClockOut_success w clock entryId dayId attendance projectName
    healthyDbs tz :
  let r := performAutoClockOut w clock entryId dayId attendance projectName
             healthyDbs tz in
  (fst (fst r) = true ↔
     ∃ db, lookupDb healthyDbs projectName = Some db
           ∧ is_Some (formatHour w (Clock.stamp clock) (Js.strOrUndefined tz))
           ∧ Firestore.writesSucceed db = true)
  ∧ (fst (fst r) = true ↔ is_Some (snd r)).
Proof.
  unfold performAutoClockOut.
  destruct (lookupDb healthyDbs projectName) as [db|]; cbv zeta.
  - destruct (formatHour w (Clock.stamp clock) (Js.strOrUndefined tz)) as [hour|];
      [destruct (Firestore.writesSucceed db) eqn:Hw|]; simpl; split; split;
      try done; eauto;
      try (intros (?&?&?&?); simplify_eq; congruence);
      try (intros (?&?&[? ?]&?); simplify_eq; congruence);
      try (intros [? ?]; congruence).
  - simpl. split; split; try done;
      try (intros (?&?&?); congruence); try (intros [? ?]; congruence).
Qed.
End MutatorFacts.

Import MutatorFacts.

(** C5, as the code has it.  After a successful auto-clock-out on a
    document with [lastClockInTimestamp = t], the update written has
    [lastClockInTimestamp = null]; the day at index [dayOfMonth(t) - 1]
    ends with a "Clock Out" entry stamped with the clock-out time, has
    value "A" and status "Submitted"; and [monthlyWorkedHours] is the
    stored total plus the fractional hours from [t] to the instant the
    call measures them at.  The call reads the clock once for the
    entry's timestamp and again for the hours: when the two readings
    fall in the same millisecond the hours run from [t] to the entry's
    timestamp, and otherwise to the later reading. *)
Theorem auto_clock_out_state_consistency
    (w : World) (clock : Clock.t) (entryId dayId : string)
    (attendance : AttendanceModel.t) (projectName : string)
    (healthyDbs : HealthyDbs) (tz : option string) (t : Z) :
  AttendanceModel.lastClockInTimestamp attendance = Some t →
  let r := LocationMonitoringService.performAutoClockOut w clock entryId dayId
             attendance projectName healthyDbs tz in
  fst (fst r) = true →
  ∃ u day entry,
    snd r = Some u
    ∧ UpdateData.lastClockInTimestamp u = None
    ∧ Js.arrayGet (UpdateData.values u) (Z.to_nat (Dayjs.date t - 1)) = Some day
    ∧ last (DailyAttendance.workedHours day) = Some entry
    ∧ WorkedHoursModel.type entry = ClockOut
    ∧ WorkedHoursModel.timestamp entry = Clock.stamp clock
    ∧ DailyAttendance.value day = Some "A"
    ∧ DailyAttendance.status day = "Submitted"
    ∧ UpdateData.monthlyWorkedHours u
        = PrimFloat.add (AttendanceModel.monthlyWorkedHours attendance)
            (PrimFloat.div (Js.float_of_Z (Clock.elapsed clock - t)) 3600000%float)
    ∧ (Clock.elapsed clock = Clock.stamp clock →
       UpdateData.monthlyWorkedHours u
         = PrimFloat.add (AttendanceModel.monthlyWorkedHours attendance)
             (PrimFloat.div
                (Js.float_of_Z (WorkedHoursModel.timestamp entry - t))
                3600000%float)).
Proof.
  intros Ht r Hok.
  destruct (performAutoClockOut_success w clock entryId dayId attendance
              projectName healthyDbs tz) as [_ Hsome].
  apply Hsome in Hok as [u Hu]. fold r in Hu.
  destruct r as [res written] eqn:Hr. simpl in Hu. subst written.
  destruct (performAutoClockOut_written _ _ _ _ _ _ _ _ _ _ _ Ht Hr)
    as (day & hour & _ & Hvalues & [before Hworked] & Hvalue & Hstatus & _ & _
        & Hmonth & Hclock & _).
  exists u, day, (WorkedHoursModel.Build entryId (Clock.stamp clock) ClockOut hour).
  repeat split; try done.
  - rewrite Hvalues. apply arrayGet_arraySet_eq.
  - rewrite Hworked. apply last_snoc.
  - intros Hsame. cbn [WorkedHoursModel.timestamp]. by rewrite <- Hsame.
Qed.

(** The auto-clock-out of [Demo.backAtWork] (clocked in at 12:00:30,
    10 hours so far this month).  With the entry stamped 12:01:00.000
    and the hours measured two milliseconds later, 30002 ms after the
    clock-in, the month's hours become 10.008333888888888; with every
    reading at 12:01:00.000 they are the hours up to the entry's
    timestamp, 10.008333333333333. *)
Lemma auto_clock_out_state_consistency_witness :
  (∃ u day entry,
     snd (LocationMonitoringService.performAutoClockOut Demo.world
            (Clock.Build Demo.t1201 (Demo.t1201 + 2) (Demo.t1201 + 5))
            "id-1" "id-2" Demo.backAtWork "acme" Demo.dbs None) = Some u
     ∧ UpdateData.lastClockInTimestamp u = None
     ∧ Js.arrayGet (UpdateData.values u) 1 = Some day
     ∧ last (DailyAttendance.workedHours day) = Some entry
     ∧ WorkedHoursModel.type entry = ClockOut
     ∧ WorkedHoursModel.timestamp entry = 1762084860000
     ∧ DailyAttendance.value day = Some "A"
     ∧ DailyAttendance.status day = "Submitted"
     ∧ UpdateData.monthlyWorkedHours u = 10.008333888888888%float)
  ∧ (∃ u day entry,
       snd (LocationMonitoringService.performAutoClockOut Demo.world
              (Clock.still Demo.t1201)
              "id-1" "id-2" Demo.backAtWork "acme" Demo.dbs None) = Some u
       ∧ Js.arrayGet (UpdateData.values u) 1 = Some day
       ∧ last (DailyAttendance.workedHours day) = Some entry
       ∧ WorkedHoursModel.timestamp entry = 1762084860000
       ∧ UpdateData.monthlyWorkedHours u = 10.008333333333333%float).
Proof.
  split.
  - destruct (auto_clock_out_state_consistency Demo.world
                (Clock.Build Demo.t1201 (Demo.t1201 + 2) (Demo.t1201 + 5))
                "id-1" "id-2" Demo.backAtWork "acme" Demo.dbs None Demo.t120030
                eq_refl eq_refl)
      as (u & day & entry & Hu & Hclock & Hday & Hlast & Htype & Hstamp & Hvalue
          & Hstatus & Hmonth & _).
    exists u, day, entry.
    split; [exact Hu|]. split; [exact Hclock|]. split; [exact Hday|].
    split; [exact Hlast|]. split; [exact Htype|]. split; [exact Hstamp|].
    split; [exact Hvalue|]. split; [exact Hstatus|].
    rewrite Hmonth. vm_compute. reflexivity.
  - destruct (auto_clock_out_state_consistency Demo.world (Clock.still Demo.t1201)
                "id-1" "id-2" Demo.backAtWork "acme" Demo.dbs None Demo.t120030
                eq_refl eq_refl)
      as (u & day & entry & Hu & _ & Hday & Hlast & _ & Hstamp & _ & _ & _ & Hsame).
    exists u, day, entry.
    split; [exact Hu|]. split; [exact Hday|]. split; [exact Hlast|].
    split; [exact Hstamp|].
    rewrite (Hsame eq_refl), Hstamp. vm_compute. reflexivity.
Defined.

(** C5 as stated fails when the clock advances between the two
    readings.  The auto-clock-out of [Demo.backAtWork] succeeds; its
    "Clock Out" entry is stamped 12:01:00.000, 30000 ms after the
    clock-in, and the hours are measured 2 ms later: the month's 10
    hours become 10.008333888888888, not the 10.008333333333333 that
    the hours up to the entry's timestamp would give. *)
Lemma hours_measured_after_the_clock_out_timestamp :
  let r := LocationMonitoringService.performAutoClockOut Demo.world
             (Clock.Build Demo.t1201 (Demo.t1201 + 2) (Demo.t1201 + 5))
             "id-1" "id-2" Demo.backAtWork "acme" Demo.dbs None in
  AttendanceModel.lastClockInTimestamp Demo.backAtWork = Some Demo.t120030
  ∧ AttendanceModel.monthlyWorkedHours Demo.backAtWork = 10%float
  ∧ fst (fst r) = true
  ∧ ∃ u day entry,
      snd r = Some u
      ∧ Js.arrayGet (UpdateData.values u) (Z.to_nat (Dayjs.date Demo.t120030 - 1))
        = Some day
      ∧ last (DailyAttendance.workedHours day) = Some entry
      ∧ WorkedHoursModel.type entry = ClockOut
      ∧ WorkedHoursModel.timestamp entry = Demo.t120030 + 30000
      ∧ UpdateData.monthlyWorkedHours u = 10.008333888888888%float
      ∧ PrimFloat.add (AttendanceModel.monthlyWorkedHours Demo.backAtWork)
          (Dayjs.diffHours (WorkedHoursModel.timestamp entry) (Some Demo.t120030))
        = 10.008333333333333%float
      ∧ PrimFloat.eqb (UpdateData.monthlyWorkedHours u)
          (PrimFloat.add (AttendanceModel.monthlyWorkedHours Demo.backAtWork)
             (Dayjs.diffHours (WorkedHoursModel.timestamp entry)
                (Some Demo.t120030)))
        = false.
Proof.
  cbv zeta. split; [reflexivity|]. split; [reflexivity|].
  split; [vm_compute; reflexivity|].
  match eval vm_compute in
    (snd (LocationMonitoringService.performAutoClockOut Demo.world
            (Clock.Build Demo.t1201 (Demo.t1201 + 2) (Demo.t1201 + 5))
            "id-1" "id-2" Demo.backAtWork "acme" Demo.dbs None)) with
  | Some ?u =>
      match eval vm_compute in (Js.arrayGet (UpdateData.values u) 1) with
      | Some ?day =>
          match eval vm_compute in (last (DailyAttendance.workedHours day)) with
          | Some ?entry => exists u, day, entry
          end
      end
  end.
  repeat split; vm_compute; reflexivity.
Qed.

(** The hours of the calls above are pinned by the arithmetic of
    binary64: 30002 ms are 0.008333888888888889 hours and 30000 ms are
    0.008333333333333333, a whole hour is 1, and a reading before the
    clock-in gives negative hours. *)
Example diffHours_values :
  Dayjs.diffHours (Demo.t1201 + 2) (Some Demo.t120030) = 0.008333888888888889%float
  ∧ Dayjs.diffHours Demo.t1201 (Some Demo.t120030) = 0.008333333333333333%float
  ∧ Dayjs.diffHours (Demo.t0800 + 3600000) (Some Demo.t0800) = 1%float
  ∧ Dayjs.diffHours Demo.t0800 (Some Demo.t1200) = (-4)%float
  ∧ PrimFloat.is_nan (Dayjs.diffHours Demo.t0800 None) = true.
Proof. vm_compute. done. Qed.

(** *** The shape of the written [values] *)

Module ShapeFacts.
Import LocationMonitoringService.

(** The entry [kv] is kept by [normalizeAttendanceValues] at index
    [n]. *)
Definition keptAt (n : nat) (kv : string * D.t) : Prop :=
  ∃ idx, Js.parseInt (fst kv) = Some idx ∧ 0 <= idx < 31 ∧ Z.to_nat idx = n.

Lemma normalizeEntry_get_kept arr kv n :
  keptAt n kv → Js.arrayGet (normalizeEntry arr kv) n = Some (snd kv).
Proof.
  intros (idx & Hparse & Hrange & <-). unfold normalizeEntry.
  rewrite Hparse.
  replace ((0 <=? idx) && (idx <? 31)) with true by lia.
  apply arrayGet_arraySet_eq.
Qed.

Lemma normalizeEntry_get_other arr kv n :
  ¬ keptAt n kv → Js.arrayGet (normalizeEntry arr kv) n = Js.arrayGet arr n.
Proof.
  intros Hnot. unfold normalizeEntry.
  destruct (Js.parseInt (fst kv)) as [idx|] eqn:Hparse; [|done].
  destruct ((0 <=? idx) && (idx <? 31)) eqn:Hrange; [|done].
  apply arrayGet_arraySet_ne. intros Heq. apply Hnot.
  exists idx. split; [done|]. split; [lia | done].
Qed.

Lemma keptAt_dec n kv : keptAt n kv ∨ ¬ keptAt n kv.
Proof.
  unfold keptAt. destruct (Js.parseInt (fst kv)) as [idx|].
  - destruct (decide (0 <= idx < 31 ∧ Z.to_nat idx = n)) as [H|H].
    + left. exists idx. tauto.
    + right. intros (i & [= <-] & ? & ?). tauto.
  - right. intros (i & [=] & _).
Qed.

(** Folding the entries leaves at index [n] the value of the one
    entry kept there. *)
Lemma normalize_get_unique entries acc n kv :
  kv ∈ entries → keptAt n kv →
  (∀ kv', kv' ∈ entries → keptAt n kv' → snd kv' = snd kv) →
  Js.arrayGet (fold_left normalizeEntry entries acc) n = Some (snd kv).
Proof.
  induction entries as [|last entries IH] using rev_ind; intros Hin Hkept Huniq.
  - by apply elem_of_nil in Hin.
  - rewrite fold_left_app. simpl.
    destruct (keptAt_dec n last) as [Hlast|Hlast].
    + rewrite normalizeEntry_get_kept by done. f_equal.
      apply Huniq; [|done]. apply elem_of_app. right. by apply list_elem_of_singleton.
    + rewrite normalizeEntry_get_other by done.
      apply IH; [|done|].
      * apply elem_of_app in Hin as [Hin|Hin]; [done|].
        apply list_elem_of_singleton in Hin. by subst.
      * intros kv' Hin'. apply Huniq. apply elem_of_app. by left.
Qed.

(** Nothing is ever placed at index 31 or beyond. *)
Lemma normalize_fold_length entries acc :
  (length acc ≤ 31)%nat →
  (length (fold_left normalizeEntry entries acc) ≤ 31)%nat.
Proof.
  revert acc. induction entries as [|kv entries IH]; intros acc Hacc; [done|].
  simpl. apply IH. unfold normalizeEntry.
  destruct (Js.parseInt (fst kv)) as [idx|]; [|done].
  destruct ((0 <=? idx) && (idx <? 31)) eqn:Hrange; [|done].
  rewrite length_arraySet. lia.
Qed.
End ShapeFacts.

Import ShapeFacts.

Module SparseFacts.
Import LocationMonitoringService.

(** The map the store hands back for an array: one entry per day
    present, keyed by the decimal text of the index; holes have no
    key. *)
Fixpoint sparseFrom (i : nat) (a : list (option D.t)) : list (string * D.t) :=
  match a with
  | [] => []
  | o :: rest =>
      match o with
      | Some d => [(pretty (Z.of_nat i), d)]
      | None => []
      end ++ sparseFrom (S i) rest
  end.

Definition sparse (a : list (option D.t)) : list (string * D.t) := sparseFrom 0 a.

Lemma parseInt_pretty_day (i : nat) :
  (i < 31)%nat → Js.parseInt (pretty (Z.of_nat i)) = Some (Z.of_nat i).
Proof.
  intros Hi.
  do 31 (destruct i as [|i]; [vm_compute; reflexivity|]). lia.
Qed.

Lemma elem_of_sparseFrom s a k d :
  (k, d) ∈ sparseFrom s a ↔
  ∃ i, k = pretty (Z.of_nat (s + i)) ∧ a !! i = Some (Some d).
Proof.
  revert s. induction a as [|o rest IH]; intros s; simpl.
  - split; [by intros ?%elem_of_nil | by intros (i & _ & ?)].
  - rewrite elem_of_app, IH. split.
    + intros [Hhere|(i & -> & Hi)].
      * destruct o as [d'|]; [|by apply elem_of_nil in Hhere].
        apply list_elem_of_singleton in Hhere as [= -> ->].
        exists 0%nat. by rewrite Nat.add_0_r.
      * exists (S i). split; [f_equal; lia | done].
    + intros ([|i] & -> & Hi); simpl in Hi.
      * left. injection Hi as ->. rewrite Nat.add_0_r. apply list_elem_of_here.
      * right. exists i. split; [f_equal; lia | done].
Qed.

Lemma normalize_get_absent entries acc n :
  (∀ kv, kv ∈ entries → ¬ keptAt n kv) →
  Js.arrayGet (fold_left normalizeEntry entries acc) n = Js.arrayGet acc n.
Proof.
  revert acc. induction entries as [|kv entries IH]; intros acc Hnone; [done|].
  simpl. rewrite IH.
  - apply normalizeEntry_get_other, Hnone, list_elem_of_here.
  - intros kv' Hin. apply Hnone. by apply list_elem_of_further.
Qed.

Lemma keptAt_sparse a n k d :
  (length a ≤ 31)%nat → (k, d) ∈ sparse a → keptAt n (k, d) →
  a !! n = Some (Some d).
Proof.
  intros Hlen (i & -> & Hi)%elem_of_sparseFrom (idx & Hparse & Hrange & <-).
  simpl in *. apply lookup_lt_Some in Hi as Hlt.
  rewrite parseInt_pretty_day in Hparse by lia. injection Hparse as <-.
  by rewrite Nat2Z.id.
Qed.

(** The array read back from the map an array was stored as. *)
Lemma normalize_sparse a n :
  (length a ≤ 31)%nat →
  Js.arrayGet (fold_left normalizeEntry (sparse a) []) n = Js.arrayGet a n.
Proof.
  intros Hlen. destruct (Js.arrayGet a n) as [d|] eqn:Hget.
  - assert (Hn : a !! n = Some (Some d)).
    { unfold Js.arrayGet in Hget. by destruct (a !! n) as [[?|]|]; simplify_eq/=. }
    apply lookup_lt_Some in Hn as Hlt.
    apply (normalize_get_unique _ [] n (pretty (Z.of_nat n), d)).
    + apply elem_of_sparseFrom. by exists n.
    + exists (Z.of_nat n). cbn [fst]. rewrite parseInt_pretty_day by lia.
      repeat split; lia.
    + intros [k d'] Hin Hkept. simpl.
      pose proof (keptAt_sparse a n k d' Hlen Hin Hkept). congruence.
  - rewrite normalize_get_absent; [apply arrayGet_nil|].
    intros [k d'] Hin Hkept.
    pose proof (keptAt_sparse a n k d' Hlen Hin Hkept) as Hn.
    unfold Js.arrayGet in Hget. by rewrite Hn in Hget.
Qed.

Lemma find_sparse a j :
  snd <$> List.find (fun kv => bool_decide (fst kv = pretty (Z.of_nat j))) (sparse a)
  = Js.arrayGet a j.
Proof.
  unfold sparse, Js.arrayGet.
  assert (Hgen : ∀ s a j,
    snd <$> List.find (fun kv => bool_decide (fst kv = pretty (Z.of_nat (s + j))))
              (sparseFrom s a) = mjoin (a !! j)).
  { clear. intros s a. revert s. induction a as [|o rest IH]; intros s j; [done|].
    simpl. destruct j as [|j].
    - rewrite Nat.add_0_r. destruct o as [d|]; simpl.
      + by rewrite bool_decide_eq_true_2.
      + destruct (List.find _ _) as [[k d]|] eqn:Hfind; [|done]. exfalso.
        apply List.find_some in Hfind as [Hin Hk].
        apply bool_decide_eq_true in Hk. simpl in Hk. subst k.
        apply list_elem_of_In, elem_of_sparseFrom in Hin as (i & Heq & _).
        apply (inj pretty), Nat2Z.inj in Heq. lia.
    - specialize (IH (S s) j). simpl in IH.
      replace (s + S j)%nat with (S (s + j)) by lia.
      destruct o as [d|]; simpl; [|apply IH].
      rewrite bool_decide_eq_false_2; [apply IH|].
      intros Heq. apply (inj pretty), Nat2Z.inj in Heq. lia. }
  apply (Hgen 0%nat).
Qed.
End SparseFacts.


(** C7.  A stored array is written back as an array at least as long,
    with every day but the clock-in's unchanged.  A stored map is the
    form in which the store hands back an array of at most 31 days:
    one entry per day present, keyed by the decimal text of its index
    ([SparseFacts.sparse]).  It is written as an array in which every
    entry of the map stands at the index equal to its numeric key (the
    entry of the clock-in's day in its updated form, with the new
    "Clock Out" appended), and an index without an entry stays a
    hole. *)
Theorem written_values_shape
    (w : World) (clock : Clock.t) (entryId dayId : string)
    (attendance : AttendanceModel.t) (projectName : string)
    (healthyDbs : HealthyDbs) (tz : option string) (t : Z)
    (res : bool * option string) (u : UpdateData.t) :
  AttendanceModel.lastClockInTimestamp attendance = Some t →
  LocationMonitoringService.performAutoClockOut w clock entryId dayId
    attendance projectName healthyDbs tz = (res, Some u) →
  (∀ a, AttendanceModel.values attendance = ValuesArray a →
     (length a ≤ length (UpdateData.values u))%nat
     ∧ ∀ i, i ≠ dayIndexOf t →
         Js.arrayGet (UpdateData.values u) i = Js.arrayGet a i)
  ∧ (∀ a, (length a ≤ 31)%nat →
     AttendanceModel.values attendance = ValuesObject (SparseFacts.sparse a) →
     (∀ key d, (key, d) ∈ SparseFacts.sparse a →
        ∃ idx : nat,
          Js.parseInt key = Some (Z.of_nat idx)
          ∧ if decide (idx = dayIndexOf t)
            then ∃ day,
                   Js.arrayGet (UpdateData.values u) idx = Some day
                   ∧ DailyAttendance.id day = DailyAttendance.id d
                   ∧ DailyAttendance.day day = DailyAttendance.day d
                   ∧ ∃ punch,
                       DailyAttendance.workedHours day
                         = DailyAttendance.workedHours d ++ [punch]
                       ∧ WorkedHoursModel.type punch = ClockOut
            else Js.arrayGet (UpdateData.values u) idx = Some d)
     ∧ (∀ i, i ≠ dayIndexOf t →
          Js.arrayGet (UpdateData.values u) i = Js.arrayGet a i)
     ∧ (length (UpdateData.values u) ≤ 31)%nat).
Proof.
  intros Ht Hrun.
  destruct (performAutoClockOut_written _ _ _ _ _ _ _ _ _ _ _ Ht Hrun)
    as (day & hour & _ & Hvalues & _ & _ & _ & _ & Hkeep & _).
  rewrite Hvalues. split.
  - intros a Ha. rewrite Ha in *. simpl. split.
    + rewrite length_arraySet. lia.
    + intros i Hi. by apply arrayGet_arraySet_ne.
  - intros a Hlen He. rewrite He in *. simpl in *. split; [|split].
    + intros key d Hin.
      destruct (proj1 (SparseFacts.elem_of_sparseFrom _ _ _ _) Hin)
        as (idx & -> & Hidx). simpl in Hidx.
      apply lookup_lt_Some in Hidx as Hlt.
      exists idx. split; [apply SparseFacts.parseInt_pretty_day; lia|].
      assert (Hget : Js.arrayGet
                (fold_left LocationMonitoringService.normalizeEntry
                   (SparseFacts.sparse a) []) idx = Some d).
      { rewrite SparseFacts.normalize_sparse by done.
        unfold Js.arrayGet. by rewrite Hidx. }
      case_decide as Hday.
      * rewrite Hday in *. destruct (Hkeep d Hget) as (Hid & Hd & _ & _ & Hwh).
        exists day. rewrite arrayGet_arraySet_eq. eauto 10.
      * by rewrite arrayGet_arraySet_ne.
    + intros i Hi. rewrite arrayGet_arraySet_ne by done.
      by apply SparseFacts.normalize_sparse.
    + rewrite length_arraySet.
      pose proof (normalize_fold_length (SparseFacts.sparse a) [] ltac:(simpl; lia)).
      pose proof (dayIndexOf_lt_31 t). lia.
Qed.

Module DemoShape.
Import Demo.

(** The auto-clock-out of 12:01 on a document, and the update it
    writes. *)
Definition clockOutOf (attendance : AttendanceModel.t)
  : (bool * option string) * option UpdateData.t :=
  LocationMonitoringService.performAutoClockOut world (Clock.still t1201)
    "id-1" "id-2" attendance "acme" dbs None.

Definition updateOf (attendance : AttendanceModel.t) : UpdateData.t :=
  default (UpdateData.Build [] 0%float None 0) (snd (clockOutOf attendance)).

Definition first : DailyAttendance.t := dayOf 1 [].
Definition second : DailyAttendance.t := dayOf 2 [punch "c" t120030 ClockIn].
Definition fourth : DailyAttendance.t := dayOf 4 [].

(** A document clocked in on the 2nd whose [values], days 1, 2 and 4
    of the month, came back as a map. *)
Definition storedAsMap : AttendanceModel.t :=
  attendanceWith (Some t120030)
    (ValuesObject (SparseFacts.sparse [Some first; Some second; None; Some fourth])).

(** A document on which nobody is clocked in. *)
Definition notClockedIn : AttendanceModel.t :=
  attendanceWith None (ValuesArray [None; Some (dayOf 2 [])]).
End DemoShape.

Lemma written_values_shape_witness :
  (2 ≤ length (UpdateData.values (DemoShape.updateOf Demo.backAtWork)))%nat
  ∧ Js.arrayGet (UpdateData.values (DemoShape.updateOf DemoShape.storedAsMap)) 3
    = Some DemoShape.fourth
  ∧ Js.arrayGet (UpdateData.values (DemoShape.updateOf DemoShape.storedAsMap)) 2
    = None.
Proof.
  split; [|split].
  - refine (proj1 (proj1 (written_values_shape Demo.world (Clock.still Demo.t1201)
                            "id-1" "id-2"
                            Demo.backAtWork "acme" Demo.dbs None Demo.t120030
                            (true, None) (DemoShape.updateOf Demo.backAtWork)
                            eq_refl eq_refl) _ eq_refl)).
  - destruct (proj1 (proj2 (written_values_shape Demo.world (Clock.still Demo.t1201)
                              "id-1" "id-2"
                              DemoShape.storedAsMap "acme" Demo.dbs None Demo.t120030
                              (true, None) (DemoShape.updateOf DemoShape.storedAsMap)
                              eq_refl eq_refl)
                       [Some DemoShape.first; Some DemoShape.second; None;
                        Some DemoShape.fourth]
                       ltac:(simpl; lia) eq_refl)
                "3" DemoShape.fourth) as (idx & Hparse & Hat).
    + do 2 apply list_elem_of_further. apply list_elem_of_here.
    + assert (idx = 3%nat) as ->.
      { assert (Hthree : Js.parseInt "3" = Some 3) by (vm_compute; reflexivity).
        rewrite Hthree in Hparse. injection Hparse as Heq. lia. }
      exact Hat.
  - refine (proj1 (proj2 (proj2 (written_values_shape Demo.world
                                   (Clock.still Demo.t1201) "id-1" "id-2"
                                   DemoShape.storedAsMap "acme" Demo.dbs None
                                   Demo.t120030 (true, None)
                                   (DemoShape.updateOf DemoShape.storedAsMap)
                                   eq_refl eq_refl)
                            [Some DemoShape.first; Some DemoShape.second; None;
                             Some DemoShape.fourth]
                            ltac:(simpl; lia) eq_refl)) 2%nat _).
    vm_compute. discriminate.
Defined.

(** *** Documents on which nobody is clocked in *)

Module ScannerFacts.
Import LocationMonitoringService.

Lemma elem_of_reached db docs doc : doc ∈ reached db docs → doc ∈ docs.
Proof.
  unfold reached. destruct (Firestore.failedLookup db) as [k|]; [|done].
  intros Hin. by eapply (subseteq_take k).
Qed.

Lemma clockedInOf_clocked_in now projectName db employee attendance p :
  (employee, attendance, p) ∈ clockedInOf now projectName db →
  attendance ∈ Firestore.attendance db
  ∧ is_Some (A.lastClockInTimestamp attendance).
Proof.
  unfold clockedInOf. destruct (Firestore.readsSucceed db); simpl;
    [|by intros ?%elem_of_nil].
  intros (doc & Hdoc & Hjoin)%list_elem_of_omap.
  apply elem_of_reached in Hdoc.
  apply list_elem_of_In, List.filter_In in Hdoc as [Hin Hclocked].
  apply List.filter_In in Hin as [Hin _].
  destruct (List.find _ _); [|done]. injection Hjoin as _ <- _.
  split; [by apply list_elem_of_In | by apply bool_decide_eq_true in Hclocked].
Qed.

Lemma findClockedInEmployees_clocked_in now healthyDbs employee attendance p :
  (employee, attendance, p) ∈ findClockedInEmployees now healthyDbs →
  is_Some (A.lastClockInTimestamp attendance).
Proof.
  unfold findClockedInEmployees.
  intros Hin%list_elem_of_In. apply List.in_flat_map in Hin as ([name db] & _ & Hin).
  apply list_elem_of_In in Hin. by eapply clockedInOf_clocked_in.
Qed.

Lemma checkAll_writes w now clocks uuids healthyDbs k todo id u :
  (id, u) ∈ snd (checkAll w now clocks uuids healthyDbs k todo) →
  ∃ employee attendance p,
    (employee, attendance, p) ∈ todo ∧ A.id attendance = id.
Proof.
  revert k. induction todo as [|[[employee attendance] p] todo IH]; intros k; simpl.
  - by intros ?%elem_of_nil.
  - destruct (default _ (checkAndAutoClockOut _ _ _ _ _ _ _ _ _))
      as [result written].
    destruct (checkAll w now clocks uuids healthyDbs (S k) todo)
      as [results writes] eqn:Hrest.
    simpl. intros [Hin|Hin]%elem_of_app.
    + destruct written as [u'|]; simpl in Hin; [|by apply elem_of_nil in Hin].
      apply list_elem_of_singleton in Hin as [= -> ->].
      exists employee, attendance, p. split; [apply list_elem_of_here | done].
    + specialize (IH (S k)). rewrite Hrest in IH. simpl in IH.
      destruct (IH Hin) as (e & a & q & Hin' & Hid).
      exists e, a, q. split; [by apply list_elem_of_further | done].
Qed.
End ScannerFacts.

(** What [performAutoClockOut] does on a document whose
    [lastClockInTimestamp] is [null]: there is no guard; with a healthy
    store and a zone the platform knows it reports success and writes
    the array unchanged, a total of [NaN] hours, and a fresh
    [lastChanged]. *)
Lemma performAutoClockOut_on_null_clock_in
    (w : World) (clock : Clock.t) (entryId dayId : string)
    (attendance : AttendanceModel.t) (projectName : string)
    (healthyDbs : HealthyDbs) (tz : option string) (db : Firestore.t) :
  AttendanceModel.lastClockInTimestamp attendance = None →
  lookupDb healthyDbs projectName = Some db →
  is_Some (formatHour w (Clock.stamp clock) (Js.strOrUndefined tz)) →
  Firestore.writesSucceed db = true →
  LocationMonitoringService.performAutoClockOut w clock entryId dayId
    attendance projectName healthyDbs tz
  = ((true, None),
     Some (UpdateData.Build (baseValuesOf (AttendanceModel.values attendance))
             (PrimFloat.add (AttendanceModel.monthlyWorkedHours attendance)
                PrimFloat.nan)
             None (Clock.changed clock))).
Proof.
  intros Hnull Hdb [hour Hhour] Hw.
  unfold LocationMonitoringService.performAutoClockOut.
  by rewrite Hnull, Hdb, Hhour, Hw.
Qed.

Lemma performAutoClockOut_on_null_clock_in_witness :
  DemoShape.clockOutOf DemoShape.notClockedIn
  = ((true, None),
     Some (UpdateData.Build [None; Some (Demo.dayOf 2 [])]
             (PrimFloat.add 10%float PrimFloat.nan) None Demo.t1201)).
Proof.
  apply (performAutoClockOut_on_null_clock_in Demo.world (Clock.still Demo.t1201)
           "id-1" "id-2" DemoShape.notClockedIn "acme" Demo.dbs None
           (Firestore.Build [] [] true true None)); [reflexivity..| |reflexivity].
  vm_compute. eauto.
Defined.

(** C2 as stated fails: on a document with [lastClockInTimestamp = null]
    the auto-clock-out operation returns success, not an error, and
    writes an update that turns [monthlyWorkedHours] (10 hours) into
    [NaN]. *)
Lemma auto_clock_out_on_null_clock_in_succeeds :
  ∃ u,
    AttendanceModel.lastClockInTimestamp DemoShape.notClockedIn = None
    ∧ DemoShape.clockOutOf DemoShape.notClockedIn = ((true, None), Some u)
    ∧ PrimFloat.is_nan (UpdateData.monthlyWorkedHours u) = true
    ∧ PrimFloat.is_nan (AttendanceModel.monthlyWorkedHours DemoShape.notClockedIn)
      = false
    ∧ applyUpdate DemoShape.notClockedIn u ≠ DemoShape.notClockedIn.
Proof.
  eexists. split; [reflexivity|]. split; [reflexivity|].
  split; [reflexivity|]. split; [reflexivity|].
  intros H.
  apply (f_equal (fun a => PrimFloat.is_nan (AttendanceModel.monthlyWorkedHours a))) in H.
  vm_compute in H. discriminate.
Qed.

(** C2, as the code has it.  A document whose [lastClockInTimestamp] is
    [null] never reaches the auto-clock-out: the scanner keeps only
    clocked-in documents, so every update a monitor tick writes goes to
    a document that is clocked in, and the others are left as they are.
    The refusal "Cannot clock out without a previous clock-in." belongs
    to the human path, [clockInOrOut], which then returns without
    writing anything. *)
Theorem null_clock_in_never_auto_clocked_out
    (w : World) (now : Z) (clocks : nat → Clock.t) (uuids : nat → string * string)
    (healthyDbs : HealthyDbs) :
  (∀ employee attendance projectName,
     (employee, attendance, projectName)
       ∈ LocationMonitoringService.findClockedInEmployees now healthyDbs →
     is_Some (AttendanceModel.lastClockInTimestamp attendance))
  ∧ (∀ id u,
       (id, u) ∈ snd (LocationMonitoringService.runLocationCheck w now clocks uuids
                        healthyDbs) →
       ∃ employee attendance projectName,
         (employee, attendance, projectName)
           ∈ LocationMonitoringService.findClockedInEmployees now healthyDbs
         ∧ AttendanceModel.id attendance = id
         ∧ is_Some (AttendanceModel.lastClockInTimestamp attendance))
  ∧ (∀ entryId dayId attendance dailyWorkingHour logic tz updateError,
       AttendanceModel.lastClockInTimestamp attendance = None →
       ∃ r,
         ClockInOrOut.clockInOrOut w now entryId dayId ClockOut attendance
           dailyWorkingHour logic tz updateError = Some r
         ∧ fst (fst r) = false ∧ snd r = None
         ∧ (PrimFloat.eqb dailyWorkingHour 0%float = false →
            snd (fst r) = Some "Cannot clock out without a previous clock-in.")).
Proof.
  split; [|split].
  - intros employee attendance p. apply ScannerFacts.findClockedInEmployees_clocked_in.
  - intros id u Hin. unfold LocationMonitoringService.runLocationCheck in Hin.
    apply ScannerFacts.checkAll_writes in Hin as (e & a & p & Hin & Hid).
    exists e, a, p. split; [done|]. split; [done|].
    by eapply ScannerFacts.findClockedInEmployees_clocked_in.
  - intros entryId dayId attendance dwh logic tz updateError Hnull.
    unfold ClockInOrOut.clockInOrOut. rewrite Hnull.
    destruct (PrimFloat.eqb dwh 0%float);
      (eexists; split; [reflexivity|]); simpl; done.
Qed.

(* ===================================================================== *)
(** ** Dedup of auto-clock-outs *)
(* ===================================================================== *)

Module DedupFacts.
Import LocationMonitoringService.

Definition newestFirst (a b : W.t) : Z :=
  Dayjs.diff (W.timestamp b) (W.timestamp a).

(** The head of the sorted list is a newest entry of the list. *)
Lemma head_sort_newest (l : list W.t) :
  match head (JsSort.sort newestFirst l) with
  | Some x => x ∈ l ∧ ∀ y, y ∈ l → W.timestamp y <= W.timestamp x
  | None => l = []
  end.
Proof.
  induction l as [|a l IH]; [done|]. simpl.
  destruct (JsSort.sort newestFirst l) as [|y s]; simpl in *.
  - subst l. split; [apply list_elem_of_here|].
    intros y ->%list_elem_of_singleton. lia.
  - destruct IH as [Hy Hmax]. unfold newestFirst at 1, Dayjs.diff.
    destruct (Z.leb_spec (W.timestamp y - W.timestamp a) 0); simpl.
    + split; [apply list_elem_of_here|].
      intros z [->|Hz]%elem_of_cons; [lia|]. specialize (Hmax z Hz). lia.
    + split; [by apply list_elem_of_further|].
      intros z [->|Hz]%elem_of_cons; [lia|]. by apply Hmax.
Qed.

(** Fewer than five whole minutes, in milliseconds. *)
Lemma diffMinutes_lt_interval now ts :
  (Dayjs.diffMinutes now ts <? CHECK_INTERVAL_MINUTES) = true
  ↔ now - ts < 300000.
Proof.
  unfold Dayjs.diffMinutes, CHECK_INTERVAL_MINUTES.
  rewrite Z.ltb_lt. Z.to_euclidean_division_equations. lia.
Qed.

(** The dedup check fires exactly when some "Clock Out" entry on the
    clock-in's day is younger than the interval; the newest one is the
    one compared. *)
Lemma recentlyClockedOut_iff now attendance :
  recentlyClockedOut now attendance = true ↔
  ∃ t day entry,
    A.lastClockInTimestamp attendance = Some t
    ∧ valuesGet (A.values attendance) (Z.to_nat (Dayjs.date t - 1)) = Some day
    ∧ entry ∈ D.workedHours day
    ∧ W.type entry = ClockOut
    ∧ now - W.timestamp entry < 300000.
Proof.
  unfold recentlyClockedOut, lastClockOutOf, dayIndex.
  destruct (A.lastClockInTimestamp attendance) as [t|]; simpl.
  2: { split; [done | by intros (?&?&?&?&_)]. }
  destruct (valuesGet (A.values attendance) _) as [day|] eqn:Hday; simpl.
  2: { split; [done | intros (?&?&?&[= <-]&?&_); congruence]. }
  pose proof (head_sort_newest (List.filter isClockOut (D.workedHours day))) as Hhead.
  fold newestFirst.
  destruct (head _) as [newest|].
  - destruct Hhead as [Hin Hmax].
    apply list_elem_of_In, List.filter_In in Hin as [Hin Hout].
    rewrite diffMinutes_lt_interval. split.
    + intros Hlt. exists t, day, newest. repeat split; try done.
      * by apply list_elem_of_In.
      * unfold isClockOut in Hout. by destruct (W.type newest).
    + intros (t' & day' & entry & [= <-] & Hday' & He & Hty & Hlt).
      rewrite Hday in Hday'. injection Hday' as <-.
      assert (W.timestamp entry <= W.timestamp newest); [|lia].
      apply Hmax. apply list_elem_of_In, List.filter_In.
      split; [by apply list_elem_of_In|]. unfold isClockOut. by rewrite Hty.
  - split; [done|].
    intros (t' & day' & entry & [= <-] & Hday' & He & Hty & _).
    rewrite Hday in Hday'. injection Hday' as <-.
    assert (Hin : entry ∈ List.filter isClockOut (D.workedHours day)).
    { apply list_elem_of_In, List.filter_In.
      split; [by apply list_elem_of_In|]. unfold isClockOut. by rewrite Hty. }
    rewrite Hhead in Hin. by apply elem_of_nil in Hin.
Qed.

Lemma recently_clocked_out_skips w now clock entryId dayId employee attendance
    projectName healthyDbs :
  recentlyClockedOut now attendance = true →
  let r := checkAndAutoClockOut w now clock entryId dayId employee attendance
             projectName healthyDbs in
  idle r
  ∧ (verdictReturned (zoneAccepted w) (EmployeeModel.currentLocation employee)
       (EmployeeModel.timezone employee) → r = Some (None, None)).
Proof.
  intros Hrecent r. subst r.
  destruct (checkAndAutoClockOut_cases w now clock entryId dayId employee
              attendance projectName healthyDbs)
    as [[Hdue _]|[(_ & _ & Hskip)|(_ & Hthrows & Hskip)]].
  - destruct Hdue as (area & k & _ & _ & _ & _ & _ & Hno). congruence.
  - rewrite Hskip. split; [by left | done].
  - rewrite Hskip. split; [by right|].
    intros Hret. by destruct Hthrows as (area & _ & _ & Hno).
Qed.
End DedupFacts.

Import DedupFacts.

(** C6, as the code has it.  If a "Clock Out" entry on the clock-in's
    day (hence the most recent one) is younger than
    CHECK_INTERVAL_MINUTES, the monitor skips the employee and writes
    nothing: the check returns [null] (or throws with the validator, on
    a zone the platform rejects).  Consequently, once an auto-clock-out
    has been written with an entry stamped [now1], a new clock-in that
    falls on the same day of the month as the one just closed is not
    auto-clocked-out by any check made less than CHECK_INTERVAL_MINUTES
    after [now1].  The check reads the clock-in's day only. *)
Theorem dedup_within_check_interval (w : World) :
  (∀ now clock entryId dayId employee attendance projectName healthyDbs t day entry,
     AttendanceModel.lastClockInTimestamp attendance = Some t →
     LocationMonitoringService.valuesGet (AttendanceModel.values attendance)
       (Z.to_nat (Dayjs.date t - 1)) = Some day →
     entry ∈ DailyAttendance.workedHours day →
     WorkedHoursModel.type entry = ClockOut →
     now - WorkedHoursModel.timestamp entry
       < LocationMonitoringService.CHECK_INTERVAL_MINUTES * 60000 →
     let r := LocationMonitoringService.checkAndAutoClockOut w now clock entryId
                dayId employee attendance projectName healthyDbs in
     idle r
     ∧ (verdictReturned (zoneAccepted w) (EmployeeModel.currentLocation employee)
          (EmployeeModel.timezone employee) → r = Some (None, None)))
  ∧ (∀ clock1 now2 clock2 clockIn2 e1 d1 e2 d2 e3 d3 attendance t projectName
       healthyDbs tz res1 u1 dailyWorkingHour logic tz2 updateError res2 attendance2
       employee projectName3 healthyDbs3,
     AttendanceModel.lastClockInTimestamp attendance = Some t →
     LocationMonitoringService.performAutoClockOut w clock1 e1 d1 attendance
       projectName healthyDbs tz = (res1, Some u1) →
     ClockInOrOut.clockInOrOut w clockIn2 e2 d2 ClockIn (applyUpdate attendance u1)
       dailyWorkingHour logic tz2 updateError = Some (res2, Some attendance2) →
     Dayjs.date clockIn2 = Dayjs.date t →
     now2 - Clock.stamp clock1
       < LocationMonitoringService.CHECK_INTERVAL_MINUTES * 60000 →
     let r := LocationMonitoringService.checkAndAutoClockOut w now2 clock2 e3 d3
                employee attendance2 projectName3 healthyDbs3 in
     idle r
     ∧ (verdictReturned (zoneAccepted w) (EmployeeModel.currentLocation employee)
          (EmployeeModel.timezone employee) → r = Some (None, None))).
Proof.
  assert (Hskip : ∀ now clock entryId dayId employee attendance projectName
                    healthyDbs t day entry,
     AttendanceModel.lastClockInTimestamp attendance = Some t →
     LocationMonitoringService.valuesGet (AttendanceModel.values attendance)
       (Z.to_nat (Dayjs.date t - 1)) = Some day →
     entry ∈ DailyAttendance.workedHours day →
     WorkedHoursModel.type entry = ClockOut →
     now - WorkedHoursModel.timestamp entry
       < LocationMonitoringService.CHECK_INTERVAL_MINUTES * 60000 →
     let r := LocationMonitoringService.checkAndAutoClockOut w now clock entryId
                dayId employee attendance projectName healthyDbs in
     idle r
     ∧ (verdictReturned (zoneAccepted w) (EmployeeModel.currentLocation employee)
          (EmployeeModel.timezone employee) → r = Some (None, None))).
  { intros now clock entryId dayId employee attendance projectName healthyDbs t day
      entry Ht Hday Hin Hty Hlt.
    apply recently_clocked_out_skips, recentlyClockedOut_iff.
    exists t, day, entry. repeat split; try done;
      unfold LocationMonitoringService.CHECK_INTERVAL_MINUTES in Hlt; lia. }
  split; [exact Hskip|].
  intros clock1 now2 clock2 clockIn2 e1 d1 e2 d2 e3 d3 attendance t projectName
    healthyDbs tz res1 u1 dwh logic tz2 updateError res2 attendance2 employee
    projectName3 healthyDbs3 Ht Hout Hin Hsame Hlt.
  destruct (performAutoClockOut_written _ _ _ _ _ _ _ _ _ _ _ Ht Hout)
    as (day1 & hour1 & _ & Hvalues & [before Hworked] & _).
  unfold ClockInOrOut.clockInOrOut in Hin.
  destruct (PrimFloat.eqb dwh 0%float); [discriminate|].
  cbv zeta in Hin.
  destruct (formatHour w clockIn2 (Js.strOrUndefined tz2)) as [hour2|];
    [|discriminate].
  destruct updateError; [discriminate|].
  injection Hin as _ <-.
  cbn [LocationMonitoringService.dayIndex fmap option_fmap option_map
       applyUpdate AttendanceModel.values LocationMonitoringService.valuesGet] in *.
  rewrite Hsame, Hvalues. fold (dayIndexOf t).
  rewrite arrayGet_arraySet_eq.
  eapply (Hskip now2 clock2 e3 d3 employee _ projectName3 healthyDbs3 clockIn2 _
            (WorkedHoursModel.Build e1 (Clock.stamp clock1) ClockOut hour1)).
  - reflexivity.
  - cbn [AttendanceModel.values ClockInOrOut.valuesSet
         LocationMonitoringService.valuesGet].
    rewrite Hsame. fold (dayIndexOf t). apply arrayGet_arraySet_eq.
  - cbn [DailyAttendance.workedHours]. rewrite Hworked.
    apply elem_of_app. left. apply elem_of_app. right. apply list_elem_of_here.
  - reflexivity.
  - exact Hlt.
Qed.

Module DemoDedup.
Import Demo.

(** 2025-11-01 23:50, 23:58 and 23:59:30; 2025-11-02 00:01 and 00:04
    (UTC). *)
Definition t2350 : Z := 1762041000000.
Definition t2358 : Z := 1762041480000.
Definition t235930 : Z := 1762041570000.
Definition t0001 : Z := 1762041660000.
Definition t0004 : Z := 1762041840000.

(** 2025-11-02 12:01:30 and 12:02. *)
Definition t120130 : Z := 1762084890000.
Definition t1202 : Z := 1762084920000.

Definition logic : AttendanceLogicModel.t :=
  AttendanceLogicModel.Build 80%float 50%float.

(** Clocked in at 23:50 on the 1st; the last location is a static
    share of 23:58. *)
Definition lateShift : AttendanceModel.t :=
  attendanceWith (Some t2350)
    (ValuesArray [Some (dayOf 1 [punch "a" t2350 ClockIn])]).

Definition lateWorker : EmployeeModel.t :=
  employeeWith (Some (locationAt false t2358 0.5 0.5)) squareText.

(** Clocked in at 08:00 on the 2nd. *)
Definition dayShift : AttendanceModel.t :=
  attendanceWith (Some t0800)
    (ValuesArray [None; Some (dayOf 2 [punch "a" t0800 ClockIn])]).

Definition check (now : Z) (employee : EmployeeModel.t)
    (attendance : AttendanceModel.t) :=
  LocationMonitoringService.checkAndAutoClockOut world now (Clock.still now)
    "id-1" "id-2" employee attendance "acme" dbs.

(** The update a check writes, if it writes one. *)
Definition writtenBy (now : Z) (employee : EmployeeModel.t)
    (attendance : AttendanceModel.t) : option UpdateData.t :=
  match check now employee attendance with
  | Some (_, written) => written
  | None => None
  end.

Definition humanClockIn (now : Z) (attendance : AttendanceModel.t) :=
  ClockInOrOut.clockInOrOut world now "id-3" "id-4" ClockIn attendance
    8%float logic None None.

(** The document after the update of a check, and after a human
    clock-in. *)
Definition afterCheck (now : Z) (employee : EmployeeModel.t)
    (attendance : AttendanceModel.t) : AttendanceModel.t :=
  match writtenBy now employee attendance with
  | Some u => applyUpdate attendance u
  | None => attendance
  end.

Definition afterClockIn (now : Z) (attendance : AttendanceModel.t)
  : AttendanceModel.t :=
  match humanClockIn now attendance with
  | Some (_, Some doc) => doc
  | _ => attendance
  end.
End DemoDedup.

Lemma dedup_within_check_interval_witness :
  LocationMonitoringService.checkAndAutoClockOut Demo.world DemoDedup.t1202
    (Clock.still DemoDedup.t1202)
    "id-5" "id-6" Demo.staticShare
    (DemoDedup.afterClockIn DemoDedup.t120130
       (applyUpdate DemoDedup.dayShift (DemoShape.updateOf DemoDedup.dayShift)))
    "acme" Demo.dbs
  = Some (None, None).
Proof.
  refine (proj2 (proj2 (dedup_within_check_interval Demo.world)
            (Clock.still Demo.t1201) DemoDedup.t1202 (Clock.still DemoDedup.t1202)
            DemoDedup.t120130 "id-1" "id-2" "id-3" "id-4"
            "id-5" "id-6" DemoDedup.dayShift Demo.t0800 "acme" Demo.dbs None
            (true, None) (DemoShape.updateOf DemoDedup.dayShift)
            8%float DemoDedup.logic None None (true, None) _ Demo.staticShare
            "acme" Demo.dbs _ _ _ _ _) _).
  - reflexivity.
  - reflexivity.
  - reflexivity.
  - reflexivity.
  - vm_compute. reflexivity.
  - intros loc Hloc Hended. vm_compute. reflexivity.
Defined.

(** C6 as stated fails across UTC midnight.  Clocked in at 23:50 on the
    1st, the employee is auto-clocked-out at 23:59:30 (recorded on the
    1st), clocks in again at 00:01 on the 2nd, and is auto-clocked-out
    again at 00:04: two auto-clock-outs on one attendance document
    within 4.5 minutes, since the second check looks for "Clock Out"
    entries on the 2nd only. *)
Lemma two_auto_clock_outs_within_check_interval :
  let doc1 := DemoDedup.afterCheck DemoDedup.t235930 DemoDedup.lateWorker
                DemoDedup.lateShift in
  let doc2 := DemoDedup.afterClockIn DemoDedup.t0001 doc1 in
  ∃ res1 u1 res2 u2,
    DemoDedup.check DemoDedup.t235930 DemoDedup.lateWorker DemoDedup.lateShift
      = Some (Some res1, Some u1)
    ∧ DemoDedup.humanClockIn DemoDedup.t0001 (applyUpdate DemoDedup.lateShift u1)
      = Some ((true, None), Some doc2)
    ∧ DemoDedup.check DemoDedup.t0004 DemoDedup.lateWorker doc2
      = Some (Some res2, Some u2)
    ∧ AutoClockOutResult.success res1 = true
    ∧ AutoClockOutResult.success res2 = true
    ∧ AttendanceModel.id doc2 = AttendanceModel.id DemoDedup.lateShift
    ∧ UpdateData.lastChanged u1 = DemoDedup.t235930
    ∧ UpdateData.lastChanged u2 = DemoDedup.t0004
    ∧ 0 < DemoDedup.t0004 - DemoDedup.t235930
        < LocationMonitoringService.CHECK_INTERVAL_MINUTES * 60000.
Proof.
  do 4 eexists.
  split; [vm_compute; reflexivity|].
  split; [vm_compute; reflexivity|].
  split; [vm_compute; reflexivity|].
  vm_compute. repeat split; reflexivity.
Qed.

(* ===================================================================== *)
(** ** The live-session registry and the stored location *)
(* ===================================================================== *)

Module RegistryFacts.
Import Bot.

Definition storedIsLive (s : StoredLocation) : bool :=
  match s with
  | LocFull l => EmployeeCurrentLocation.isLive l
  | LocNull | LocEndedOnly _ => false
  end.

Definition storedEndedAt (s : StoredLocation) : option Z :=
  match s with
  | LocFull l => EmployeeCurrentLocation.endedAt l
  | LocEndedOnly ts => Some ts
  | LocNull => None
  end.

(** [isLive ⇒ endedAt = null] on one stored location, and on every
    employee document of the store. *)
Definition locationInvariant (s : StoredLocation) : Prop :=
  storedIsLive s = true → storedEndedAt s = None.

Definition storeInvariant (st : State) : Prop :=
  ∀ key doc, employees st !! key = Some doc →
             locationInvariant (EmployeeDoc.currentLocation doc).

(** The sweeper decides that an entry is over. *)
Definition over (now : Z) (entry : LiveEntry.t) : bool :=
  now >=? threshold entry.


(** Case analysis on the outcome of the update in the goal. *)
Ltac case_update H :=
  match goal with
  | |- context [updateEmployee ?h ?s ?p ?i ?f] =>
      destruct (updateEmployee h s p i f) eqn:H
  end.

Lemma updateEmployee_sessions health st p id f st' :
  updateEmployee health st p id f = Some st' →
  liveSessions st' = liveSessions st.
Proof.
  unfold updateEmployee. destruct health; try discriminate.
  destruct (employees st !! (p, id)); [|discriminate]. by intros [= <-].
Qed.

Lemma updateEmployee_invariant health st p id f st' :
  storeInvariant st →
  (∀ doc, locationInvariant (EmployeeDoc.currentLocation (f doc))) →
  updateEmployee health st p id f = Some st' →
  storeInvariant st'.
Proof.
  intros Hinv Hf. unfold updateEmployee. destruct health; try discriminate.
  destruct (employees st !! (p, id)) as [doc|]; [|discriminate].
  intros [= <-] key doc'. simpl.
  destruct (decide ((p, id) = key)) as [<-|Hne].
  - rewrite lookup_insert_eq. intros [= <-]. apply Hf.
  - rewrite lookup_insert_ne by done. apply Hinv.
Qed.

Lemma endLocation_ended ts s :
  storedIsLive (endLocation ts s) = false
  ∧ storedEndedAt (endLocation ts s) = Some ts.
Proof. by destruct s. Qed.

Lemma sweepEntry_sessions now dbs st key entry :
  liveSessions (sweepEntry now dbs st (key, entry))
  = if over now entry then delete key (liveSessions st) else liveSessions st.
Proof.
  unfold sweepEntry, over. destruct (now >=? threshold entry); [|done].
  unfold withSessions at 1. cbn [liveSessions]. f_equal.
  destruct (dbs (LiveEntry.projectName entry)); try done;
    case_update Hup; try done;
    by apply updateEmployee_sessions in Hup.
Qed.

Lemma sweepEntry_invariant now dbs st kv :
  storeInvariant st → storeInvariant (sweepEntry now dbs st kv).
Proof.
  intros Hinv. destruct kv as [key entry]. unfold sweepEntry.
  destruct (now >=? threshold entry); [|done].
  assert (Htry : storeInvariant
    match dbs (LiveEntry.projectName entry) with
    | NoHandle => st
    | health =>
        match updateEmployee health st (LiveEntry.projectName entry)
                (LiveEntry.employeeId entry)
                (fun doc => EmployeeDoc.Build
                   (endLocation now (EmployeeDoc.currentLocation doc)) now) with
        | Some st' => st'
        | None => st
        end
    end).
  { destruct (dbs (LiveEntry.projectName entry)); try done;
      case_update Hup; try done;
      (eapply updateEmployee_invariant; [exact Hinv| |exact Hup]);
      intros doc; simpl; intros Hlive;
      by rewrite (proj1 (endLocation_ended now _)) in Hlive. }
  intros k doc. simpl. apply Htry.
Qed.

Lemma sweep_fold_invariant now dbs l st :
  storeInvariant st → storeInvariant (foldl (sweepEntry now dbs) st l).
Proof.
  revert st. induction l as [|kv l IH]; intros st Hinv; [done|].
  simpl. apply IH. by apply sweepEntry_invariant.
Qed.

(** Over the whole loop: a key is gone once an over entry was visited
    under it, and is untouched if no over entry is visited under it. *)
Definition visitedOver (now : Z) (key : string)
    (l : list (string * LiveEntry.t)) : bool :=
  existsb (fun kv => bool_decide (fst kv = key) && over now (snd kv)) l.

Lemma sweep_fold_lookup now dbs l st key :
  liveSessions (foldl (sweepEntry now dbs) st l) !! key
  = if visitedOver now key l then None else liveSessions st !! key.
Proof.
  revert st. induction l as [|[k e] l IH]; intros st; [done|].
  cbn [foldl]. rewrite IH, sweepEntry_sessions.
  unfold visitedOver. cbn [existsb fst snd]. fold (visitedOver now key l).
  destruct (visitedOver now key l); [by rewrite orb_true_r|].
  rewrite orb_false_r.
  destruct (over now e); [|by rewrite andb_false_r].
  rewrite andb_true_r. case_bool_decide as Hk.
  - subst k. apply lookup_delete_eq.
  - by apply lookup_delete_ne.
Qed.

End RegistryFacts.

Import RegistryFacts.

Module DemoBot.
Import Bot.

(** A live share of one minute started at 12:00 by chat 1001,
    message 77; the employee's document shows it as live. *)
Definition entry : LiveEntry.t :=
  LiveEntry.Build 1001 77 "emp-1" "acme" (Some (Demo.t1200 + 60000)) Demo.t1200.

Definition liveDoc : EmployeeDoc.t :=
  EmployeeDoc.Build (LocFull (Demo.locationAt true Demo.t1200 0.5 0.5)) Demo.t1200.

Definition state : State := {|
  liveSessions := {[ makeLiveKey 1001 77 := entry ]};
  employees := {[ ("acme", "emp-1") := liveDoc ]};
  locationLogs := []
|}.

(** 12:05: the share is over. *)
Definition t1205 : Z := Demo.t1200 + 300000.

Definition failing : string → DbHealth := fun _ => OperationsFail.
Definition healthy : string → DbHealth := fun _ => Healthy.
End DemoBot.

Lemma sweep_fold_employees_unhealthy now dbs l st :
  (∀ p, dbs p ≠ Bot.Healthy) →
  Bot.employees (foldl (Bot.sweepEntry now dbs) st l) = Bot.employees st.
Proof.
  intros Hdown. revert st. induction l as [|[k e] l IH]; intros st; [done|].
  cbn [foldl]. rewrite IH. unfold Bot.sweepEntry.
  destruct (now >=? Bot.threshold e); [|done].
  specialize (Hdown (LiveEntry.projectName e)).
  by destruct (dbs (LiveEntry.projectName e)).
Qed.

(** C1, as the code has it.  An entry the sweeper finds over
    ([now ≥ min(liveUntilMs or +∞, lastUpdateMs + 120000)]) is removed
    from the registry by that very tick whatever the database does (the
    removal sits in the [finally] clause); an entry that is not over
    stays; and when no store can be updated the employee documents are
    left as they were, so the finalization is not retried. *)
Theorem sweeper_removes_over_entry_regardless
    (now : Z) (dbs : string → Bot.DbHealth) (st : Bot.State)
    (key : string) (entry : LiveEntry.t) :
  Bot.liveSessions st !! key = Some entry →
  (over now entry = true → Bot.liveSessions (Bot.sweep now dbs st) !! key = None)
  ∧ (over now entry = false →
     Bot.liveSessions (Bot.sweep now dbs st) !! key = Some entry)
  ∧ ((∀ p, dbs p ≠ Bot.Healthy) →
     Bot.employees (Bot.sweep now dbs st) = Bot.employees st).
Proof.
  intros Hentry. unfold Bot.sweep. rewrite sweep_fold_lookup.
  split; [|split].
  - intros Hover.
    replace (visitedOver now key _) with true; [done|].
    symmetry. apply existsb_exists. exists (key, entry). split.
    + by apply list_elem_of_In, elem_of_map_to_list.
    + simpl. by rewrite bool_decide_eq_true_2, Hover.
  - intros Hstays.
    replace (visitedOver now key _) with false; [done|].
    symmetry. apply not_true_is_false.
    intros ([k e] & Hin & Hvisited)%existsb_exists.
    apply list_elem_of_In, elem_of_map_to_list in Hin.
    simpl in Hvisited. apply andb_true_iff in Hvisited as [Hk Hover].
    apply bool_decide_eq_true in Hk. subst k. congruence.
  - apply sweep_fold_employees_unhealthy.
Qed.

Lemma sweeper_removes_over_entry_regardless_witness :
  Bot.liveSessions (Bot.sweep DemoBot.t1205 DemoBot.failing DemoBot.state)
    !! Bot.makeLiveKey 1001 77 = None.
Proof.
  refine (proj1 (sweeper_removes_over_entry_regardless DemoBot.t1205
                   DemoBot.failing DemoBot.state (Bot.makeLiveKey 1001 77)
                   DemoBot.entry _) _).
  - vm_compute. reflexivity.
  - vm_compute. reflexivity.
Defined.

(** C1 as stated fails: at 12:05 the entry is over, the update of the
    employee document fails (the document still says [isLive = true],
    with no [endedAt]), and yet the entry has left the registry, so no
    later tick finalizes it. *)
Lemma failed_finalization_still_removes_entry :
  let st' := Bot.sweep DemoBot.t1205 DemoBot.failing DemoBot.state in
  Bot.liveSessions DemoBot.state !! Bot.makeLiveKey 1001 77 = Some DemoBot.entry
  ∧ over DemoBot.t1205 DemoBot.entry = true
  ∧ Bot.employees st' !! ("acme", "emp-1") = Some DemoBot.liveDoc
  ∧ Bot.liveSessions st' !! Bot.makeLiveKey 1001 77 ≠ Some DemoBot.entry
  ∧ Bot.liveSessions st' = ∅
  ∧ Bot.sweep (DemoBot.t1205 + 60000) DemoBot.healthy st' = st'.
Proof.
  vm_compute. repeat split; try reflexivity. discriminate.
Qed.

Lemma saveEmployeeLocation_invariant now dbs logAdded st p id chat msg loc period
    isEdit :
  storeInvariant st →
  storeInvariant (fst (Bot.saveEmployeeLocation now dbs logAdded st p id chat msg
                         loc period isEdit)).
Proof.
  intros Hinv. unfold Bot.saveEmployeeLocation.
  destruct (Bot.upsertLive now (Bot.liveSessions st) p id chat msg period isEdit)
    as [[sessions isLive] liveUntilMs].
  assert (Hinv1 : storeInvariant (Bot.withSessions st sessions)) by exact Hinv.
  destruct (dbs p); [done| |];
    case_update Hup; try destruct logAdded; simpl; try done;
    (eapply updateEmployee_invariant in Hup; [exact Hup | exact Hinv1 | done]).
Qed.

Lemma saveEmployeeLocation_written now dbs logAdded st p id chat msg loc period
    isEdit st' :
  Bot.saveEmployeeLocation now dbs logAdded st p id chat msg loc period isEdit
    = (st', true) →
  ∃ doc l,
    Bot.employees st' !! (p, id) = Some doc
    ∧ EmployeeDoc.currentLocation doc = LocFull l
    ∧ EmployeeCurrentLocation.endedAt l = None
    ∧ EmployeeCurrentLocation.updatedAt l = now.
Proof.
  unfold Bot.saveEmployeeLocation.
  destruct (Bot.upsertLive now (Bot.liveSessions st) p id chat msg period isEdit)
    as [[sessions isLive] liveUntilMs].
  destruct (dbs p); [discriminate| |];
    case_update Hup; try discriminate;
    (destruct logAdded; [|discriminate]); intros [= <-];
    unfold Bot.updateEmployee in Hup; try discriminate.
  destruct (Bot.employees _ !! (p, id)); [|discriminate].
  injection Hup as <-. simpl. rewrite lookup_insert_eq. eauto 10.
Qed.

(** C9.  Every write of [currentLocation] keeps
    [isLive ⇒ endedAt = null] on every employee document: the ingestion
    path ([saveEmployeeLocation]) and a sweeper tick both preserve it,
    the first whether or not its log entry is added after the update;
    what the ingestion path writes has [endedAt = null], whatever
    [isLive] it carries; and the sweeper's finalization leaves
    [isLive = false] together with the [endedAt] it sets. *)
Theorem currentLocation_writes_keep_invariant
    (now : Z) (dbs : string → Bot.DbHealth) (st : Bot.State) :
  storeInvariant st →
  (∀ logAdded p id chat msg loc period isEdit,
     storeInvariant (fst (Bot.saveEmployeeLocation now dbs logAdded st p id chat
                            msg loc period isEdit)))
  ∧ storeInvariant (Bot.sweep now dbs st)
  ∧ (∀ logAdded p id chat msg loc period isEdit st',
       Bot.saveEmployeeLocation now dbs logAdded st p id chat msg loc period isEdit
         = (st', true) →
       ∃ doc l,
         Bot.employees st' !! (p, id) = Some doc
         ∧ EmployeeDoc.currentLocation doc = LocFull l
         ∧ EmployeeCurrentLocation.endedAt l = None)
  ∧ (∀ ts s,
       storedEndedAt (Bot.endLocation ts s) = Some ts
       ∧ storedIsLive (Bot.endLocation ts s) = false).
Proof.
  intros Hinv. split; [|split; [|split]].
  - intros. by apply saveEmployeeLocation_invariant.
  - unfold Bot.sweep. by apply sweep_fold_invariant.
  - intros logAdded p id chat msg loc period isEdit st' Hsave.
    destruct (saveEmployeeLocation_written _ _ _ _ _ _ _ _ _ _ _ _ Hsave)
      as (doc & l & ? & ? & ? & _). eauto.
  - intros ts s. destruct (endLocation_ended ts s). done.
Qed.

Lemma currentLocation_writes_keep_invariant_witness :
  storeInvariant (Bot.sweep DemoBot.t1205 DemoBot.healthy DemoBot.state).
Proof.
  refine (proj1 (proj2 (currentLocation_writes_keep_invariant DemoBot.t1205
                          DemoBot.healthy DemoBot.state _))).
  intros key doc Hdoc. unfold DemoBot.state in Hdoc. simpl in Hdoc.
  apply lookup_singleton_Some in Hdoc as [_ <-]. by intros _.
Defined.

(** The sweeper's finalization on the demo state. *)
Example sweep_finalizes_demo :
  let st' := Bot.sweep DemoBot.t1205 DemoBot.healthy DemoBot.state in
  (storedIsLive ∘ EmployeeDoc.currentLocation <$> Bot.employees st' !! ("acme", "emp-1"))
    = Some false
  ∧ (storedEndedAt ∘ EmployeeDoc.currentLocation <$> Bot.employees st' !! ("acme", "emp-1"))
    = Some (Some DemoBot.t1205)
  ∧ Bot.liveSessions st' = ∅.
Proof. vm_compute. done. Qed.

(* ===================================================================== *)
(** ** Scenarios *)
(* ===================================================================== *)

Module DemoTick.
Import Demo.

(** A second employee, whose document carries no clock-in. *)
Definition idleDoc : AttendanceModel.t :=
  AttendanceModel.Build "att-2" "uid-2" 2025 "November" 3%float None
    (ValuesArray [Some (dayOf 1 [])]).

Definition idleEmployee : EmployeeModel.t :=
  EmployeeModel.Build "emp-2" "uid-2" (Some "1002")
    (Some (locationAt false DemoDedup.t2358 5 5)) (Some squareText) None None.

Definition store : HealthyDbs :=
  [("acme",
    Firestore.Build [DemoDedup.lateShift; idleDoc]
      [DemoDedup.lateWorker; idleEmployee] true true None)].

Definition ids (k : nat) : string * string := ("entry-" +:+ pretty k, "day-" +:+ pretty k).

(** Every auto-clock-out of the tick at [now] makes its three readings
    one millisecond apart. *)
Definition readings (now : Z) (k : nat) : Clock.t :=
  Clock.Build (now + 1) (now + 2) (now + 3).

(** A live share two minutes old, outside the unit square. *)
Definition drifted : EmployeeModel.t :=
  employeeWith (Some (locationAt true (DemoDedup.t235930 - 120000) 1.5 0.5))
    squareText.

Definition noArea : EmployeeModel.t :=
  employeeWith (Some (locationAt true (DemoDedup.t235930 - 120000) 1.5 0.5)) "".
End DemoTick.

Lemma null_clock_in_never_auto_clocked_out_witness :
  ∃ r,
    ClockInOrOut.clockInOrOut Demo.world Demo.t1201 "id-1" "id-2" ClockOut
      DemoShape.notClockedIn 8%float DemoDedup.logic None None = Some r
    ∧ snd (fst r) = Some "Cannot clock out without a previous clock-in.".
Proof.
  destruct (proj2 (proj2 (null_clock_in_never_auto_clocked_out
              Demo.world Demo.t1201 (DemoTick.readings Demo.t1201) DemoTick.ids
              DemoTick.store))
              "id-1" "id-2" DemoShape.notClockedIn 8%float DemoDedup.logic
              None None eq_refl) as (r & Hr & _ & _ & Herror).
  exists r. split; [exact Hr|]. apply Herror. reflexivity.
Defined.

(** One tick over a store with a clocked-in and an idle document: the
    one update written goes to the clocked-in document. *)
Example tick_writes_to_clocked_in_document_only :
  let r := LocationMonitoringService.runLocationCheck Demo.world DemoDedup.t235930
             (DemoTick.readings DemoDedup.t235930) DemoTick.ids DemoTick.store in
  (AutoClockOutResult.success <$> fst r) = [true] ∧ (fst <$> snd r) = ["att-1"].
Proof. vm_compute. done. Qed.

(** Drift outside the area: the verdict is invalid, the clock-out is
    written, and the reason is the validator's message. *)
Example drift_outside_area :
  specVerdict (JSON_parse Demo.world) DemoDedup.t235930
    (EmployeeModel.currentLocation DemoTick.drifted) Demo.squareText 10
    = Some OUTSIDE_AREA
  ∧ ∃ res u,
      DemoDedup.check DemoDedup.t235930 DemoTick.drifted DemoDedup.lateShift
        = Some (Some res, Some u)
      ∧ AutoClockOutResult.reason res
        = Some "You are outside your designated working area. Clock in/out is only allowed within your assigned work location."
      ∧ UpdateData.lastClockInTimestamp u = None.
Proof. split; [vm_compute; done|]. do 2 eexists. vm_compute. done. Qed.

(** No working area: the employee is skipped. *)
Example missing_working_area_is_skipped :
  DemoDedup.check DemoDedup.t235930 DemoTick.noArea DemoDedup.lateShift
  = Some (None, None).
Proof. reflexivity. Qed.

(** A working area that is one no-break space (U+00A0) is blank for
    [trim], and the employee is skipped as well. *)
Example blank_working_area_is_skipped :
  Js.codeUnits " " = [160]
  ∧ Js.trimIsEmpty " " = true
  ∧ DemoDedup.check DemoDedup.t235930
      (Demo.employeeWith
         (Some (Demo.locationAt true (DemoDedup.t235930 - 120000) 1.5 0.5)) " ")
      DemoDedup.lateShift
    = Some (None, None).
Proof. vm_compute. done. Qed.

(** A zone the platform rejects.  The validator throws on the late
    worker's location, so the check throws with it, and the tick
    catches it: no result and no write.  The human path throws as
    well, having called [formatHour] outside its [try]. *)
Example rejected_zone_throws :
  let employee :=
    EmployeeModel.Build "emp-1" "uid-1" (Some "1001")
      (Some (Demo.locationAt false DemoDedup.t2358 0.5 0.5))
      (Some Demo.squareText) (Some "Not/AZone") None in
  LocationValidation.validateEmployeeLocationAndArea (JSON_parse Demo.world)
    (zoneAccepted Demo.world) DemoDedup.t235930
    (EmployeeModel.currentLocation employee) Demo.squareText (Some 10)
    (Some "Not/AZone") = None
  ∧ LocationMonitoringService.checkAndAutoClockOut Demo.world DemoDedup.t235930
      (Clock.still DemoDedup.t235930) "id-1" "id-2" employee DemoDedup.lateShift
      "acme" Demo.dbs = None
  ∧ LocationMonitoringService.runLocationCheck Demo.world DemoDedup.t235930
      (DemoTick.readings DemoDedup.t235930) DemoTick.ids
      [("acme", Firestore.Build [DemoDedup.lateShift] [employee] true true None)]
    = ([], [])
  ∧ ClockInOrOut.clockInOrOut Demo.world Demo.t1201 "id-1" "id-2" ClockIn
      DemoDedup.lateShift 8%float DemoDedup.logic (Some "Not/AZone") None = None
  ∧ fst (LocationMonitoringService.performAutoClockOut Demo.world
           (Clock.still Demo.t1201) "id-1" "id-2" Demo.backAtWork "acme" Demo.dbs
           (Some "Not/AZone"))
    = (false, Some "Failed to update attendance record").
Proof. vm_compute. done. Qed.

(* ===================================================================== *)
(** * Further properties of the source *)
(* ===================================================================== *)

(** ** util/locationValidation.ts *)

(** The plain validator accepts exactly the locations that exist, have
    not ended, are no older than the limit and, when live with a known
    end, have not passed it; a verdict carries an error message exactly
    when it is invalid, and a valid one reports the location's own
    coordinates and age. *)
Theorem validateEmployeeLocation_valid_iff
    (now : Z) (location : option EmployeeCurrentLocation.t)
    (maxAgeMinutes : option Z) :
  let v := LocationValidation.validateEmployeeLocation now location maxAgeMinutes in
  (LocationValidationResult.isValid v = true ↔ LocationValidationResult.error v = None)
  ∧ (LocationValidationResult.isValid v = true ↔
       ∃ loc, location = Some loc
         ∧ EmployeeCurrentLocation.endedAt loc = None
         ∧ Dayjs.diffMinutes now (EmployeeCurrentLocation.updatedAt loc)
             <= LocationValidation.defaultMaxAge maxAgeMinutes
         ∧ (EmployeeCurrentLocation.isLive loc = true →
            ∀ liveUntil, EmployeeCurrentLocation.liveUntil loc = Some liveUntil →
                         now <= liveUntil))
  ∧ (∀ loc, location = Some loc → LocationValidationResult.isValid v = true →
       LocationValidationResult.coordinates v
         = Some (EmployeeCurrentLocation.longitude loc,
                 EmployeeCurrentLocation.latitude loc)
       ∧ LocationValidationResult.locationAge v
         = Some (Dayjs.diffMinutes now (EmployeeCurrentLocation.updatedAt loc))).
Proof.
  unfold LocationValidation.validateEmployeeLocation, Dayjs.isAfter. cbv zeta.
  destruct location as [loc|]; simpl.
  2: { repeat split; try done. by intros (? & [=] & _). }
  destruct (EmployeeCurrentLocation.endedAt loc) as [e|] eqn:Hended; simpl.
  { repeat split; try done. intros (? & [= <-] & ? & _). congruence. }
  destruct (Z.gtb_spec (Dayjs.diffMinutes now (EmployeeCurrentLocation.updatedAt loc))
              (LocationValidation.defaultMaxAge maxAgeMinutes)) as [Hold|Hfresh]; simpl.
  { repeat split; try done. intros (? & [= <-] & _ & ? & _). lia. }
  destruct (EmployeeCurrentLocation.isLive loc) eqn:Hlive; simpl.
  - destruct (EmployeeCurrentLocation.liveUntil loc) as [u|] eqn:Hu; simpl.
    + destruct (Z.ltb_spec u now); simpl.
      * repeat split; try done.
        intros (? & [= <-] & _ & _ & Hend). specialize (Hend Hlive u Hu). lia.
      * repeat split; try done; try (by simplify_eq).
        intros _. exists loc. repeat split; try done.
        intros _ u' Hu'. rewrite Hu in Hu'. injection Hu' as <-. lia.
    + repeat split; try done; try (by simplify_eq).
      intros _. exists loc. repeat split; try done. intros _ u' Hu'. congruence.
  - repeat split; try done; try (by simplify_eq).
    intros _. exists loc. repeat split; try done. congruence.
Qed.

(** The geofence validator's verdicts: an error message exactly when
    invalid; a valid verdict only for a live location that has not
    ended, and then with [isLive = true]; and every verdict about a
    live location, valid or not, keeps the location's coordinates.
    When no verdict is returned the call has thrown on the zone of its
    log line. *)
Theorem validateEmployeeLocationAndArea_verdict_shape
    (parse : string → option json) (zoneAccepted : string → bool) (now : Z)
    (location : option EmployeeCurrentLocation.t) (workingArea : string)
    (maxAgeMinutes : option Z) (tz : option string) :
  match LocationValidation.validateEmployeeLocationAndArea parse zoneAccepted now
          location workingArea maxAgeMinutes tz with
  | Some v =>
      (LocationValidationResult.isValid v = true
       ↔ LocationValidationResult.error v = None)
      ∧ (LocationValidationResult.isValid v = true →
           ∃ loc, location = Some loc
             ∧ EmployeeCurrentLocation.isLive loc = true
             ∧ EmployeeCurrentLocation.endedAt loc = None
             ∧ LocationValidationResult.isLive v = Some true)
      ∧ (LocationValidationResult.isLive v = Some true →
           ∃ loc, location = Some loc
             ∧ LocationValidationResult.coordinates v
               = Some (EmployeeCurrentLocation.longitude loc,
                       EmployeeCurrentLocation.latitude loc))
  | None => ¬ verdictReturned zoneAccepted location tz
  end.
Proof.
  pose proof (validator_returns_iff parse zoneAccepted now location workingArea
                maxAgeMinutes tz) as Hreturns.
  destruct (LocationValidation.validateEmployeeLocationAndArea _ _ _ _ _ _ _)
    as [v|] eqn:Hv; [|by intros [? [=]]%Hreturns].
  clear Hreturns. revert Hv.
  unfold LocationValidation.validateEmployeeLocationAndArea. cbv zeta.
  destruct location as [loc|]; simpl; [|intros [= <-]; by repeat split].
  destruct (EmployeeCurrentLocation.endedAt loc) as [e|] eqn:Hended; simpl;
    [intros [= <-]; by repeat split|].
  destruct (zoneAccepted _); simpl; [|done].
  destruct (EmployeeCurrentLocation.isLive loc) eqn:Hlive; simpl.
  2: { destruct (_ >? _); simpl; intros [= <-]; by repeat split. }
  destruct (match EmployeeCurrentLocation.liveUntil loc with
            | Some until => Dayjs.isBefore now until
            | None => true
            end); simpl.
  2: { destruct (_ >? _); simpl; intros [= <-]; by repeat split. }
  destruct (LocationValidation.parseWorkingArea parse workingArea) as [area|];
    simpl; [destruct (LocationValidation.isPointInMultiPolygon _ area); simpl|];
    intros [= <-]; repeat split; try done; eauto 10.
Qed.

(** The working area is consulted for live locations only: when the
    location is absent, has ended or is not effectively live, the
    outcome is the same whatever the working area and the JSON parser,
    and a verdict returned is never valid.  The zone decides only
    whether a verdict is returned: two zones the platform treats alike
    give the same outcome. *)
Theorem validator_ignores_area_unless_live
    (parse parse' : string → option json) (zoneAccepted : string → bool) (now : Z)
    (location : option EmployeeCurrentLocation.t)
    (workingArea workingArea' : string)
    (maxAgeMinutes : option Z) (tz : option string) :
  (∀ loc, location = Some loc →
          EmployeeCurrentLocation.endedAt loc = None →
          effectiveIsLive now loc = false) →
  LocationValidation.validateEmployeeLocationAndArea parse zoneAccepted now location
    workingArea maxAgeMinutes tz
  = LocationValidation.validateEmployeeLocationAndArea parse' zoneAccepted now
      location workingArea' maxAgeMinutes tz
  ∧ (∀ v, LocationValidation.validateEmployeeLocationAndArea parse zoneAccepted now
            location workingArea maxAgeMinutes tz = Some v →
          LocationValidationResult.isValid v = false)
  ∧ (∀ tz', zoneAccepted (LocationValidation.logZone tz')
            = zoneAccepted (LocationValidation.logZone tz) →
       LocationValidation.validateEmployeeLocationAndArea parse zoneAccepted now
         location workingArea maxAgeMinutes tz'
       = LocationValidation.validateEmployeeLocationAndArea parse zoneAccepted now
           location workingArea maxAgeMinutes tz).
Proof.
  intros Hdead. unfold LocationValidation.validateEmployeeLocationAndArea. cbv zeta.
  destruct location as [loc|]; [|split; [done | split; [by intros v [= <-] | done]]].
  specialize (Hdead loc eq_refl).
  destruct (EmployeeCurrentLocation.endedAt loc) as [e|]; simpl;
    [split; [done | split; [by intros v [= <-] | done]]|].
  specialize (Hdead eq_refl). unfold effectiveIsLive, Dayjs.isBefore in *.
  rewrite Hdead.
  split; [done|]. split.
  - destruct (zoneAccepted _); simpl; [|done].
    destruct (_ >? _); by intros v [= <-].
  - intros tz' ->. done.
Qed.

Lemma validator_ignores_area_unless_live_witness :
  ∃ v,
    LocationValidation.validateEmployeeLocationAndArea (JSON_parse Demo.world)
      (zoneAccepted Demo.world)
      Demo.t1201 (EmployeeModel.currentLocation Demo.staticShare)
      Demo.squareText (Some 10) None = Some v
    ∧ LocationValidationResult.isValid v = false.
Proof.
  eexists. split; [vm_compute; reflexivity|].
  refine (proj1 (proj2 (validator_ignores_area_unless_live (JSON_parse Demo.world)
                          (fun _ => None) (zoneAccepted Demo.world) Demo.t1201
                          (EmployeeModel.currentLocation Demo.staticShare)
                          Demo.squareText "" (Some 10) None _)) _ _).
  - intros loc [= <-] _. reflexivity.
  - vm_compute. reflexivity.
Defined.

(** *** Ray casting *)

Module PolygonFacts.
Import LocationValidation.

(** The edges the loop of [isPointInPolygon] visits, each as the pair
    (vertex [i], vertex [j]) with [j] the vertex before [i]; the first
    edge joins the first vertex to the last. *)
Fixpoint edgesFrom (cj : float * float) (rest : Ring)
  : list ((float * float) * (float * float)) :=
  match rest with
  | [] => []
  | ci :: rest' => (ci, cj) :: edgesFrom ci rest'
  end.

Definition edges (ring : Ring) : list ((float * float) * (float * float)) :=
  match last ring with
  | Some cj => edgesFrom cj ring
  | None => []
  end.

(** The number of edges the ray from [(x, y)] crosses. *)
Definition crossings (x y : float)
    (es : list ((float * float) * (float * float))) : nat :=
  length (List.filter (fun e => crosses x y (fst e) (snd e)) es).

Lemma rayCast_parity x y cj rest inside :
  rayCast x y cj rest inside
  = xorb inside (Nat.odd (crossings x y (edgesFrom cj rest))).
Proof.
  revert cj inside. induction rest as [|ci rest IH]; intros cj inside; simpl.
  - by destruct inside.
  - rewrite IH. unfold crossings. simpl.
    destruct (crosses x y ci cj); simpl; [|done].
    rewrite Nat.odd_succ, <- Nat.negb_odd.
    by destruct inside, (Nat.odd _).
Qed.

Lemma edgesFrom_snoc cj rest c :
  edgesFrom cj (rest ++ [c]) = edgesFrom cj rest ++ [(c, default cj (last rest))].
Proof.
  revert cj. induction rest as [|ci rest IH]; intros cj; [done|].
  cbn [edgesFrom app]. rewrite IH, last_cons. by destruct (last rest).
Qed.

Lemma crossings_app x y es1 es2 :
  crossings x y (es1 ++ es2) = (crossings x y es1 + crossings x y es2)%nat.
Proof. unfold crossings. by rewrite List.filter_app, length_app. Qed.

Lemma crosses_same_point x y c : crosses x y c c = false.
Proof.
  unfold crosses. destruct c as [xi yi].
  by destruct (PrimFloat.ltb y yi).
Qed.
End PolygonFacts.

(** Ray casting is a parity count: the point is inside exactly when the
    ray crosses an odd number of the ring's edges; in particular a ring
    without vertices contains nothing. *)
Theorem isPointInPolygon_is_crossing_parity
    (x y : float) (ring : Ring) :
  LocationValidation.isPointInPolygon (x, y) ring
  = Nat.odd (PolygonFacts.crossings x y (PolygonFacts.edges ring))
  ∧ LocationValidation.isPointInPolygon (x, y) [] = false.
Proof.
  split; [|done].
  unfold LocationValidation.isPointInPolygon, PolygonFacts.edges.
  destruct (last ring) as [cj|]; [|done].
  by rewrite PolygonFacts.rayCast_parity.
Qed.

(** The answer does not depend on how the ring is written down: it is
    the same when the ring starts at its second vertex instead of its
    first, and the same when the ring is closed by repeating its first
    vertex at the end, as GeoJSON rings are. *)
Theorem isPointInPolygon_ring_presentation
    (point : float * float) (first : float * float) (rest : Ring) :
  LocationValidation.isPointInPolygon point (rest ++ [first])
  = LocationValidation.isPointInPolygon point (first :: rest)
  ∧ LocationValidation.isPointInPolygon point (first :: rest ++ [first])
  = LocationValidation.isPointInPolygon point (first :: rest).
Proof.
  destruct point as [x y].
  assert (Hlast : last (first :: rest) = Some (default first (last rest))).
  { rewrite last_cons. by destruct (last rest). }
  assert (Hrot :
    LocationValidation.isPointInPolygon (x, y) (rest ++ [first])
    = LocationValidation.isPointInPolygon (x, y) (first :: rest)).
  { unfold LocationValidation.isPointInPolygon.
    rewrite last_snoc, Hlast, !PolygonFacts.rayCast_parity.
    rewrite PolygonFacts.edgesFrom_snoc, PolygonFacts.crossings_app.
    change (PolygonFacts.edgesFrom (default first (last rest)) (first :: rest))
      with ([(first, default first (last rest))]
              ++ PolygonFacts.edgesFrom first rest).
    rewrite PolygonFacts.crossings_app. f_equal. f_equal. lia. }
  split; [exact Hrot|].
  rewrite <- Hrot. unfold LocationValidation.isPointInPolygon.
  change (first :: rest ++ [first]) with ((first :: rest) ++ [first]).
  rewrite !last_snoc. cbn [app LocationValidation.rayCast].
  by rewrite PolygonFacts.crosses_same_point.
Qed.

(** A point is inside a multi-polygon exactly when it is inside the
    first ring of one of its polygons; the other rings (holes) of a
    polygon play no part. *)
Theorem isPointInMultiPolygon_any_outer_ring
    (point : float * float) (multiPolygon : MultiPolygon) :
  LocationValidation.isPointInMultiPolygon point multiPolygon
  = existsb (fun polygon =>
               match polygon with
               | outerRing :: _ => LocationValidation.isPointInPolygon point outerRing
               | [] => false
               end) multiPolygon
  ∧ LocationValidation.isPointInMultiPolygon point (take 1 <$> multiPolygon)
  = LocationValidation.isPointInMultiPolygon point multiPolygon.
Proof.
  assert (Hany : ∀ mp,
    LocationValidation.isPointInMultiPolygon point mp
    = existsb (fun polygon =>
                 match polygon with
                 | outerRing :: _ => LocationValidation.isPointInPolygon point outerRing
                 | [] => false
                 end) mp).
  { induction mp as [|polygon mp IH]; [done|]. simpl. rewrite IH.
    destruct polygon as [|outerRing holes]; [done|].
    destruct outerRing as [|c ring]; simpl.
    - by destruct point.
    - by destruct (LocationValidation.isPointInPolygon point (c :: ring)). }
  split; [apply Hany|].
  rewrite !Hany. induction multiPolygon as [|polygon mp IH]; [done|].
  rewrite fmap_cons. cbn [existsb]. rewrite IH. by destruct polygon.
Qed.

(** *** The working-area parser *)

Module ParserShape.
Import LocationValidation.


(** A polygon the parser's element checks accept: at least one ring,
    every ring of at least three points. *)
Definition wellFormedPolygon (polygon : Polygon) : Prop :=
  polygon ≠ [] ∧ Forall (fun ring : Ring => (3 ≤ length ring)%nat) polygon.




Lemma validateRing_length r ring :
  validateRing r = Some ring → (3 ≤ length ring)%nat.
Proof.
  destruct r as [| | | |coords|]; try discriminate. simpl.
  destruct (Nat.ltb_spec (length coords) 3); [discriminate|].
  intros Hm%length_mapM. lia.
Qed.

Lemma validatePolygon_wellFormed p polygon :
  validatePolygon p = Some polygon → wellFormedPolygon polygon.
Proof.
  destruct p as [| | | |rings|]; try discriminate. simpl.
  destruct (Nat.eqb_spec (length rings) 0); [discriminate|].
  intros Hm. split.
  - apply length_mapM in Hm. destruct polygon; [simpl in Hm; lia | done].
  - apply mapM_Some in Hm. clear n.
    induction Hm as [|r ring rs rest Hr _ IH]; constructor; [|done].
    by eapply validateRing_length.
Qed.

(** On a one-element array the parser answers for the element read as
    a ring. *)
Lemma parse_one_item r :
  parseWorkingAreaValue (JArr [r]) = (fun ring => [[ring]]) <$> validateRing r.
Proof.
  unfold parseWorkingAreaValue. cbn [length Nat.eqb].
  destruct r as [| | | |coords|]; try done.
  destruct coords as [|c coords]; [done|].
  assert (Hcases : (∃ xy, c = JArr xy) ∨ ¬ (∃ xy, c = JArr xy)).
  { destruct c; eauto; right; by intros [? [=]]. }
  destruct Hcases as [[xy ->]|Hc].
  - cbn [singlePolygonCase mapM validatePolygon length Nat.eqb].
    by destruct (validateRing (JArr (JArr xy :: coords))).
  - assert (Hring : validateRing c = None)
      by (destruct c; try done; by destruct Hc; eauto).
    assert (Hcoord : validateCoord c = None)
      by (destruct c; try done; by destruct Hc; eauto).
    assert (Hsingle : singlePolygonCase [JArr (c :: coords)] = false)
      by (destruct c; try done; by destruct Hc; eauto).
    rewrite Hsingle.
    cbn [mapM validatePolygon validateRing length Nat.eqb].
    rewrite Hring, Hcoord.
    cbn [mbind option_bind fmap option_fmap option_map].
    by destruct (_ <? _)%nat.
Qed.

Lemma parse_several_items items :
  (2 ≤ length items)%nat →
  parseWorkingAreaValue (JArr items) = mapM validatePolygon items.
Proof.
  intros Hlen. unfold parseWorkingAreaValue.
  destruct items as [|p1 [|p2 items]]; simpl in Hlen; try lia.
  assert (Hsingle : singlePolygonCase (p1 :: p2 :: items) = false).
  { unfold singlePolygonCase. by repeat case_match. }
  by rewrite Hsingle.
Qed.
End ParserShape.

(** The exact set of inputs the parser accepts: a one-element array
    whose element is a ring of at least three coordinate pairs (a bare
    one-ring polygon, returned wrapped), or an array of two or more
    polygons that each pass the element checks (returned as they are).
    Nothing else parses. *)
Theorem parseWorkingArea_accepts_exactly (parsed : json) (mp : MultiPolygon) :
  LocationValidation.parseWorkingAreaValue parsed = Some mp ↔
  (∃ r ring, parsed = JArr [r]
     ∧ LocationValidation.validateRing r = Some ring ∧ mp = [[ring]])
  ∨ (∃ items, parsed = JArr items ∧ (2 ≤ length items)%nat
       ∧ mapM LocationValidation.validatePolygon items = Some mp).
Proof.
  split.
  - destruct parsed as [| | | |items|]; try discriminate.
    destruct items as [|r [|p2 items]]; [discriminate| |].
    + rewrite ParserShape.parse_one_item.
      destruct (LocationValidation.validateRing r) as [ring|] eqn:Hr; [|discriminate].
      intros [= <-]. left. by exists r, ring.
    + rewrite ParserShape.parse_several_items by (simpl; lia).
      intros Hm. right. exists (r :: p2 :: items). split; [done|].
      split; [simpl; lia | done].
  - intros [(r & ring & -> & Hr & ->)|(items & -> & Hlen & Hm)].
    + by rewrite ParserShape.parse_one_item, Hr.
    + by rewrite ParserShape.parse_several_items.
Qed.

(** Whatever the parser returns is usable by the containment test: at
    least one polygon, every polygon with at least one ring, every ring
    with at least three points. *)
Theorem parseWorkingArea_result_well_formed
    (parse : string → option json) (workingArea : string) (mp : MultiPolygon) :
  LocationValidation.parseWorkingArea parse workingArea = Some mp →
  mp ≠ [] ∧ Forall ParserShape.wellFormedPolygon mp.
Proof.
  unfold LocationValidation.parseWorkingArea.
  destruct (parse workingArea) as [parsed|]; [|discriminate].
  destruct parsed as [| | | |items|]; try discriminate.
  destruct items as [|r [|p2 items]]; [discriminate| |].
  - rewrite ParserShape.parse_one_item.
    destruct (LocationValidation.validateRing r) as [ring|] eqn:Hr; [|discriminate].
    intros [= <-]. split; [done|]. constructor; [|done]. split; [done|].
    constructor; [|done]. by eapply ParserShape.validateRing_length.
  - rewrite ParserShape.parse_several_items by (simpl; lia).
    intros Hm. split.
    + apply length_mapM in Hm. destruct mp; [simpl in Hm; lia | done].
    + apply mapM_Some in Hm.
      induction Hm as [|p polygon ps rest Hp _ IH]; constructor; [|done].
      by eapply ParserShape.validatePolygon_wellFormed.
Qed.



Lemma parseWorkingArea_result_well_formed_witness :
  [[[(0, 0); (1, 0); (1, 1); (0, 1)]]]%float ≠ []
  ∧ Forall ParserShape.wellFormedPolygon [[[(0, 0); (1, 0); (1, 1); (0, 1)]]]%float.
Proof.
  apply (parseWorkingArea_result_well_formed (JSON_parse Demo.world) Demo.squareText).
  reflexivity.
Defined.

(** ** services/location-monitoring.service.ts *)

Module TickFacts.
Import LocationMonitoringService.
Module Res := AutoClockOutResult.

(** The four ways [checkAndAutoClockOut] can end: thrown, skipped,
    attempted and failed, attempted and written. *)
Lemma checkAndAutoClockOut_outcome w now clock entryId dayId employee attendance
    projectName healthyDbs :
  let r := checkAndAutoClockOut w now clock entryId dayId employee attendance
             projectName healthyDbs in
  (r = None ∧ validatorThrows w employee)
  ∨ r = Some (None, None)
  ∨ (∃ err,
       r = Some (Some (Res.Build false (E.uid employee)
                         (getEmployeeFullName w employee)
                         (E.telegramChatID employee) None (Some err) None), None)
       ∧ (err = "Database not available"
          ∨ err = "Failed to update attendance record"))
  ∨ (∃ u msg manager,
       r = Some (Some (Res.Build true (E.uid employee)
                         (getEmployeeFullName w employee)
                         (E.telegramChatID employee) manager None (Some msg)), Some u)
       ∧ performAutoClockOut w clock entryId dayId attendance projectName healthyDbs
           (E.timezone employee) = ((true, None), Some u)
       ∧ ∃ area v,
           E.workingArea employee = Some area
           ∧ LocationValidation.validateEmployeeLocationAndArea
               (JSON_parse w) (zoneAccepted w) now (E.currentLocation employee) area
               (Some MAX_LOCATION_AGE_MINUTES) (E.timezone employee) = Some v
           ∧ R.error v = Some msg).
Proof.
  intros r.
  destruct (checkAndAutoClockOut_cases w now clock entryId dayId employee
              attendance projectName healthyDbs)
    as [[_ Hatt]|[(_ & _ & Hr)|(_ & Hthrows & Hr)]]; fold r in Hatt || fold r in Hr;
    [|by right; left|by left].
  right. right. revert Hatt. subst r. unfold attempted, checkAndAutoClockOut.
  destruct (E.workingArea employee) as [area0|] eqn:Harea0; simpl;
    [|by intros (? & ? & [=])].
  destruct (Js.truthyStr area0); [|by intros (? & ? & [=])].
  destruct (Js.trimIsEmpty area0); [by intros (? & ? & [=])|].
  destruct (LocationValidation.validateEmployeeLocationAndArea _ _ _ _ _ _ _)
    as [v|] eqn:Hv; [|by intros (? & ? & [=])].
  destruct (R.isValid v); [by intros (? & ? & [=])|].
  destruct (R.error v) as [msg|] eqn:Hmsg; [|by intros (? & ? & [=])].
  match goal with |- context [negb ?b] => destruct b end;
    [|by intros (? & ? & [=])].
  cbn [negb].
  destruct (recentlyClockedOut now attendance); [by intros (? & ? & [=])|].
  intros _. unfold performAutoClockOut.
  destruct (lookupDb healthyDbs projectName) as [db|]; cbv zeta.
  - destruct (formatHour w (Clock.stamp clock) _) as [hour|]; simpl.
    + destruct (Firestore.writesSucceed db); simpl.
      * right. eexists _, msg, _. split; [reflexivity|].
        split; [reflexivity|]. by exists area0, v.
      * left. eexists. split; [reflexivity|]. by right.
    + left. eexists. split; [reflexivity|]. by right.
  - left. eexists. split; [reflexivity|]. by left.
Qed.

Lemma performAutoClockOut_clears_clock_in w clock entryId dayId attendance
    projectName healthyDbs tz r u :
  performAutoClockOut w clock entryId dayId attendance projectName healthyDbs tz
    = (r, Some u) →
  UpdateData.lastClockInTimestamp u = None
  ∧ UpdateData.lastChanged u = Clock.changed clock.
Proof.
  unfold performAutoClockOut.
  destruct (lookupDb healthyDbs projectName) as [db|]; [|discriminate].
  cbv zeta. destruct (formatHour _ _ _); [|discriminate].
  destruct (Firestore.writesSucceed db); [|discriminate].
  by intros [= _ <-].
Qed.

(** The clocked-in documents of the month of [now], in the order of
    the collection: what the scanner goes through in a project. *)
Definition clockedInThisMonth (now : Z) (db : Firestore.t) : list A.t :=
  List.filter isClockedIn (List.filter (ofThisMonth now) (Firestore.attendance db)).

Lemma elem_of_clockedInThisMonth now db doc :
  doc ∈ clockedInThisMonth now db ↔
  doc ∈ Firestore.attendance db
  ∧ A.year doc = Dayjs.year now
  ∧ A.month doc = Dayjs.monthName now
  ∧ is_Some (A.lastClockInTimestamp doc).
Proof.
  unfold clockedInThisMonth, ofThisMonth, isClockedIn.
  rewrite list_elem_of_In, !List.filter_In, andb_true_iff,
    !bool_decide_eq_true, <- list_elem_of_In. tauto.
Qed.

(** The documents whose lookup is reached: those at a position before
    the first lookup that throws. *)
Lemma elem_of_reached_iff db docs doc :
  doc ∈ reached db docs ↔
  ∃ k, docs !! k = Some doc
       ∧ ∀ j, Firestore.failedLookup db = Some j → (k < j)%nat.
Proof.
  unfold reached. destruct (Firestore.failedLookup db) as [j|].
  - rewrite list_elem_of_lookup. split.
    + intros [k Hk]. apply lookup_take_Some in Hk as [Hk Hlt].
      exists k. split; [done|]. by intros ? [= <-].
    + intros (k & Hk & Hlt). exists k. apply lookup_take_Some.
      split; [done|]. by apply Hlt.
  - rewrite list_elem_of_lookup. split.
    + intros [k Hk]. exists k. split; [done|]. by intros ? [=].
    + intros (k & Hk & _). by exists k.
Qed.

Lemma clockedInOf_iff now projectName db employee attendance p :
  (employee, attendance, p) ∈ clockedInOf now projectName db ↔
  p = projectName
  ∧ Firestore.readsSucceed db = true
  ∧ (∃ k, clockedInThisMonth now db !! k = Some attendance
          ∧ ∀ j, Firestore.failedLookup db = Some j → (k < j)%nat)
  ∧ List.find (fun e => bool_decide (E.uid e = A.uid attendance))
              (Firestore.employee db) = Some employee.
Proof.
  unfold clockedInOf. fold (clockedInThisMonth now db).
  destruct (Firestore.readsSucceed db); simpl.
  - rewrite list_elem_of_omap. split.
    + intros (doc & Hdoc & Hjoin).
      apply elem_of_reached_iff in Hdoc.
      destruct (List.find _ _) as [e|] eqn:Hfind; [|done].
      injection Hjoin as <- <- <-. by repeat split.
    + intros (-> & _ & Hreached & Hfind). exists attendance. split.
      * by apply elem_of_reached_iff.
      * by rewrite Hfind.
  - split; [by intros ?%elem_of_nil | by intros (_ & ? & _)].
Qed.

(** Counting over the loop of a tick: successful results and writes go
    together. *)
Lemma checkAll_counts w now clocks uuids healthyDbs k todo :
  let r := checkAll w now clocks uuids healthyDbs k todo in
  length (List.filter Res.success (fst r)) = length (snd r)
  ∧ (length (fst r) ≤ length todo)%nat
  ∧ Forall (fun res => Res.success res = false → Res.managerChatID res = None)
           (fst r)
  ∧ Forall (fun iu => UpdateData.lastClockInTimestamp (snd iu) = None) (snd r).
Proof.
  revert k. induction todo as [|[[employee attendance] p] todo IH]; intros k.
  - simpl. repeat split; auto.
  - cbn [checkAll].
    pose proof (checkAndAutoClockOut_outcome w now (clocks k) (fst (uuids k))
                  (snd (uuids k)) employee attendance p healthyDbs) as Hout.
    cbv zeta in Hout. specialize (IH (S k)). cbv zeta in IH.
    destruct (checkAll w now clocks uuids healthyDbs (S k) todo) as [results writes].
    destruct IH as (Hcount & Hlen & Hmanager & Hwrites). simpl in *.
    destruct Hout as [[-> _]|[->|[(err & -> & _)|(u & msg & manager & -> & Hrun & _)]]];
      simpl.
    + repeat split; auto; lia.
    + repeat split; auto; lia.
    + repeat split; auto; try lia; by constructor.
    + apply performAutoClockOut_clears_clock_in in Hrun as [Hnull _].
      repeat split; try lia; by constructor.
Qed.
End TickFacts.


(** The scanner returns exactly the triples of a readable project made
    of a clocked-in document of the current year and month whose
    lookup is reached, the first employee with the document's [uid],
    and the project's name.  The lookups go through the clocked-in
    documents of the month in order; the first that throws ends the
    project's share, and the triples found before it stay.  So a
    document of another month, a document with no clock-in, a document
    without an employee and a project whose query fails contribute
    nothing; and when no lookup throws every clocked-in document of the
    month with an employee is returned. *)
Theorem findClockedInEmployees_exactly
    (now : Z) (healthyDbs : HealthyDbs) (employee : EmployeeModel.t)
    (attendance : AttendanceModel.t) (projectName : string) :
  let found := (employee, attendance, projectName)
                 ∈ LocationMonitoringService.findClockedInEmployees now healthyDbs in
  let joined db :=
    List.find (fun e => bool_decide
                 (EmployeeModel.uid e = AttendanceModel.uid attendance))
              (Firestore.employee db) = Some employee in
  (found ↔
     ∃ db k,
       (projectName, db) ∈ healthyDbs
       ∧ Firestore.readsSucceed db = true
       ∧ TickFacts.clockedInThisMonth now db !! k = Some attendance
       ∧ (∀ j, Firestore.failedLookup db = Some j → (k < j)%nat)
       ∧ joined db)
  ∧ (found →
       AttendanceModel.year attendance = Dayjs.year now
       ∧ AttendanceModel.month attendance = Dayjs.monthName now
       ∧ is_Some (AttendanceModel.lastClockInTimestamp attendance))
  ∧ (∀ db,
       (projectName, db) ∈ healthyDbs →
       Firestore.readsSucceed db = true →
       Firestore.failedLookup db = None →
       attendance ∈ Firestore.attendance db →
       AttendanceModel.year attendance = Dayjs.year now →
       AttendanceModel.month attendance = Dayjs.monthName now →
       is_Some (AttendanceModel.lastClockInTimestamp attendance) →
       joined db → found).
Proof.
  intros found joined.
  assert (Hiff : found ↔
     ∃ db k,
       (projectName, db) ∈ healthyDbs
       ∧ Firestore.readsSucceed db = true
       ∧ TickFacts.clockedInThisMonth now db !! k = Some attendance
       ∧ (∀ j, Firestore.failedLookup db = Some j → (k < j)%nat)
       ∧ joined db).
  { subst found joined. unfold LocationMonitoringService.findClockedInEmployees.
    rewrite list_elem_of_In, List.in_flat_map. split.
    - intros ([name db] & Hdb & Hin). apply list_elem_of_In in Hin. simpl in Hin.
      apply TickFacts.clockedInOf_iff in Hin as (-> & ? & (k & ? & ?) & ?).
      exists db, k. repeat split; try done. by apply list_elem_of_In.
    - intros (db & k & Hdb & ? & ? & ? & ?). exists (projectName, db). split.
      + by apply list_elem_of_In.
      + apply list_elem_of_In. simpl. apply TickFacts.clockedInOf_iff. eauto 10. }
  split; [exact Hiff|]. split.
  - intros (db & k & _ & _ & Hk & _)%Hiff.
    apply list_elem_of_lookup_2, TickFacts.elem_of_clockedInThisMonth in Hk.
    tauto.
  - intros db Hdb Hreads Hnofail Hin Hyear Hmonth Hclocked Hjoin. apply Hiff.
    assert (Hmem : attendance ∈ TickFacts.clockedInThisMonth now db)
      by (by apply TickFacts.elem_of_clockedInThisMonth).
    apply list_elem_of_lookup in Hmem as [k Hk].
    exists db, k. repeat split; try done. intros j Hj. congruence.
Qed.

(** Once an auto-clock-out has been written, the document as stored is
    no longer clocked in: whatever the databases hold and whenever they
    are scanned, the scanner does not return it, so a later tick leaves
    it alone until someone clocks in again. *)
Theorem auto_clocked_out_document_not_rescanned
    (w : World) (clock : Clock.t) (entryId dayId : string)
    (attendance : AttendanceModel.t) (projectName : string)
    (healthyDbs healthyDbs' : HealthyDbs) (tz : option string)
    (r : bool * option string) (u : UpdateData.t) :
  LocationMonitoringService.performAutoClockOut w clock entryId dayId attendance
    projectName healthyDbs tz = (r, Some u) →
  AttendanceModel.lastClockInTimestamp (applyUpdate attendance u) = None
  ∧ ∀ now' employee p,
      (employee, applyUpdate attendance u, p)
        ∉ LocationMonitoringService.findClockedInEmployees now' healthyDbs'.
Proof.
  intros [Hnull _]%TickFacts.performAutoClockOut_clears_clock_in.
  split; [exact Hnull|].
  intros now' employee p Hin%ScannerFacts.findClockedInEmployees_clocked_in.
  simpl in Hin. rewrite Hnull in Hin. by destruct Hin.
Qed.

Lemma auto_clocked_out_document_not_rescanned_witness :
  AttendanceModel.lastClockInTimestamp
    (applyUpdate Demo.backAtWork (DemoShape.updateOf Demo.backAtWork)) = None.
Proof.
  refine (proj1 (auto_clocked_out_document_not_rescanned Demo.world
                   (Clock.still Demo.t1201)
                   "id-1" "id-2" Demo.backAtWork "acme" Demo.dbs DemoTick.store None
                   (true, None) (DemoShape.updateOf Demo.backAtWork) _)).
  reflexivity.
Defined.

(** In one monitor tick there are as many updates written as there are
    successful results, at most one result per scanned employee, and
    every update written clears [lastClockInTimestamp]. *)
Theorem runLocationCheck_results_and_writes
    (w : World) (now : Z) (clocks : nat → Clock.t) (uuids : nat → string * string)
    (healthyDbs : HealthyDbs) :
  let r := LocationMonitoringService.runLocationCheck w now clocks uuids healthyDbs in
  length (List.filter AutoClockOutResult.success (fst r)) = length (snd r)
  ∧ (length (fst r)
       ≤ length (LocationMonitoringService.findClockedInEmployees now healthyDbs))%nat
  ∧ Forall (fun iu => UpdateData.lastClockInTimestamp (snd iu) = None) (snd r).
Proof.
  unfold LocationMonitoringService.runLocationCheck.
  destruct (TickFacts.checkAll_counts w now clocks uuids healthyDbs 0
              (LocationMonitoringService.findClockedInEmployees now healthyDbs))
    as (? & ? & _ & ?).
  done.
Qed.

Module NotifierFacts.
Import Notifier.

Lemma sendUntilFailure_length transport messages :
  (length (sendUntilFailure transport messages) ≤ length messages)%nat.
Proof.
  induction messages as [|m rest IH]; [done|]. simpl.
  destruct (transport m); simpl; lia.
Qed.

Lemma sendUntilFailure_sublist transport messages m :
  m ∈ sendUntilFailure transport messages → m ∈ messages.
Proof.
  induction messages as [|m' rest IH]; [done|]. simpl.
  destruct (transport m'); intros [->|Hin]%elem_of_cons;
    try apply list_elem_of_here.
  - apply list_elem_of_further. by apply IH.
  - by apply elem_of_nil in Hin.
Qed.

Lemma sendMessage_text_not_blank chatId text keyboard :
  Js.trimIsEmpty (OutMessage.text (sendMessage chatId text keyboard)) = false.
Proof.
  unfold sendMessage. simpl.
  destruct (Js.truthyStr text); simpl; [|done].
  by destruct (Js.trimIsEmpty text) eqn:E.
Qed.

Lemma notices_of_failure result :
  Res.success result = false → Res.managerChatID result = None →
  employeeNotice result ++ managerNotice result = [].
Proof.
  intros Hfail Hmanager. unfold employeeNotice, managerNotice.
  by rewrite Hfail, Hmanager.
Qed.

Lemma notices_length result :
  (length (employeeNotice result ++ managerNotice result) ≤ 2)%nat.
Proof.
  unfold employeeNotice, managerNotice.
  destruct (Res.success result), (Js.strOrUndefined (Res.employeeChatID result)),
    (Js.strOrUndefined (Res.managerChatID result)); simpl; lia.
Qed.

Lemma notifyAll_length transport results :
  Forall (fun res => Res.success res = false → Res.managerChatID res = None) results →
  (length (notifyAll transport results)
     ≤ 2 * length (List.filter Res.success results))%nat.
Proof.
  unfold notifyAll. induction 1 as [|res results Hres _ IH]; [done|].
  cbn [flat_map List.filter]. rewrite length_app. unfold sendNotifications at 1.
  cbn [LocationMonitoringService.NOTIFICATION_ENABLED negb].
  pose proof (sendUntilFailure_length transport
                (employeeNotice res ++ managerNotice res)) as Hsent.
  destruct (Res.success res) eqn:Hs.
  - pose proof (notices_length res) as Hnotices.
    pose proof (Nat.le_trans _ _ _ Hsent Hnotices) as Hbound.
    cbn [length]. clear Hsent Hnotices. revert Hbound IH.
    generalize (length (sendUntilFailure transport
                          (employeeNotice res ++ managerNotice res))).
    generalize (length (flat_map (sendNotifications transport) results)).
    generalize (length (List.filter Res.success results)). lia.
  - rewrite (notices_of_failure res Hs (Hres eq_refl)). exact IH.
Qed.
End NotifierFacts.

(** No message ever goes out with an empty or blank text: [sendMessage]
    substitutes a full stop. *)
Theorem sendMessage_never_blank
    (chatId : option Z) (text : string) (keyboard : option Keyboard) :
  let m := sendMessage chatId text keyboard in
  Js.trimIsEmpty (OutMessage.text m) = false
  ∧ (Js.trimIsEmpty text = false → OutMessage.text m = text)
  ∧ OutMessage.chat_id m = chatId ∧ OutMessage.reply_markup m = keyboard.
Proof.
  split; [apply NotifierFacts.sendMessage_text_not_blank|].
  split; [|done]. unfold sendMessage. simpl. intros Hfull. rewrite Hfull.
  by destruct text.
Qed.

(** What a result leads to: a failed auto-clock-out as
    [checkAndAutoClockOut] reports it notifies nobody; a successful one
    notifies the employee first, when a chat id is on file, in a text
    that quotes the reason, and never sends more than two messages. *)
Theorem sendNotifications_recipients
    (transport : OutMessage.t → bool) (result : AutoClockOutResult.t) :
  (AutoClockOutResult.success result = false →
   AutoClockOutResult.managerChatID result = None →
   Notifier.sendNotifications transport result = [])
  ∧ (length (Notifier.sendNotifications transport result) ≤ 2)%nat
  ∧ (∀ chat reason,
       AutoClockOutResult.success result = true →
       AutoClockOutResult.employeeChatID result = Some chat → chat ≠ "" →
       AutoClockOutResult.reason result = Some reason →
       head (Notifier.sendNotifications transport result)
       = Some (OutMessage.Build (JsText.parseInt chat)
                 ("⚠️ You have been automatically clocked out because "
                    +:+ reason +:+ ".") "HTML" None))
  ∧ (AutoClockOutResult.success result = false →
     ∀ m, m ∈ Notifier.sendNotifications transport result →
          OutMessage.chat_id m
          = JsText.parseInt (default "" (AutoClockOutResult.managerChatID result))).
Proof.
  unfold Notifier.sendNotifications.
  cbn [LocationMonitoringService.NOTIFICATION_ENABLED negb].
  split; [|split; [|split]].
  - intros Hfail Hmanager. by rewrite NotifierFacts.notices_of_failure.
  - pose proof (NotifierFacts.sendUntilFailure_length transport
                  (Notifier.employeeNotice result ++ Notifier.managerNotice result)).
    pose proof (NotifierFacts.notices_length result). lia.
  - intros chat reason Hok Hchat Hne Hreason.
    unfold Notifier.employeeNotice. rewrite Hok, Hchat, Hreason.
    destruct chat as [|c chat]; [done|]. cbn [Js.strOrUndefined Js.truthyStr app].
    unfold sendMessage.
    replace (Js.truthyStr _ && negb (Js.trimIsEmpty _)) with true.
    + cbn [Notifier.sendUntilFailure]. by destruct (transport _).
    + symmetry. cbv [String.app String.append]. done.
  - intros Hfail m Hin%NotifierFacts.sendUntilFailure_sublist.
    unfold Notifier.employeeNotice, Notifier.managerNotice in Hin.
    rewrite Hfail in Hin. simpl in Hin.
    destruct (AutoClockOutResult.managerChatID result) as [chat|]; simpl in Hin;
      [|by apply elem_of_nil in Hin].
    destruct (Js.truthyStr chat); [|by apply elem_of_nil in Hin].
    by apply list_elem_of_singleton in Hin as ->.
Qed.

Lemma sendNotifications_recipients_witness :
  Notifier.sendNotifications (fun _ => true)
    (AutoClockOutResult.Build false "uid-1" "Abebe Bikila" (Some "1001") None
       (Some "Database not available") None) = [].
Proof.
  refine (proj1 (sendNotifications_recipients (fun _ => true) _) _ _);
    reflexivity.
Defined.

(** Over a whole tick the notifier sends at most two messages for each
    update written, whatever the transport does, and so sends nothing
    when nothing was written. *)
Theorem tick_notifications_bounded
    (w : World) (now : Z) (clocks : nat → Clock.t) (uuids : nat → string * string)
    (healthyDbs : HealthyDbs) (transport : OutMessage.t → bool) :
  let r := LocationMonitoringService.runLocationCheck w now clocks uuids
             healthyDbs in
  (length (Notifier.notifyAll transport (fst r)) ≤ 2 * length (snd r))%nat.
Proof.
  unfold LocationMonitoringService.runLocationCheck. cbv zeta.
  destruct (TickFacts.checkAll_counts w now clocks uuids healthyDbs 0
              (LocationMonitoringService.findClockedInEmployees now healthyDbs))
    as (Hcount & _ & Hmanager & _).
  rewrite <- Hcount. by apply NotifierFacts.notifyAll_length.
Qed.

(** *** Starting and stopping the monitor *)

(** [startMonitoring] is idempotent: a second call changes nothing and
    schedules nothing.  After [stopMonitoring] the service is not
    running and holds no interval; stopping right after a start from a
    stopped service removes the interval that start created (and only
    it) but leaves the 30-second first check scheduled. *)
Theorem monitoring_lifecycle (service : Lifecycle.Service) (timers : Lifecycle.Timers) :
  Lifecycle.startMonitoring (Lifecycle.startMonitoring (service, timers))
  = Lifecycle.startMonitoring (service, timers)
  ∧ Lifecycle.isMonitoring (Lifecycle.startMonitoring (service, timers)) = true
  ∧ Lifecycle.isMonitoring (Lifecycle.stopMonitoring (service, timers)) = false
  ∧ Lifecycle.intervalId (fst (Lifecycle.stopMonitoring (service, timers))) = None
  ∧ (Lifecycle.isRunning service = false →
     Forall (fun t => (fst t < Lifecycle.nextHandle timers)%nat)
            (Lifecycle.intervals timers) →
     let stopped := Lifecycle.stopMonitoring
                      (Lifecycle.startMonitoring (service, timers)) in
     Lifecycle.intervals (snd stopped) = Lifecycle.intervals timers
     ∧ Lifecycle.timeouts (snd stopped) = Lifecycle.timeouts timers ++ [30000]).
Proof.
  unfold Lifecycle.startMonitoring, Lifecycle.stopMonitoring, Lifecycle.isMonitoring.
  cbn [LocationMonitoringService.FEATURE_ENABLED negb].
  destruct (Lifecycle.isRunning service) eqn:Hrun; simpl; rewrite ?Hrun.
  - repeat split; try done.
  - split; [done|]. split; [done|]. split; [done|]. split; [done|].
    intros _ Hfresh. simpl. split; [|done].
    rewrite List.filter_app. simpl.
    rewrite Nat.eqb_refl. simpl. rewrite app_nil_r.
    induction Hfresh as [|[h p] rest Hh _ IH]; [done|]. simpl in *.
    destruct (Nat.eqb_spec h (Lifecycle.nextHandle timers)); [lia|].
    simpl. by rewrite IH.
Qed.

Lemma monitoring_lifecycle_witness :
  let fresh : Lifecycle.Service * Lifecycle.Timers :=
    ({| Lifecycle.intervalId := None; Lifecycle.isRunning := false |},
     {| Lifecycle.timeouts := []; Lifecycle.intervals := [(0%nat, 60000)];
        Lifecycle.nextHandle := 1 |}) in
  Lifecycle.intervals
    (snd (Lifecycle.stopMonitoring (Lifecycle.startMonitoring fresh)))
  = [(0%nat, 60000)].
Proof.
  refine (proj1 (proj2 (proj2 (proj2 (proj2 (monitoring_lifecycle
            {| Lifecycle.intervalId := None; Lifecycle.isRunning := false |}
            {| Lifecycle.timeouts := []; Lifecycle.intervals := [(0%nat, 60000)];
               Lifecycle.nextHandle := 1 |})))) eq_refl _)).
  repeat constructor.
Defined.

(** *** Normalizing and updating [values] *)

(** Round trip through the store's map form: an array of at most 31
    days that comes back as a map keyed by index is normalized to the
    same days at the same indices, holes staying holes; and reading a
    day by its key from the map gives what the array held there. *)
Theorem normalizeAttendanceValues_round_trip
    (a : list (option DailyAttendance.t)) (j : nat) :
  (length a ≤ 31)%nat →
  Js.arrayGet
    (LocationMonitoringService.normalizeAttendanceValues
       (RawObject (SparseFacts.sparse a))) j
  = Js.arrayGet a j
  ∧ LocationMonitoringService.valuesGet (ValuesObject (SparseFacts.sparse a)) j
  = LocationMonitoringService.valuesGet (ValuesArray a) j.
Proof.
  intros Hlen. split; [|apply SparseFacts.find_sparse].
  cbn [LocationMonitoringService.normalizeAttendanceValues].
  destruct (Js.arrayGet a j) as [d|] eqn:Hget.
  - assert (Hj : a !! j = Some (Some d)).
    { unfold Js.arrayGet in Hget. by destruct (a !! j) as [[?|]|]; simplify_eq/=. }
    apply lookup_lt_Some in Hj as Hlt.
    apply (normalize_get_unique _ [] j (pretty (Z.of_nat j), d)).
    + apply SparseFacts.elem_of_sparseFrom. by exists j.
    + exists (Z.of_nat j). cbn [fst]. rewrite SparseFacts.parseInt_pretty_day by lia.
      repeat split; lia.
    + intros [k d'] Hin Hkept. simpl.
      pose proof (SparseFacts.keptAt_sparse a j k d' Hlen Hin Hkept). congruence.
  - rewrite SparseFacts.normalize_get_absent; [apply arrayGet_nil|].
    intros [k d'] Hin Hkept.
    pose proof (SparseFacts.keptAt_sparse a j k d' Hlen Hin Hkept) as Hj.
    unfold Js.arrayGet in Hget. by rewrite Hj in Hget.
Qed.

Lemma normalizeAttendanceValues_round_trip_witness :
  Js.arrayGet
    (LocationMonitoringService.normalizeAttendanceValues
       (RawObject (SparseFacts.sparse [None; Some DemoShape.second]))) 1
  = Some DemoShape.second.
Proof.
  refine (proj1 (normalizeAttendanceValues_round_trip
                   [None; Some DemoShape.second] 1 _)).
  simpl. lia.
Defined.

(** What an auto-clock-out does to the clock-in's day.  The hour of
    the punch could be formatted, and: if the day is on record its
    punches are kept in order with one "Clock Out" added at the end,
    stamped with the first reading of the clock, its hours grow by the
    hours worked up to the second reading, and its id, day number,
    [from] and [to] stay; if it is not, a day is created for
    [dayOfMonth(t)] with the "Clock Out" as its only punch and the
    hours worked as its total. *)
Theorem auto_clock_out_day_accounting
    (w : World) (clock : Clock.t) (entryId dayId : string)
    (attendance : AttendanceModel.t) (projectName : string)
    (healthyDbs : HealthyDbs) (tz : option string) (t : Z)
    (r : bool * option string) (u : UpdateData.t) :
  AttendanceModel.lastClockInTimestamp attendance = Some t →
  LocationMonitoringService.performAutoClockOut w clock entryId dayId attendance
    projectName healthyDbs tz = (r, Some u) →
  ∃ hour,
    formatHour w (Clock.stamp clock) (Js.strOrUndefined tz) = Some hour ∧
  let punch := WorkedHoursModel.Build entryId (Clock.stamp clock) ClockOut hour in
  let hours := Dayjs.diffHours (Clock.elapsed clock) (Some t) in
  let before := Js.arrayGet (baseValuesOf (AttendanceModel.values attendance))
                  (dayIndexOf t) in
  ∃ day,
    Js.arrayGet (UpdateData.values u) (dayIndexOf t) = Some day
    ∧ match before with
      | Some d =>
          DailyAttendance.workedHours day = DailyAttendance.workedHours d ++ [punch]
          ∧ DailyAttendance.dailyWorkedHours day
            = PrimFloat.add (Js.orZero (Some (DailyAttendance.dailyWorkedHours d))) hours
          ∧ DailyAttendance.id day = DailyAttendance.id d
          ∧ DailyAttendance.day day = DailyAttendance.day d
          ∧ DailyAttendance.from day = DailyAttendance.from d
          ∧ DailyAttendance.to day = DailyAttendance.to d
      | None =>
          DailyAttendance.workedHours day = [punch]
          ∧ DailyAttendance.dailyWorkedHours day = PrimFloat.add 0%float hours
          ∧ DailyAttendance.id day = dayId
          ∧ DailyAttendance.day day = Dayjs.date t
          ∧ DailyAttendance.from day = None
          ∧ DailyAttendance.to day = None
      end.
Proof.
  intros Ht. unfold LocationMonitoringService.performAutoClockOut. rewrite Ht.
  destruct (lookupDb healthyDbs projectName) as [db|]; [|discriminate].
  cbv zeta.
  destruct (formatHour w (Clock.stamp clock) (Js.strOrUndefined tz)) as [hour|];
    [|discriminate].
  destruct (Firestore.writesSucceed db); [|discriminate].
  intros [= _ <-]. exists hour. split; [reflexivity|].
  cbn [LocationMonitoringService.dayIndex fmap option_fmap option_map
       UpdateData.values].
  unfold baseValuesOf, dayIndexOf.
  cbn [LocationMonitoringService.normalizeAttendanceValues].
  eexists. split; [apply arrayGet_arraySet_eq|].
  destruct (Js.arrayGet _ _) as [d|]; simpl; repeat split; try done.
  pose proof (date_range t). lia.
Qed.

Lemma auto_clock_out_day_accounting_witness :
  ∃ day,
    Js.arrayGet (UpdateData.values (DemoShape.updateOf Demo.backAtWork))
      (dayIndexOf Demo.t120030) = Some day
    ∧ DailyAttendance.workedHours day
      = [Demo.punch "a" Demo.t0800 ClockIn; Demo.punch "b" Demo.t1200 ClockOut;
         Demo.punch "c" Demo.t120030 ClockIn;
         WorkedHoursModel.Build "id-1" Demo.t1201 ClockOut "3:01 PM"].
Proof.
  destruct (auto_clock_out_day_accounting Demo.world (Clock.still Demo.t1201)
              "id-1" "id-2"
              Demo.backAtWork "acme" Demo.dbs None Demo.t120030 (true, None)
              (DemoShape.updateOf Demo.backAtWork) eq_refl eq_refl)
    as (hour & Hhour & day & Hday & Hrest).
  injection Hhour as <-.
  exists day. split; [exact Hday|]. exact (proj1 Hrest).
Defined.

(** *** The manual punch, [clockInOrOut] *)

Module PunchFacts.
Import LocationMonitoringService ClockInOrOut.

(** [values[i] = d; values[i]] on either shape of the field. *)
Lemma find_setEntry key d entries :
  List.find (fun kv => bool_decide (fst kv = key)) (setEntry key d entries)
  = Some (key, d).
Proof.
  induction entries as [|kv rest IH]; simpl.
  - by rewrite bool_decide_eq_true_2.
  - destruct (bool_decide (fst kv = key)) eqn:Hkey; simpl.
    + by rewrite bool_decide_eq_true_2.
    + by rewrite Hkey.
Qed.

Lemma valuesGet_valuesSet_eq values i d :
  valuesGet (valuesSet values i d) i = Some d.
Proof.
  destruct values as [a|entries]; simpl.
  - apply arrayGet_arraySet_eq.
  - by rewrite find_setEntry.
Qed.



(** The zone [formatHour] formats in: [employeeTimezone || undefined],
    then the default zone. *)
Definition zoneOf (w : World) (tz : option string) : string :=
  default (DEFAULT_TZ w) (Js.strOrUndefined (Js.strOrUndefined tz)).

Lemma formatHour_zoneOf w d tz :
  formatHour w d (Js.strOrUndefined tz)
  = if zoneAccepted w (zoneOf w tz) then Some (formatInZone w (zoneOf w tz) d)
    else None.
Proof. reflexivity. Qed.



End PunchFacts.

(** [clockInOrOut] fails in exactly four ways.  Three are reported:
    no daily working hours for the shift, a "Clock Out" with no
    clock-in on record, or a failed update; the fourth is thrown: the
    call is not refused and the zone of the punch's hour is rejected,
    so [formatHour], called outside the [try], throws before anything
    is updated.  A call that returns and fails writes nothing and
    carries an error text; a successful one writes a document and
    carries none.  "Clock In" is never refused for a clock-in already
    on record. *)
Theorem clockInOrOut_fails_exactly
    (w : World) (now : Z) (entryId dayId : string) (type : PunchType)
    (attendance : AttendanceModel.t) (dailyWorkingHour : float)
    (logic : AttendanceLogicModel.t) (tz updateError : option string) :
  let r := ClockInOrOut.clockInOrOut w now entryId dayId type attendance
             dailyWorkingHour logic tz updateError in
  let refused :=
    PrimFloat.eqb dailyWorkingHour 0%float = true
    ∨ (type = ClockOut ∧ AttendanceModel.lastClockInTimestamp attendance = None) in
  (r = None ↔ ¬ refused ∧ zoneAccepted w (PunchFacts.zoneOf w tz) = false)
  ∧ (r = None ↔ ¬ refused ∧ formatHour w now (Js.strOrUndefined tz) = None)
  ∧ ∀ res doc, r = Some (res, doc) →
      (fst res = false ↔ refused ∨ updateError ≠ None)
      ∧ (fst res = false ↔ doc = None)
      ∧ (fst res = false ↔ snd res ≠ None).
Proof.
  unfold ClockInOrOut.clockInOrOut.
  destruct (PrimFloat.eqb dailyWorkingHour 0%float); cbv zeta.
  { split; [|split].
    - split; [done|]. intros [Hnot _]. destruct Hnot. by left.
    - split; [done|]. intros [Hnot _]. destruct Hnot. by left.
    - intros res doc [= <- <-]. simpl. repeat split; intros; try done; by left; left. }
  rewrite !PunchFacts.formatHour_zoneOf.
  destruct type, (AttendanceModel.lastClockInTimestamp attendance) as [t|],
    (zoneAccepted w (PunchFacts.zoneOf w tz)), updateError as [e|]; simpl.
  all: split; [|split];
    [ try (split; [done|]; intros [Hnot Hz]; try done; destruct Hnot; by right);
      try (split; [intros _|done]; split; [|done]; intros [?|[? ?]]; done)
    | try (split; [done|]; intros [Hnot Hz]; try done; destruct Hnot; by right);
      try (split; [intros _|done]; split; [|done]; intros [?|[? ?]]; done)
    | try done; intros res doc [= <- <-]; simpl;
      repeat split; try done; try (intros; by right);
      try (intros; by left; right);
      try (intros [[?|[? ?]]|?]; done) ].
Qed.



Module DemoPunch.
Import Demo.

(** The manual "Clock Out" of 12:01 on a document, and the document it
    saves. *)
Definition clockOutOf (attendance : AttendanceModel.t)
  : option ((bool * option string) * option AttendanceModel.t) :=
  ClockInOrOut.clockInOrOut world t1201 "id-1" "id-2" ClockOut attendance
    8%float (AttendanceLogicModel.Build 80%float 40%float) None None.

Definition manualOf (attendance : AttendanceModel.t) : AttendanceModel.t :=
  default attendance (clockOutOf attendance ≫= snd).
End DemoPunch.

(** A saved manual "Clock Out" grades the day: with daily working
    hours that are a number, the value written on the clock-in's day
    is "P", "H" or "A", never null; it is "P" exactly when the day's
    hours reach the present threshold's share of the daily working
    hours. *)
Theorem manual_clock_out_grades_the_day
    (w : World) (now : Z) (entryId dayId : string)
    (attendance doc : AttendanceModel.t) (dailyWorkingHour : float)
    (logic : AttendanceLogicModel.t) (tz updateError : option string)
    (t : Z) (r : bool * option string) :
  AttendanceModel.lastClockInTimestamp attendance = Some t →
  PrimFloat.is_nan dailyWorkingHour = false →
  ClockInOrOut.clockInOrOut w now entryId dayId ClockOut attendance
    dailyWorkingHour logic tz updateError = Some (r, Some doc) →
  ∃ day,
    LocationMonitoringService.valuesGet (AttendanceModel.values doc) (dayIndexOf t)
      = Some day
    ∧ DailyAttendance.value day ∈ [Some "P"; Some "H"; Some "A"]
    ∧ (DailyAttendance.value day = Some "P" ↔
         PrimFloat.leb
           (PrimFloat.mul dailyWorkingHour
              (ClockInOrOut.fraction (AttendanceLogicModel.presentThreshold logic)))
           (DailyAttendance.dailyWorkedHours day) = true).
Proof.
  intros Ht Hnan. unfold ClockInOrOut.clockInOrOut.
  destruct (PrimFloat.eqb dailyWorkingHour 0%float) eqn:Hzero; [discriminate|].
  rewrite Ht. cbv zeta.
  destruct (formatHour w now (Js.strOrUndefined tz)) as [hour|]; [|discriminate].
  destruct updateError; [discriminate|]. intros [= _ <-].
  cbn [AttendanceModel.values]. fold (dayIndexOf t).
  eexists. split; [apply PunchFacts.valuesGet_valuesSet_eq|].
  cbn [DailyAttendance.value DailyAttendance.dailyWorkedHours].
  unfold Js.truthyNum. rewrite Hzero, Hnan. cbn [orb negb].
  destruct (PrimFloat.leb _ _); [|destruct (PrimFloat.leb _ _)];
    (split; [set_solver | split; congruence]).
Qed.

Lemma manual_clock_out_grades_the_day_witness :
  ∃ day,
    LocationMonitoringService.valuesGet
      (AttendanceModel.values (DemoPunch.manualOf Demo.backAtWork))
      (dayIndexOf Demo.t120030) = Some day
    ∧ DailyAttendance.value day ∈ [Some "P"; Some "H"; Some "A"].
Proof.
  destruct (manual_clock_out_grades_the_day Demo.world Demo.t1201 "id-1" "id-2"
              Demo.backAtWork (DemoPunch.manualOf Demo.backAtWork)
              8%float (AttendanceLogicModel.Build 80%float 40%float) None None
              Demo.t120030 (true, None) eq_refl eq_refl eq_refl)
    as (day & Hday & Hvalue & _).
  exists day. split; [exact Hday | exact Hvalue].
Defined.

(** The automatic clock-out against the manual one.  On a clocked-in
    document whose [values] is an array, an automatic clock-out whose
    clock stands still at an instant and a manual "Clock Out" at that
    instant, both saved, leave the same document but for three things: the automatic one always grades the
    day "A"; it counts a day's hours that are not a number as 0; and
    it also stamps [lastChanged].  Every other day, the month's hours,
    the cleared clock-in and, on the clock-in's day, the punches, the
    status, the timestamp and the identity fields agree. *)
Theorem auto_clock_out_agrees_with_manual
    (w : World) (now : Z) (entryId dayId : string)
    (attendance manual : AttendanceModel.t) (projectName : string)
    (healthyDbs : HealthyDbs) (tz : option string) (a : list (option DailyAttendance.t))
    (t : Z) (dailyWorkingHour : float) (logic : AttendanceLogicModel.t)
    (r1 r2 : bool * option string) (u : UpdateData.t) :
  AttendanceModel.lastClockInTimestamp attendance = Some t →
  AttendanceModel.values attendance = ValuesArray a →
  LocationMonitoringService.performAutoClockOut w (Clock.still now) entryId dayId
    attendance projectName healthyDbs tz = (r1, Some u) →
  ClockInOrOut.clockInOrOut w now entryId dayId ClockOut attendance
    dailyWorkingHour logic tz None = Some (r2, Some manual) →
  let auto := applyUpdate attendance u in
  let i := dayIndexOf t in
  let get doc := LocationMonitoringService.valuesGet (AttendanceModel.values doc) in
  AttendanceModel.lastClockInTimestamp auto = AttendanceModel.lastClockInTimestamp manual
  ∧ AttendanceModel.monthlyWorkedHours auto = AttendanceModel.monthlyWorkedHours manual
  ∧ (∀ j, j ≠ i → get auto j = get manual j)
  ∧ ∃ dayA dayM,
      get auto i = Some dayA ∧ get manual i = Some dayM
      ∧ DailyAttendance.value dayA = Some "A"
      ∧ DailyAttendance.workedHours dayA = DailyAttendance.workedHours dayM
      ∧ DailyAttendance.status dayA = DailyAttendance.status dayM
      ∧ DailyAttendance.timestamp dayA = DailyAttendance.timestamp dayM
      ∧ DailyAttendance.id dayA = DailyAttendance.id dayM
      ∧ DailyAttendance.day dayA = DailyAttendance.day dayM
      ∧ DailyAttendance.from dayA = DailyAttendance.from dayM
      ∧ DailyAttendance.to dayA = DailyAttendance.to dayM
      ∧ ((∀ d, Js.arrayGet a i = Some d →
            Js.orZero (Some (DailyAttendance.dailyWorkedHours d))
            = DailyAttendance.dailyWorkedHours d) →
         DailyAttendance.dailyWorkedHours dayA = DailyAttendance.dailyWorkedHours dayM).
Proof.
  intros Ht Ha. unfold LocationMonitoringService.performAutoClockOut.
  destruct (lookupDb healthyDbs projectName) as [db|]; [|discriminate].
  cbv zeta. cbn [Clock.still Clock.stamp Clock.elapsed Clock.changed].
  destruct (formatHour w now (Js.strOrUndefined tz)) as [hour|] eqn:Hhour;
    [|discriminate].
  destruct (Firestore.writesSucceed db); [|discriminate].
  intros [= _ <-].
  unfold ClockInOrOut.clockInOrOut.
  destruct (PrimFloat.eqb dailyWorkingHour 0%float); [discriminate|].
  rewrite Ht, Ha. cbv zeta. rewrite Hhour. intros [= _ <-].
  cbn [LocationMonitoringService.dayIndex fmap option_fmap option_map
       applyUpdate UpdateData.values UpdateData.monthlyWorkedHours
       UpdateData.lastClockInTimestamp AttendanceModel.values
       AttendanceModel.lastClockInTimestamp AttendanceModel.monthlyWorkedHours
       ClockInOrOut.valuesSet LocationMonitoringService.valuesGet].
  fold (dayIndexOf t).
  split; [done|]. split; [done|].
  split; [intros j Hj; by rewrite !arrayGet_arraySet_ne|].
  eexists _, _. rewrite !arrayGet_arraySet_eq.
  split; [reflexivity|]. split; [reflexivity|].
  cbn [DailyAttendance.value DailyAttendance.workedHours DailyAttendance.status
       DailyAttendance.timestamp DailyAttendance.id DailyAttendance.day
       DailyAttendance.from DailyAttendance.to DailyAttendance.dailyWorkedHours].
  destruct (Js.arrayGet a (dayIndexOf t)) as [d|]; simpl;
    repeat (split; [done|]).
  - intros Hnum. specialize (Hnum d eq_refl). simpl in Hnum. by rewrite Hnum.
  - done.
Qed.

Lemma auto_clock_out_agrees_with_manual_witness :
  AttendanceModel.monthlyWorkedHours
    (applyUpdate Demo.backAtWork (DemoShape.updateOf Demo.backAtWork))
  = AttendanceModel.monthlyWorkedHours (DemoPunch.manualOf Demo.backAtWork).
Proof.
  refine (proj1 (proj2 (auto_clock_out_agrees_with_manual Demo.world Demo.t1201
    "id-1" "id-2" Demo.backAtWork _ "acme" Demo.dbs None _ Demo.t120030 8%float
    (AttendanceLogicModel.Build 80%float 40%float) (true, None) (true, None)
    (DemoShape.updateOf Demo.backAtWork) eq_refl eq_refl eq_refl eq_refl))).
Defined.

(** *** The sweeper and the ingestion path, on the whole store *)

Module SweepFacts.
Import Bot RegistryFacts.









End SweepFacts.


Module KeyFacts.
Import Bot.

Definition notColon (c : ascii) : bool := negb (Ascii.eqb c ":").

(** Every character of [s] is in [class]. *)
Fixpoint allChars (class : ascii → bool) (s : string) : bool :=
  match s with
  | EmptyString => true
  | String c rest => class c && allChars class rest
  end.

Lemma append_cons c a b : String c a +:+ b = String c (a +:+ b).
Proof. reflexivity. Qed.

Lemma append_nil_l b : "" +:+ b = b.
Proof. reflexivity. Qed.

Lemma allChars_append class a b :
  allChars class a = true → allChars class b = true →
  allChars class (a +:+ b) = true.
Proof.
  intros Ha Hb. induction a as [|c a IH]; [done|].
  rewrite append_cons. simpl in *.
  apply andb_true_iff in Ha as [-> Ha]. by apply IH.
Qed.

Lemma pretty_N_go_notColon x s :
  allChars notColon s = true →
  allChars notColon (pretty_N_go x s) = true.
Proof.
  revert s. induction (N.lt_wf_0 x) as [x _ IH]; intros s Hs.
  assert (x = 0 ∨ 0 < x)%N as [->|?] by lia.
  - by rewrite pretty_N_go_0.
  - rewrite pretty_N_go_step by done. apply IH.
    { by apply N.div_lt. }
    simpl. rewrite Hs, andb_true_r.
    unfold pretty_N_char. by repeat case_match.
Qed.

Lemma pretty_N_notColon (x : N) : allChars notColon (pretty x) = true.
Proof.
  unfold pretty, pretty_N. case_decide; [done|].
  by apply pretty_N_go_notColon.
Qed.

Lemma pretty_Z_notColon (x : Z) : allChars notColon (pretty x) = true.
Proof.
  destruct x as [|p|p]; [done| |].
  - apply (pretty_N_notColon (Npos p)).
  - change (pretty (Z.neg p)) with ("-" +:+ pretty (Npos p)).
    apply allChars_append; [done|apply pretty_N_notColon].
Qed.

Lemma split_at_colon a a' b b' :
  allChars notColon a = true → allChars notColon a' = true →
  a +:+ ":" +:+ b = a' +:+ ":" +:+ b' → a = a' ∧ b = b'.
Proof.
  revert a'. induction a as [|c a IH]; intros [|c' a'] Ha Ha';
    repeat (rewrite append_cons || rewrite append_nil_l); simpl in Ha, Ha'.
  - by intros [= ->].
  - intros [= <- _]. done.
  - intros [= -> _]. done.
  - apply andb_true_iff in Ha as [_ Ha]. apply andb_true_iff in Ha' as [_ Ha'].
    intros [= -> Heq]. by destruct (IH a' Ha Ha' Heq) as [-> ->].
Qed.

Lemma makeLiveKey_inj c m c' m' :
  makeLiveKey c m = makeLiveKey c' m' → c = c' ∧ m = m'.
Proof.
  unfold makeLiveKey. intros Heq.
  apply split_at_colon in Heq as [Hc Hm]; [|apply pretty_Z_notColon..].
  split; by apply (inj pretty).
Qed.

(** The registry part of a save: the flag it returns says whether the
    key is tracked afterwards; a tracked entry was touched at [now] and
    carries the end that is returned; other keys are not touched. *)
Lemma upsertLive_spec now sessions p id c m period isEdit sessions' isLive liveUntilMs :
  upsertLive now sessions p id c m period isEdit = (sessions', isLive, liveUntilMs) →
  (∀ key, key ≠ makeLiveKey c m → sessions' !! key = sessions !! key)
  ∧ (if isLive
     then ∃ e, sessions' !! makeLiveKey c m = Some e
            ∧ LiveEntry.liveUntilMs e = liveUntilMs
            ∧ LiveEntry.lastUpdateMs e = now
     else sessions' = sessions ∧ sessions !! makeLiveKey c m = None
          ∧ liveUntilMs = None).
Proof.
  unfold upsertLive. cbv zeta.
  assert (Htracked : ∀ s' l u,
    match sessions !! makeLiveKey c m with
    | Some existing =>
        (<[makeLiveKey c m := LiveEntry.Build (LiveEntry.chatId existing)
             (LiveEntry.messageId existing) (LiveEntry.employeeId existing)
             (LiveEntry.projectName existing) (LiveEntry.liveUntilMs existing) now]>
           sessions, true, LiveEntry.liveUntilMs existing)
    | None =>
        if isEdit
        then (<[makeLiveKey c m := LiveEntry.Build c m id p None now]> sessions,
              true, None)
        else (sessions, false, None)
    end = (s', l, u) →
    (∀ key, key ≠ makeLiveKey c m → s' !! key = sessions !! key)
    ∧ (if l
       then ∃ e, s' !! makeLiveKey c m = Some e
              ∧ LiveEntry.liveUntilMs e = u ∧ LiveEntry.lastUpdateMs e = now
       else s' = sessions ∧ sessions !! makeLiveKey c m = None ∧ u = None)).
  { intros s' l u.
    destruct (sessions !! makeLiveKey c m) as [existing|] eqn:Hold;
      [|destruct isEdit]; intros [= <- <- <-].
    - split; [intros key Hkey; by rewrite lookup_insert_ne|].
      eexists. by rewrite lookup_insert_eq.
    - split; [intros key Hkey; by rewrite lookup_insert_ne|].
      eexists. by rewrite lookup_insert_eq.
    - done. }
  destruct period as [seconds|]; [destruct (0 <? seconds)|]; try apply Htracked.
  intros [= <- <- <-].
  split; [intros key Hkey; by rewrite lookup_insert_ne|].
  eexists. by rewrite lookup_insert_eq.
Qed.
End KeyFacts.

(** The registry key tells shares apart: two (chat, message) pairs
    have the same key only if they are the same pair. *)
Theorem makeLiveKey_injective (chatId messageId chatId' messageId' : Z) :
  Bot.makeLiveKey chatId messageId = Bot.makeLiveKey chatId' messageId'
  ↔ chatId = chatId' ∧ messageId = messageId'.
Proof.
  split; [apply KeyFacts.makeLiveKey_inj | by intros [-> ->]].
Qed.

(** What a save leaves alone.  [saveEmployeeLocation] for one share
    and one employee never changes the registry entry of another
    share, nor another employee's document; it never removes a log and
    adds at most one, and none when it throws.  When it throws, the
    documents are as before if it was the update that threw; if the
    update went through and the add of the log threw, the employee's
    document stays updated, with the location just received.  With no
    handle for the project nothing at all changes, the registry
    included. *)
Theorem saveEmployeeLocation_frame
    (now : Z) (dbs : string → Bot.DbHealth) (logAdded : bool) (st st' : Bot.State)
    (projectName employeeId : string) (chatId messageId : Z)
    (location : TgLocation.t) (livePeriodSeconds : option Z) (isEdit ok : bool) :
  Bot.saveEmployeeLocation now dbs logAdded st projectName employeeId chatId
    messageId location livePeriodSeconds isEdit = (st', ok) →
  let updated :=
    dbs projectName = Bot.Healthy
    ∧ is_Some (Bot.employees st !! (projectName, employeeId)) in
  (∀ chatId' messageId', (chatId', messageId') ≠ (chatId, messageId) →
     Bot.liveSessions st' !! Bot.makeLiveKey chatId' messageId'
     = Bot.liveSessions st !! Bot.makeLiveKey chatId' messageId')
  ∧ (∀ k, k ≠ (projectName, employeeId) →
       Bot.employees st' !! k = Bot.employees st !! k)
  ∧ (∃ added, Bot.locationLogs st' = Bot.locationLogs st ++ added
              ∧ length added = if ok then 1%nat else 0%nat)
  ∧ (ok = true ↔ updated ∧ logAdded = true)
  ∧ (¬ updated → Bot.employees st' = Bot.employees st)
  ∧ (updated →
       ∃ l, Bot.employees st' !! (projectName, employeeId)
              = Some (EmployeeDoc.Build (LocFull l) now)
            ∧ EmployeeCurrentLocation.latitude l = TgLocation.latitude location
            ∧ EmployeeCurrentLocation.longitude l = TgLocation.longitude location
            ∧ EmployeeCurrentLocation.updatedAt l = now)
  ∧ (dbs projectName = Bot.NoHandle → st' = st ∧ ok = false).
Proof.
  unfold Bot.saveEmployeeLocation.
  destruct (Bot.upsertLive now (Bot.liveSessions st) projectName employeeId
              chatId messageId livePeriodSeconds isEdit)
    as [[sessions isLive] liveUntilMs] eqn:Hupsert.
  apply KeyFacts.upsertLive_spec in Hupsert as [Hother _].
  assert (Hkeys : ∀ chatId' messageId',
    (chatId', messageId') ≠ (chatId, messageId) →
    sessions !! Bot.makeLiveKey chatId' messageId'
    = Bot.liveSessions st !! Bot.makeLiveKey chatId' messageId').
  { intros c' m' Hne. apply Hother.
    intros [-> ->]%KeyFacts.makeLiveKey_inj. done. }
  destruct (dbs projectName) eqn:Hdb.
  - intros [= <- <-]. cbv zeta.
    split; [done|]. split; [done|].
    split; [exists []; by rewrite app_nil_r|].
    split; [split; [done|by intros [[? _] _]]|].
    split; [done|]. split; [by intros [? _]|]. done.
  - cbn [Bot.updateEmployee]. intros [= <- <-]. cbv zeta.
    split; [done|]. split; [done|].
    split; [exists []; by rewrite app_nil_r|].
    split; [split; [done|by intros [[? _] _]]|].
    split; [done|]. split; [by intros [? _]|]. done.
  - unfold Bot.updateEmployee. cbn [Bot.withSessions Bot.employees].
    destruct (Bot.employees st !! (projectName, employeeId)) as [doc|].
    + destruct logAdded; intros [= <- <-]; cbv zeta;
        cbn [Bot.liveSessions Bot.employees Bot.locationLogs
             Bot.withEmployees Bot.withSessions].
      * split; [done|]. split; [intros k Hk; by rewrite lookup_insert_ne|].
        split; [by eexists [_]|].
        split; [by split; eauto|].
        split; [intros Hnot; destruct Hnot; by eauto|].
        split; [|done]. intros _. eexists. by rewrite lookup_insert_eq.
      * split; [done|]. split; [intros k Hk; by rewrite lookup_insert_ne|].
        split; [exists []; by rewrite app_nil_r|].
        split; [split; [done|by intros [_ ?]]|].
        split; [intros Hnot; destruct Hnot; by eauto|].
        split; [|done]. intros _. eexists. by rewrite lookup_insert_eq.
    + intros [= <- <-]. cbv zeta.
      split; [done|]. split; [done|].
      split; [exists []; by rewrite app_nil_r|].
      split; [split; [done|by intros [[_ [? ?]] _]]|].
      split; [done|]. split; [by intros [_ [? ?]]|]. done.
Qed.

Lemma saveEmployeeLocation_frame_witness :
  Bot.liveSessions
    (fst (Bot.saveEmployeeLocation DemoBot.t1205 DemoBot.healthy false
            DemoBot.state "acme" "emp-1" 1001 78
            (TgLocation.Build 0.5 0.5 None None None) None false))
    !! Bot.makeLiveKey 1001 77
  = Some DemoBot.entry.
Proof.
  refine (proj1 (saveEmployeeLocation_frame DemoBot.t1205 DemoBot.healthy false
    DemoBot.state _ "acme" "emp-1" 1001 78
    (TgLocation.Build 0.5 0.5 None None None) None false _ (surjective_pairing _))
    1001 77 _).
  intros [= ?].
Defined.

(** The add of the log throws after the update went through: the call
    throws and the document shows the new location all the same. *)
Example log_add_fails_after_update :
  let r := Bot.saveEmployeeLocation DemoBot.t1205 DemoBot.healthy false
             DemoBot.state "acme" "emp-1" 1001 78
             (TgLocation.Build 0.5 0.5 None None None) None false in
  snd r = false
  ∧ Bot.locationLogs (fst r) = []
  ∧ EmployeeDoc.lastChanged <$> Bot.employees (fst r) !! ("acme", "emp-1")
    = Some DemoBot.t1205
  ∧ EmployeeDoc.lastChanged <$> Bot.employees DemoBot.state !! ("acme", "emp-1")
    = Some Demo.t1200.
Proof. vm_compute. done. Qed.



(** *** Phone numbers typed as text *)

Module PhoneFacts.
Import Phone.

Lemma digit_range u : isDigit u = true ↔ 48 <= u <= 57.
Proof. unfold isDigit. rewrite andb_true_iff, !Z.leb_le. done. Qed.

Lemma digit_not_separator u : isDigit u = true → isSeparator u = false.
Proof.
  intros Hu%digit_range. apply not_true_is_false. intros Hsep.
  unfold isSeparator, Js.isWhiteSpace in Hsep.
  repeat (apply orb_true_iff in Hsep as [Hsep|Hsep]);
    repeat (apply andb_true_iff in Hsep as [? Hsep]); lia.
Qed.

Lemma plus_not_separator : isSeparator 43 = false.
Proof. reflexivity. Qed.

(** What is left of digits and separators once the separators are
    dropped is digits. *)
Lemma digits_left units :
  forallb (fun u => isDigit u || isSeparator u) units = true →
  forallb isDigit (List.filter (fun u => negb (isSeparator u)) units) = true.
Proof.
  induction units as [|u units IH]; [done|]. simpl.
  intros [Hu Hrest]%andb_true_iff.
  destruct (isSeparator u) eqn:Hsep; simpl; [by apply IH|].
  rewrite orb_false_r in Hu. rewrite Hu. by apply IH.
Qed.

Lemma filter_digits units :
  forallb isDigit units = true →
  List.filter (fun u => negb (isSeparator u)) units = units.
Proof.
  induction units as [|u units IH]; [done|]. simpl.
  intros [Hu Hrest]%andb_true_iff.
  by rewrite (digit_not_separator u Hu), IH.
Qed.

Lemma length_filter_le {A} (f : A → bool) (l : list A) :
  (length (List.filter f l) ≤ length l)%nat.
Proof. induction l as [|x l IH]; simpl; [done|]. destruct (f x); simpl; lia. Qed.

(** The two cases of ["+"] in front. *)
Lemma plus_cases (units : list Z) :
  (∃ rest, units = 43 :: rest) ∨ body units = units.
Proof.
  destruct units as [|u rest]; [by right|].
  destruct (decide (u = 43)) as [->|Hne]; [left; by exists rest|].
  right.
  destruct u as [|q|q]; try done.
  do 6 (destruct q as [q|q|]; try done).
Qed.

Lemma plus_in_front units :
  forallb isDigit units = true →
  match units with 43 :: _ => units | _ => 43 :: units end = 43 :: units.
Proof.
  destruct units as [|u rest]; [done|]. simpl.
  intros [Hu%digit_range _]%andb_true_iff.
  destruct u as [|q|q]; try done.
  do 6 (destruct q as [q|q|]; try done). lia.
Qed.

(** A ["+"] followed by digits is left as it is. *)
Lemma normalizePhone_plus_digits ds :
  forallb isDigit ds = true → normalizePhone (43 :: ds) = 43 :: ds.
Proof.
  intros Hds. unfold normalizePhone. cbv zeta.
  change (List.filter (fun u => negb (isSeparator u)) (43 :: ds))
    with (43 :: List.filter (fun u => negb (isSeparator u)) ds).
  by rewrite filter_digits.
Qed.

(** What the handler hands on for a text that passed the test. *)
Lemma normalizePhone_looksLikePhone units :
  looksLikePhone units = true →
  normalizePhone units
  = 43 :: List.filter (fun u => negb (isSeparator u)) (body units).
Proof.
  unfold looksLikePhone.
  intros [[Hchars _]%andb_true_iff _]%andb_true_iff.
  apply digits_left in Hchars.
  destruct (plus_cases units) as [[rest ->]|Hbody].
  - done.
  - rewrite Hbody in *. unfold normalizePhone. cbv zeta.
    by apply plus_in_front.
Qed.
End PhoneFacts.

Module DemoPhone.
(** A number typed with no-break spaces (U+00A0) between its groups,
    as a phone keyboard may put them. *)
Definition typed : string := "0911 223 344".

Definition normalized : list Z := Js.codeUnits "+0911223344".
End DemoPhone.

(** A text the [message] handler takes for a phone number is handed on
    as a ["+"] followed by digits only, at most 15 of them, and the
    normalization [handleContactShare] applies again leaves it as it
    is.  The blanks the test lets through are those of [\s], the
    no-break space and the other Unicode blanks included, and all of
    them are dropped.  (There need be no digit at all: ten blanks pass
    the test.) *)
Theorem typed_phone_number_shape (text : string) (p : list Z) :
  Phone.phoneFromText text = Some p →
  ∃ digits,
    p = 43 :: digits
    ∧ digits = List.filter (fun u => negb (Phone.isSeparator u))
                 (Phone.body (Js.codeUnits text))
    ∧ forallb Phone.isDigit digits = true
    ∧ (length digits ≤ 15)%nat
    ∧ Phone.lookedUpPhone p = p.
Proof.
  unfold Phone.phoneFromText.
  destruct (Js.truthyStr text && Phone.looksLikePhone (Js.codeUnits text))
    eqn:Htest; [|discriminate].
  intros [= <-]. apply andb_true_iff in Htest as [_ Hlooks].
  rewrite (PhoneFacts.normalizePhone_looksLikePhone _ Hlooks).
  unfold Phone.looksLikePhone in Hlooks.
  apply andb_true_iff in Hlooks as [[Hchars _]%andb_true_iff Hlen].
  apply Nat.leb_le in Hlen.
  pose proof (PhoneFacts.digits_left _ Hchars) as Hdigits.
  pose proof (PhoneFacts.length_filter_le
                (fun u => negb (Phone.isSeparator u))
                (Phone.body (Js.codeUnits text))) as Hshort.
  eexists. split; [reflexivity|]. split; [reflexivity|].
  split; [done|]. split; [lia|].
  by apply PhoneFacts.normalizePhone_plus_digits.
Qed.

Lemma typed_phone_number_shape_witness :
  Js.codeUnits DemoPhone.typed = [48; 57; 49; 49; 160; 50; 50; 51; 160; 51; 52; 52]
  ∧ Phone.phoneFromText DemoPhone.typed = Some DemoPhone.normalized
  ∧ ∃ digits,
      DemoPhone.normalized = 43 :: digits
      ∧ forallb Phone.isDigit digits = true.
Proof.
  split; [vm_compute; reflexivity|]. split; [vm_compute; reflexivity|].
  destruct (typed_phone_number_shape DemoPhone.typed DemoPhone.normalized)
    as (digits & Hp & _ & Hdigits & _).
  - vm_compute. reflexivity.
  - exists digits. split; [exact Hp | exact Hdigits].
Defined.

(** *** Location messages, from the chat to the store *)

Module IngestionFacts.
Import Ingestion.

(** The employee is linked to the chat. *)
Abbreviation linked chatId e :=
  (EmployeeModel.telegramChatID e = Some (pretty (chatId : Z))).

(** No readable project of the list has an employee linked to the chat. *)
Definition unknownChat (healthyDbs : HealthyDbs) (chatId : Z) : Prop :=
  ∀ p db e, (p, db) ∈ healthyDbs → Firestore.readsSucceed db = true →
            e ∈ Firestore.employee db → ¬ linked chatId e.

Lemma find_linked_None chatId es :
  List.find (fun e => bool_decide (linked chatId e)) es = None
  ↔ ∀ e, e ∈ es → ¬ linked chatId e.
Proof.
  split.
  - intros Hnone e Hin%list_elem_of_In.
    apply (List.find_none _ _ Hnone) in Hin. by apply bool_decide_eq_false in Hin.
  - intros Hall. induction es as [|e es IH]; [done|]. simpl.
    rewrite bool_decide_eq_false_2 by (apply Hall, list_elem_of_here).
    apply IH. intros e' Hin. by apply Hall, list_elem_of_further.
Qed.

Lemma unknownChat_cons p db rest chatId :
  unknownChat ((p, db) :: rest) chatId
  ↔ (Firestore.readsSucceed db = true →
     ∀ e, e ∈ Firestore.employee db → ¬ linked chatId e)
    ∧ unknownChat rest chatId.
Proof.
  unfold unknownChat. split.
  - intros Hall. split.
    + intros Hreads e. apply (Hall p db e); [apply list_elem_of_here | done].
    + intros p' db' e Hin. by apply (Hall p' db' e), list_elem_of_further.
  - intros [Hhere Hrest] p' db' e [[= -> ->]|Hin]%elem_of_cons.
    + intros Hreads. by apply Hhere.
    + by apply (Hrest p' db' e).
Qed.

Lemma findEmployeeByChatId_spec healthyDbs chatId :
  match findEmployeeByChatId healthyDbs chatId with
  | Some (e, p) =>
      ∃ before db after,
        healthyDbs = before ++ (p, db) :: after
        ∧ Firestore.readsSucceed db = true
        ∧ e ∈ Firestore.employee db ∧ linked chatId e
        ∧ unknownChat before chatId
  | None => unknownChat healthyDbs chatId
  end.
Proof.
  induction healthyDbs as [|[p db] rest IH]; simpl.
  { intros p db e Hin. by apply elem_of_nil in Hin. }
  destruct (Firestore.readsSucceed db) eqn:Hreads.
  - destruct (List.find _ (Firestore.employee db)) as [e|] eqn:Hfind.
    + apply List.find_some in Hfind as [Hin Hlinked].
      exists [], db, rest. split; [done|]. split; [done|].
      split; [by apply list_elem_of_In|]. split; [by apply bool_decide_eq_true in Hlinked|].
      intros p' db' e' Hnil. by apply elem_of_nil in Hnil.
    + pose proof (proj1 (find_linked_None chatId _) Hfind) as Hnone.
      destruct (findEmployeeByChatId rest chatId) as [[e p']|].
      * destruct IH as (before & db' & after & -> & Hr & Hin & Hl & Hunknown).
        exists ((p, db) :: before), db', after. split; [done|].
        split; [done|]. split; [done|]. split; [done|].
        apply unknownChat_cons. by split.
      * apply unknownChat_cons. by split.
  - destruct (findEmployeeByChatId rest chatId) as [[e p']|].
    + destruct IH as (before & db' & after & -> & Hr & Hin & Hl & Hunknown).
      exists ((p, db) :: before), db', after. split; [done|].
      split; [done|]. split; [done|]. split; [done|].
      apply unknownChat_cons. split; [congruence | done].
    + apply unknownChat_cons. split; [congruence | done].
Qed.
End IngestionFacts.

(** The lookup by chat returns the first employee linked to the chat,
    going through the projects in order and passing over those whose
    query fails: the employee returned belongs to a readable project
    and is linked to the chat, no readable project before it has such
    an employee, and nothing is returned only if no readable project
    has one. *)
Theorem findEmployeeByChatId_first_match (healthyDbs : HealthyDbs) (chatId : Z) :
  match Ingestion.findEmployeeByChatId healthyDbs chatId with
  | Some (e, p) =>
      ∃ before db after,
        healthyDbs = before ++ (p, db) :: after
        ∧ Firestore.readsSucceed db = true
        ∧ e ∈ Firestore.employee db
        ∧ EmployeeModel.telegramChatID e = Some (pretty chatId)
        ∧ IngestionFacts.unknownChat before chatId
  | None => IngestionFacts.unknownChat healthyDbs chatId
  end.
Proof. apply IngestionFacts.findEmployeeByChatId_spec. Qed.

(** A location from a chat that has no session and that no readable
    project links to an employee changes nothing: no registry entry,
    no document, no log.  The same holds for a message carrying no
    location. *)
Theorem location_without_context_is_dropped
    (now : Z) (chatSessions : gmap Z ChatSession.t) (healthyDbs : HealthyDbs)
    (dbs : string → Bot.DbHealth) (logAdded : bool) (st : Bot.State)
    (msg : TelegramMessage.t) (isEdit : bool) :
  TelegramMessage.location msg = None
  ∨ (chatSessions !! TelegramMessage.chat_id msg = None
     ∧ IngestionFacts.unknownChat healthyDbs (TelegramMessage.chat_id msg)) →
  Ingestion.handleLocationMessage now chatSessions healthyDbs dbs logAdded st msg
    isEdit = st.
Proof.
  unfold Ingestion.handleLocationMessage, Ingestion.ensureEmployeeByChat.
  intros [->|[-> Hunknown]]; [done|].
  destruct (TelegramMessage.location msg); [|done].
  pose proof (IngestionFacts.findEmployeeByChatId_spec healthyDbs
                (TelegramMessage.chat_id msg)) as Hspec.
  destruct (Ingestion.findEmployeeByChatId _ _) as [[e p]|]; [|done].
  destruct Hspec as (before & db & after & -> & Hreads & Hin & Hlinked & _).
  exfalso. apply (Hunknown p db e); try done.
  apply elem_of_app. right. apply list_elem_of_here.
Qed.

Lemma location_without_context_is_dropped_witness :
  Ingestion.handleLocationMessage DemoBot.t1205 ∅ Demo.dbs DemoBot.healthy true
    DemoBot.state
    (TelegramMessage.Build 1001 78 (Some (TgLocation.Build 0.5 0.5 None None None))
       (Some 60) None) false
  = DemoBot.state.
Proof.
  apply location_without_context_is_dropped. right. split; [done|].
  intros p db e [[= -> ->]|Hin%elem_of_nil]%elem_of_cons; [|done].
  intros _ Hnone. simpl in Hnone. by apply elem_of_nil in Hnone.
Defined.


